(** * SEO audit backend: normalisation and recommendation pipeline

    A shallow embedding of the pure parts of the analysers
    ([api/geo_module.py], [api/seo_health.py], [api/traffic_estimation.py],
    [api/report.py]) together with the properties stated for them.

    Conventions of the embedding.
    - A Python [str] is a list of characters; a character is a code point
      below 256, and [lower], [isspace], [\s] and [\d] follow Python on
      that range.  The fixed texts of the source are kept byte for byte.
    - Python [int] is [Z].  A Python [float] is the rational it denotes and
      arithmetic on it is exact ([Q]); a decimal literal denotes its decimal
      value.  Where the last bit of a binary64 product can move a truncated
      result by one, the properties give bounds rather than the value.
    - [random] draws, the clock and the replies of the remote services are
      inputs of the functions that use them.
    - A function that may raise returns an [option]; [None] is the raised
      exception. *)

From Stdlib Require Import Strings.String Strings.Ascii List ZArith QArith Qround Lia Lqa.
From Stdlib Require Import Numbers.DecimalString Sorting.Sorted Sorting.Permutation.
From stdpp Require Import gmap strings list.

#[global] Set Warnings "-via-type-remapping,-via-type-mismatch,-register-all".

(** ** Python strings *)

Abbreviation str := (list ascii).

(** String literals denote lists of characters. *)
Definition literal : Type := list ascii.

Inductive lit : Type :=
| lit_nil
| lit_cons (a : ascii) (l : lit).

Fixpoint lit_of_bytes (l : list Byte.byte) : lit :=
  match l with
  | nil => lit_nil
  | cons b l => lit_cons (ascii_of_byte b) (lit_of_bytes l)
  end.

Fixpoint bytes_of_lit (l : lit) : list Byte.byte :=
  match l with
  | lit_nil => nil
  | lit_cons a l => cons (byte_of_ascii a) (bytes_of_lit l)
  end.

Declare Scope str_scope.
Delimit Scope str_scope with str.
String Notation literal lit_of_bytes bytes_of_lit
  (via lit mapping [[nil] => lit_nil, [cons] => lit_cons]) : str_scope.
Open Scope Z_scope.
Open Scope str_scope.

Definition code (c : ascii) : N := N_of_ascii c.

Definition in_range (lo hi : N) (c : ascii) : bool :=
  ((lo <=? code c) && (code c <=? hi))%N.

(** [str.lower()], one character: A-Z and the Latin-1 capitals. *)
Definition is_upper (c : ascii) : bool :=
  in_range 65 90 c || (in_range 192 222 c && negb (code c =? 215)%N).

Definition lower_char (c : ascii) : ascii :=
  if is_upper c then ascii_of_N (code c + 32) else c.

Definition lower (s : str) : str := List.map lower_char s.

(** [str.isspace()] and the regular expression class [\s]. *)
Definition isspace (c : ascii) : bool :=
  in_range 9 13 c || in_range 28 32 c || (code c =? 133)%N || (code c =? 160)%N.

(** The regular expression class [\d]. *)
Definition isdigit (c : ascii) : bool := in_range 48 57 c.

Definition is_char (a : ascii) (c : ascii) : bool := Ascii.eqb a c.

Fixpoint lstrip_with (p : ascii -> bool) (s : str) : str :=
  match s with
  | [] => []
  | c :: s' => if p c then lstrip_with p s' else s
  end.

Fixpoint rstrip_with (p : ascii -> bool) (s : str) : str :=
  match s with
  | [] => []
  | c :: s' =>
      match rstrip_with p s' with
      | [] => if p c then [] else [c]
      | r => c :: r
      end
  end.

(** [s.strip()] *)
Definition strip (s : str) : str := rstrip_with isspace (lstrip_with isspace s).

(** [s] with the prefix [p] removed, when [s] starts with [p]. *)
Fixpoint strip_prefix (p s : str) : option str :=
  match p, s with
  | [], _ => Some s
  | a :: p', b :: s' => if Ascii.eqb a b then strip_prefix p' s' else None
  | _ :: _, [] => None
  end.

Definition startswith (p s : str) : bool :=
  match strip_prefix p s with Some _ => true | None => false end.

(** [re.sub(r'^https?://', '', s)]: the anchor only matches at position 0,
    so at most one scheme is removed. *)
Definition sub_scheme (s : str) : str :=
  match strip_prefix "https://" s with
  | Some r => r
  | None => match strip_prefix "http://" s with
            | Some r => r
            | None => s
            end
  end.

(** [re.sub(r'^www\.', '', s)] *)
Definition sub_www (s : str) : str :=
  match strip_prefix "www." s with
  | Some r => r
  | None => s
  end.

(** [geo_module.clean_domain] *)
Definition clean_domain (domain : str) : str :=
  let domain := strip (lower domain) in
  let domain := sub_scheme domain in
  let domain := sub_www domain in
  let domain := rstrip_with (is_char "/") domain in
  domain.

(** [len(s)] *)
Definition len (s : str) : Z := Z.of_nat (length s).

Definition len_list {A} (l : list A) : Z := Z.of_nat (length l).

(** [sub in s] *)
Fixpoint contains (sub s : str) : bool :=
  startswith sub s ||
  match s with
  | [] => false
  | _ :: s' => contains sub s'
  end.

Fixpoint find_at (i : Z) (sub s : str) : Z :=
  if startswith sub s then i
  else match s with
       | [] => -1
       | _ :: s' => find_at (i + 1) sub s'
       end.

(** [s.find(sub)]: the lowest index where [sub] occurs, or -1. *)
Definition find (sub s : str) : Z := find_at 0 sub s.

(** [s[start:stop]] for non-negative [start] and [stop]. *)
Definition slice (s : str) (start stop : Z) : str :=
  firstn (Z.to_nat (stop - start)) (skipn (Z.to_nat start) s).

Definition positive_words : list str :=
  ["best"; "excellent"; "great"; "amazing"; "top"; "leading"; "recommended";
   "popular"; "trusted"].

Definition negative_words : list str :=
  ["worst"; "bad"; "poor"; "terrible"; "avoid"; "issues"; "problems"; "scam";
   "unreliable"].

(** [sum(1 for word in words if word in context)] *)
Definition count_hits (words : list str) (context : str) : Z :=
  len_list (List.filter (fun word => contains word context) words).

(** [geo_module.extract_sentiment] *)
Definition extract_sentiment (text brand : str) : str :=
  let text_lower := lower text in
  let brand_lower := lower brand in
  let brand_pos := find brand_lower text_lower in
  if brand_pos =? -1 then "neutral"
  else
    let start := Z.max 0 (brand_pos - 100) in
    let stop := Z.min (len text) (brand_pos + len brand + 100) in
    let context := slice text_lower start stop in
    let pos_count := count_hits positive_words context in
    let neg_count := count_hits negative_words context in
    if pos_count >? neg_count then "positive"
    else if neg_count >? pos_count then "negative"
    else "neutral".

Definition LF : ascii := ascii_of_N 10.

(** [s.split(sep)] for a one-character separator. *)
Fixpoint split_on (sep : ascii) (s : str) : list str :=
  match s with
  | [] => [[]]
  | c :: s' =>
      if Ascii.eqb c sep then [] :: split_on sep s'
      else match split_on sep s' with
           | l :: ls => (c :: l) :: ls
           | [] => [[c]]
           end
  end.

Fixpoint span (p : ascii -> bool) (s : str) : str * str :=
  match s with
  | [] => ([], [])
  | c :: s' => if p c then let (a, b) := span p s' in (c :: a, b) else ([], s)
  end.

Definition digit_value (c : ascii) : Z := Z.of_N (code c) - 48.

(** [int(ds)] for a string of decimal digits. *)
Definition int_of_digits (ds : str) : Z :=
  fold_left (fun acc c => 10 * acc + digit_value c) ds 0.

Definition is_separator (c : ascii) : bool :=
  is_char "." c || is_char "-" c || is_char ")" c.

(** [re.match(r'^\s*(\d+)\s*[.\-)]\s*', line)] followed by
    [int(match.group(1))].  Each greedy star and plus consumes a maximal
    run, and giving characters back never helps: the character after a
    shortened run is still a space, respectively a digit, which the next
    item of the pattern refuses. *)
Definition match_rank (line : str) : option Z :=
  let (ds, rest) := span isdigit (lstrip_with isspace line) in
  match ds with
  | [] => None
  | _ :: _ =>
      match lstrip_with isspace rest with
      | c :: _ => if is_separator c then Some (int_of_digits ds) else None
      | [] => None
      end
  end.

(** The loop of [extract_rank] over [enumerate(lines)], from index [i]. *)
Fixpoint extract_rank_from (i : Z) (lines : list str) (brand : str) : option Z :=
  match lines with
  | [] => None
  | line :: lines' =>
      if contains (lower brand) (lower line) then
        match match_rank line with
        | Some n => Some n
        | None => Some (i + 1)
        end
      else extract_rank_from (i + 1) lines' brand
  end.

(** [geo_module.extract_rank] *)
Definition extract_rank (text brand : str) : option Z :=
  extract_rank_from 0 (split_on LF text) brand.

(** ** GEO analysis *)

Record GEORequest := {
  req_domain : str;
  req_keywords : list str;
  req_check_competitors : option bool
}.

Record BrandMention := {
  platform : str;
  query : str;
  mentioned : bool;
  context : option str;
  sentiment : option str;
  rank : option Z;
  competitors_mentioned : option (list str)
}.

Record GEOSummary := {
  total_checks : Z;
  mentions_found : Z;
  mention_rate : Q;
  sentiment_breakdown : gmap str Z;
  average_rank : option Q
}.

Record GEOResponse := {
  geo_domain : str;
  geo_keywords : list str;
  mentions : list BrandMention;
  summary : GEOSummary
}.

(** Python truthiness of the optional values tested by the code. *)
Definition truthy_bool (o : option bool) : bool :=
  match o with Some b => b | None => false end.

Definition truthy_str (o : option str) : bool :=
  match o with Some (_ :: _) => true | _ => false end.

Definition truthy_int (o : option Z) : bool :=
  match o with Some n => negb (n =? 0) | None => false end.

(** [round(x)] to the nearest integer, ties to even. *)
Definition round_half_even (x : Q) : Z :=
  let f := Qfloor x in
  match Qcompare (x - inject_Z f)%Q (1 # 2)%Q with
  | Lt => f
  | Gt => f + 1
  | Eq => if Z.even f then f else f + 1
  end.

(** [round(x, ndigits)] *)
Definition py_round (x : Q) (ndigits : nat) : Q :=
  let scale := inject_Z (10 ^ Z.of_nat ndigits) in
  (inject_Z (round_half_even (x * scale)) / scale)%Q.

Definition sum_Z (l : list Z) : Z := fold_right Z.add 0 l.

(** The queries probed for a domain and the first three keywords. *)
Definition geo_queries (domain : str) (keywords : list str) : list str :=
  ["What is " ++ domain ++ "?";
   "Who are the main competitors of " ++ domain ++ "?"] ++
  flat_map (fun keyword =>
              ["What are the best tools for " ++ keyword ++ "?";
               "Compare top " ++ keyword ++ " platforms"])
           (firstn 3%nat keywords).

(** One [BrandMention(...)] of the probing loop. *)
Definition probe (extract_competitors : str -> str -> list str)
    (check : option bool) (platform_name query_text domain text : str) : BrandMention :=
  let hit := contains (lower domain) (lower text) in
  {| platform := platform_name;
     query := query_text;
     mentioned := hit;
     context := if hit then Some (firstn 500%nat text) else None;
     sentiment := if hit then Some (extract_sentiment text domain) else None;
     rank := if hit then extract_rank text domain else None;
     competitors_mentioned :=
       if truthy_bool check then Some (extract_competitors text domain) else None |}.

(** The loop [for m in mentions] that fills [sentiment_breakdown]. *)
Definition count_sentiment (acc : gmap str Z) (m : BrandMention) : gmap str Z :=
  if truthy_str (sentiment m) then
    match sentiment m with
    | Some s => <[s := default 0 (acc !! s) + 1]> acc
    | None => acc
    end
  else acc.

Definition initial_breakdown : gmap str Z :=
  <["neutral" := 0]> (<["negative" := 0]> (<["positive" := 0]> ∅)).

Definition collect_ranks (ms : list BrandMention) : list Z :=
  flat_map (fun m => if truthy_int (rank m) then
                       match rank m with Some r => [r] | None => [] end
                     else []) ms.

Definition summarize (ms : list BrandMention) : GEOSummary :=
  let total := len_list ms in
  let found := len_list (List.filter mentioned ms) in
  let rate := if total >? 0 then (inject_Z found / inject_Z total)%Q else 0%Q in
  let ranks := collect_ranks ms in
  {| total_checks := total;
     mentions_found := found;
     mention_rate := py_round rate 2%nat;
     sentiment_breakdown := fold_left count_sentiment ms initial_breakdown;
     average_rank :=
       match ranks with
       | [] => None
       | _ :: _ => Some (py_round (inject_Z (sum_Z ranks) / inject_Z (len_list ranks))%Q 1%nat)
       end |}.

Section GeoAnalyze.

(** The text obtained from the Gemini reply to a prompt ([None] when
    taking the first candidate's first part raises) and the text of the
    ChatGPT reply. *)
Variable gemini_text : str -> option str.
Variable chatgpt_text : str -> str.
(** [extract_competitors], whose result only fills [competitors_mentioned]. *)
Variable extract_competitors : str -> str -> list str.

(** The loop [for query in queries]. *)
Fixpoint probe_all (check : option bool) (domain : str) (queries : list str)
  : option (list BrandMention) :=
  match queries with
  | [] => Some []
  | q :: queries' =>
      g ← gemini_text q;
      rest ← probe_all check domain queries';
      Some (probe extract_competitors check "gemini" q domain g
            :: probe extract_competitors check "chatgpt" q domain (chatgpt_text q)
            :: rest)
  end.

(** [geo_module.analyze_geo], up to the summary; the recommendation
    strings are computed from the summary afterwards.  [None] is the
    HTTP 500 of the [except] clause. *)
Definition analyze_geo (request : GEORequest) : option GEOResponse :=
  let domain := clean_domain (req_domain request) in
  ms ← probe_all (req_check_competitors request) domain
       (geo_queries domain (req_keywords request));
  Some {| geo_domain := domain;
          geo_keywords := req_keywords request;
          mentions := ms;
          summary := summarize ms |}.

End GeoAnalyze.

(** ** SEO health *)

Definition Qlt_bool (x y : Q) : bool := negb (Qle_bool y x).

Record Thresholds := {
  good : Q;
  needs_improvement : Q
}.

Definition thresholds : gmap str Thresholds :=
  list_to_map
    [("lcp", {| good := 2.5%Q; needs_improvement := 4.0%Q |});
     ("fid", {| good := 100%Q; needs_improvement := 300%Q |});
     ("cls", {| good := 0.1%Q; needs_improvement := 0.25%Q |});
     ("fcp", {| good := 1.8%Q; needs_improvement := 3.0%Q |});
     ("ttfb", {| good := 0.8%Q; needs_improvement := 1.8%Q |})].

(** [seo_health.categorize_metric] *)
Definition categorize_metric (value : Q) (metric_type : str) : str :=
  match thresholds !! metric_type with
  | None => "unknown"
  | Some t =>
      if Qle_bool value (good t) then "good"
      else if Qle_bool value (needs_improvement t) then "needs_improvement"
      else "poor"
  end.

(** One entry of the Lighthouse [audits] object.  A field is [None] when
    the key is missing or null. *)
Record Audit := {
  audit_title : option str;
  audit_description : option str;
  audit_score : option Q;
  audit_displayValue : option str
}.

Record Opportunity := {
  opp_title : str;
  opp_description : str;
  opp_score : option Q;
  opp_savings : option str;
  opp_priority : str
}.

Definition opportunity_audits : list str :=
  ["render-blocking-resources"; "unused-css-rules"; "unused-javascript";
   "modern-image-formats"; "efficiently-encode-images"; "offscreen-images";
   "minify-css"; "minify-javascript"; "remove-unused-css";
   "remove-unused-javascript"; "uses-optimized-images"; "uses-text-compression";
   "uses-responsive-images"; "prioritize-lcp-image"; "font-display"].

(** The sort key [lambda x: x.score or 1]: [None] and the falsy [0] both
    give 1. *)
Definition score_or_1 (x : Opportunity) : Q :=
  match opp_score x with
  | Some s => if Qeq_bool s 0 then 1%Q else s
  | None => 1%Q
  end.

Fixpoint insert_by {A} (key : A -> Q) (x : A) (l : list A) : list A :=
  match l with
  | [] => [x]
  | y :: l' => if Qle_bool (key x) (key y) then x :: l else y :: insert_by key x l'
  end.

(** [list.sort(key=...)]: a stable sort, elements with equal keys keep
    their order. *)
Definition sort_by {A} (key : A -> Q) (l : list A) : list A :=
  fold_right (insert_by key) [] l.

(** The body of the loop over [opportunity_audits].  An audit whose score
    is not [None] is a non-empty object, which is what [if audit] asks. *)
Definition opportunity_of (audits : gmap str Audit) (audit_id : str) : list Opportunity :=
  match audits !! audit_id with
  | Some audit =>
      match audit_score audit with
      | Some s =>
          if Qlt_bool s 1%Q then
            [{| opp_title := default audit_id (audit_title audit);
                opp_description := default "" (audit_description audit);
                opp_score := Some s;
                opp_savings := Some (default "" (audit_displayValue audit));
                opp_priority := if Qlt_bool s 0.5%Q then "high" else "medium" |}]
          else []
      | None => []
      end
  | None => []
  end.

(** [seo_health.extract_opportunities], on the [audits] object of the
    Lighthouse result. *)
Definition extract_opportunities (audits : gmap str Audit) : list Opportunity :=
  sort_by score_or_1 (flat_map (opportunity_of audits) opportunity_audits).

Record CoreWebVitals := {
  lcp : option Q;
  lcp_category : option str;
  fid : option Q;
  fid_category : option str;
  cls : option Q;
  cls_category : option str;
  fcp : option Q;
  fcp_category : option str;
  ttfb : option Q;
  ttfb_category : option str
}.

Inductive MetaValue :=
| MStr (s : str)
| MBool (b : bool).

Record SEOHealthRequest := {
  seo_url : str;
  seo_strategy : option str
}.

(** The fields of [SEOHealthResponse]; [strategy] is a required [str]. *)
Record SEOHealthResponse := {
  resp_url : str;
  resp_strategy : str;
  performance_score : option Z;
  seo_score : option Z;
  accessibility_score : option Z;
  best_practices_score : option Z;
  core_web_vitals : CoreWebVitals;
  opportunities : list Opportunity;
  diagnostics : list (list (str * str));
  metadata : list (str * MetaValue);
  recommendations : list str
}.

(** The dictionary built by [get_demo_seo_data]; [strategy] is whatever the
    request carried. *)
Record DemoData := {
  demo_url : str;
  demo_strategy : option str;
  demo_performance_score : Z;
  demo_seo_score : Z;
  demo_accessibility_score : Z;
  demo_best_practices_score : Z;
  demo_core_web_vitals : CoreWebVitals;
  demo_opportunities : list Opportunity;
  demo_diagnostics : list (list (str * str));
  demo_metadata : list (str * MetaValue);
  demo_recommendations : list str
}.

(** The values drawn from [random] by [get_demo_seo_data]. *)
Record DemoDraws := {
  draw_performance : Z;
  draw_seo : Z;
  draw_accessibility : Z;
  draw_best_practices : Z;
  draw_lcp : Q;
  draw_lcp_category : str;
  draw_fid : Z;
  draw_fid_category : str;
  draw_cls : Q;
  draw_cls_category : str;
  draw_fcp : Q;
  draw_ttfb : Q
}.

(** The ranges [random] draws from. *)
Definition demo_draws_ok (d : DemoDraws) : Prop :=
  60 <= draw_performance d <= 95 /\
  70 <= draw_seo d <= 95 /\
  65 <= draw_accessibility d <= 90 /\
  75 <= draw_best_practices d <= 98 /\
  (1.5 <= draw_lcp d <= 3.5)%Q /\
  In (draw_lcp_category d) ["good"; "needs_improvement"; "poor"] /\
  10 <= draw_fid d <= 150 /\
  In (draw_fid_category d) ["good"; "needs_improvement"] /\
  (0.01 <= draw_cls d <= 0.25)%Q /\
  In (draw_cls_category d) ["good"; "needs_improvement"; "poor"] /\
  (1.0 <= draw_fcp d <= 2.5)%Q /\
  (0.4 <= draw_ttfb d <= 1.2)%Q.

(** [seo_health.get_demo_seo_data] *)
Definition get_demo_seo_data (url : str) (strategy : option str) (d : DemoDraws) : DemoData :=
  {| demo_url := url;
     demo_strategy := strategy;
     demo_performance_score := draw_performance d;
     demo_seo_score := draw_seo d;
     demo_accessibility_score := draw_accessibility d;
     demo_best_practices_score := draw_best_practices d;
     demo_core_web_vitals :=
       {| lcp := Some (py_round (draw_lcp d) 2%nat);
          lcp_category := Some (draw_lcp_category d);
          fid := Some (inject_Z (draw_fid d));
          fid_category := Some (draw_fid_category d);
          cls := Some (py_round (draw_cls d) 3%nat);
          cls_category := Some (draw_cls_category d);
          fcp := Some (py_round (draw_fcp d) 2%nat);
          fcp_category := Some "good";
          ttfb := Some (py_round (draw_ttfb d) 2%nat);
          ttfb_category := Some "good" |};
     demo_opportunities :=
       [{| opp_title := "Eliminate render-blocking resources";
           opp_description := "Resources are blocking the first paint of your page.";
           opp_score := Some 0.42%Q;
           opp_savings := Some "1.2s";
           opp_priority := "high" |};
        {| opp_title := "Properly size images";
           opp_description := "Serve images that are appropriately-sized.";
           opp_score := Some 0.65%Q;
           opp_savings := Some "0.8s";
           opp_priority := "medium" |}];
     demo_diagnostics := [];
     demo_metadata :=
       [("lighthouse_version", MStr "11.0.0");
        ("fetch_time", MStr "2024-01-15T10:30:00Z");
        ("demo_mode", MBool true)];
     demo_recommendations :=
       ["⚠️ Performance needs improvement. Consider lazy loading images.";
        "📋 SEO Score could be improved. Check meta tags and headings.";
        "♿ Accessibility score needs attention. Add alt text to images."] |}.

(** [SEOHealthResponse] built from the demo data: the validation of the
    model refuses [None] for the required string field [strategy] and
    raises; every other field of the demo data has the type its field
    declares. *)
Definition validate_response (d : DemoData) : option SEOHealthResponse :=
  match demo_strategy d with
  | None => None
  | Some strategy =>
      Some {| resp_url := demo_url d;
              resp_strategy := strategy;
              performance_score := Some (demo_performance_score d);
              seo_score := Some (demo_seo_score d);
              accessibility_score := Some (demo_accessibility_score d);
              best_practices_score := Some (demo_best_practices_score d);
              core_web_vitals := demo_core_web_vitals d;
              opportunities := demo_opportunities d;
              diagnostics := demo_diagnostics d;
              metadata := demo_metadata d;
              recommendations := demo_recommendations d |}
  end.

Section SeoAnalyze.

(** The module-level [PAGESPEED_API_KEY], and the outcome of the [try]
    block that calls PageSpeed Insights ([None] when it raises). *)
Variable PAGESPEED_API_KEY : str.
Variable pagespeed_analysis : SEOHealthRequest -> option SEOHealthResponse.

(** [seo_health.analyze_seo_health]; [None] is a raised exception. *)
Definition analyze_seo_health (request : SEOHealthRequest) (d : DemoDraws)
  : option SEOHealthResponse :=
  match PAGESPEED_API_KEY with
  | [] => validate_response (get_demo_seo_data (seo_url request) (seo_strategy request) d)
  | _ :: _ => pagespeed_analysis request
  end.

End SeoAnalyze.

(** ** Traffic estimation *)

(** [int(x)]: truncation towards zero. *)
Definition py_int (x : Q) : Z := Z.quot (Qnum x) (Z.pos (Qden x)).

(** [str(n)] for an integer. *)
Definition str_of_int (n : Z) : str :=
  list_ascii_of_string (NilZero.string_of_int (Z.to_int n)).

(** An [int] field of a model given the number [x]: an integral value is
    taken, a value with a fractional part is refused. *)
Definition int_field (x : Q) : option Z :=
  let r := Qred x in
  if (Qden r =? 1)%positive then Some (Qnum r) else None.

Record TrafficMetrics := {
  monthly_visits : Z;
  monthly_visits_min : Z;
  monthly_visits_max : Z;
  avg_visit_duration : option str;
  pages_per_visit : option Q;
  bounce_rate : option Q
}.

(** The values drawn from [random] by [estimate_traffic_metrics]. *)
Record MetricsDraws := {
  draw_base : Z;
  draw_minutes : Z;
  draw_seconds : Z;
  draw_pages : Q;
  draw_bounce : Q
}.


(** [any(tld in domain for tld in ['.gov', '.edu'])] *)
Definition has_gov_or_edu (domain : str) : bool :=
  existsb (fun tld => contains tld domain) [".gov"; ".edu"].

(** [traffic_estimation.estimate_traffic_metrics]; [None] when the
    [TrafficMetrics] model refuses [monthly_visits]. *)
Definition estimate_traffic_metrics (domain : str) (d : MetricsDraws)
  : option TrafficMetrics :=
  let base_traffic := inject_Z (draw_base d) in
  let base_traffic := if has_gov_or_edu domain then (base_traffic * 2)%Q else base_traffic in
  let base_traffic := if len domain <? 10 then (base_traffic * 1.5)%Q else base_traffic in
  let min_traffic := py_int (base_traffic * 0.7)%Q in
  let max_traffic := py_int (base_traffic * 1.3)%Q in
  visits ← int_field base_traffic;
  Some {| monthly_visits := visits;
          monthly_visits_min := min_traffic;
          monthly_visits_max := max_traffic;
          avg_visit_duration :=
            Some (str_of_int (draw_minutes d) ++ "m " ++ str_of_int (draw_seconds d) ++ "s");
          pages_per_visit := Some (py_round (draw_pages d) 2%nat);
          bounce_rate := Some (py_round (draw_bounce d) 2%nat) |}.

Record TrafficSource := {
  source : str;
  percentage : Q;
  estimated_visits : Z
}.

(** The six weights drawn by [estimate_traffic_sources]. *)
Record SourceDraws := {
  draw_organic : Q;
  draw_direct : Q;
  draw_referral : Q;
  draw_social : Q;
  draw_paid : Q;
  draw_email : Q
}.

Definition source_draws_ok (d : SourceDraws) : Prop :=
  (0.35 <= draw_organic d <= 0.60 /\
   0.15 <= draw_direct d <= 0.35 /\
   0.05 <= draw_referral d <= 0.20 /\
   0.03 <= draw_social d <= 0.15 /\
   0 <= draw_paid d <= 0.15 /\
   0.01 <= draw_email d <= 0.08)%Q.

Definition sum_Q (l : list Q) : Q := fold_right Qplus 0%Q l.

(** [traffic_estimation.estimate_traffic_sources]; [None] is the division
    by a zero total. *)
Definition estimate_traffic_sources (total_visits : Z) (d : SourceDraws)
  : option (list TrafficSource) :=
  let sources :=
    [("Organic Search", draw_organic d); ("Direct", draw_direct d);
     ("Referral", draw_referral d); ("Social Media", draw_social d);
     ("Paid Search", draw_paid d); ("Email", draw_email d)] in
  let total := sum_Q (List.map snd sources) in
  if Qeq_bool total 0%Q then None
  else
    let normalized := List.map (fun '(name, pct) => (name, (pct / total)%Q)) sources in
    Some (List.map (fun '(name, pct) =>
                      {| source := name;
                         percentage := py_round (pct * 100)%Q 1%nat;
                         estimated_visits := py_int (inject_Z total_visits * pct)%Q |})
                   normalized).



(** ** Report builder *)

(** The payloads are JSON objects ([Dict[str, Any]]); an object keeps its
    entries in order. *)
Inductive Json : Type :=
| JNull
| JBool (b : bool)
| JNum (x : Q)
| JStr (s : str)
| JList (items : list Json)
| JDict (entries : list (str * Json)).

Abbreviation Dict := (list (str * Json)).

(** Python truthiness. *)
Definition truthy (v : Json) : bool :=
  match v with
  | JNull => false
  | JBool b => b
  | JNum x => negb (Qeq_bool x 0)
  | JStr s => match s with [] => false | _ :: _ => true end
  | JList l => match l with [] => false | _ :: _ => true end
  | JDict d => match d with [] => false | _ :: _ => true end
  end.


Fixpoint dict_lookup (d : Dict) (k : str) : option Json :=
  match d with
  | [] => None
  | (k', v) :: d' => if decide (k' = k) then Some v else dict_lookup d' k
  end.

(** [k in d] *)
Definition has_key (d : Dict) (k : str) : bool :=
  match dict_lookup d k with Some _ => true | None => false end.

(** [d.get(k)] and [d.get(k, dflt)] *)
Definition get (d : Dict) (k : str) : Json := default JNull (dict_lookup d k).
Definition get_or (d : Dict) (k : str) (dflt : Json) : Json := default dflt (dict_lookup d k).

(** The receiver of [.get] and [.items()]: anything but an object raises. *)
Definition as_dict (v : Json) : option Dict :=
  match v with JDict d => Some d | _ => None end.

(** The operand of a comparison with a number, of [* 100] followed by a
    float format, and of a numeric format: anything but a number raises. *)
Definition number (v : Json) : option Q :=
  match v with
  | JNum x => Some x
  | JBool b => Some (if b then 1 else 0)%Q
  | _ => None
  end.

(** [v[:5]]: a list or a string, anything else raises. *)
Definition first_five (v : Json) : option (list Json) :=
  match v with
  | JList l => Some (firstn 5%nat l)
  | JStr s => Some (List.map (fun c => JStr [c]) (firstn 5%nat s))
  | _ => None
  end.

(** [for x in v]: a list, the characters of a string or the keys of an
    object, anything else raises. *)
Definition iterate (v : Json) : option (list Json) :=
  match v with
  | JList l => Some l
  | JStr s => Some (List.map (fun c => JStr [c]) s)
  | JDict d => Some (List.map (fun kv => JStr (fst kv)) d)
  | _ => None
  end.

(** The pieces of a formatted string are kept apart: literal text, and
    values with the conversion applied to them. *)
Inductive Format :=
| FRaw          (* the value itself, as a table cell *)
| FStr          (* {v} and str(v) *)
| FComma        (* {v:,} *)
| FPercent1     (* {v*100:.1f} *)
| FPercent2     (* {v*100:.2f} *)
| FFixed1       (* {v:.1f} *)
| FFixed2       (* {v:.2f} *)
| FCapitalize.  (* v.capitalize() *)

Inductive Piece :=
| Lit (s : str)
| Val (f : Format) (v : Json).

Abbreviation Text := (list Piece).

(** The values a conversion takes without raising. *)
Definition accepts (f : Format) (v : Json) : bool :=
  match f with
  | FRaw | FStr => true
  | FCapitalize => match v with JStr _ => true | _ => false end
  | FComma | FPercent1 | FPercent2 | FFixed1 | FFixed2 =>
      match number v with Some _ => true | None => false end
  end.

Definition fmt (f : Format) (v : Json) : option Piece :=
  if accepts f v then Some (Val f v) else None.

Inductive Style :=
| title_style
| subtitle_style
| heading_style
| subheading_style
| body_style
| footer_style.

(** The flowables appended to [elements]; heights are in inches, and the
    column widths and colours of the tables are left out. *)
Inductive Flowable :=
| Spacer (height : Q)
| Paragraph (text : Text) (style : Style)
| PageBreak
| Table (rows : list (list Text)).

Record ReportRequest := {
  report_url : str;
  seo_data : option Dict;
  search_data : option Dict;
  geo_data : option Dict;
  traffic_data : option Dict;
  include_sections : list str;
  company_name : option str
}.

(** ["Good" if score >= 90 else "Needs Improvement" if score >= 50 else "Poor"] *)
Definition status_of (score : Json) : option str :=
  x ← number score;
  Some (if Qle_bool 90 x then "Good"
        else if Qle_bool 50 x then "Needs Improvement" else "Poor").

Definition rating_of (score : Json) : option str :=
  x ← number score;
  Some (if Qle_bool 90 x then "⭐ Excellent"
        else if Qle_bool 70 x then "✓ Good"
        else if Qle_bool 50 x then "⚠ Needs Work" else "❌ Poor").

Definition json_is (v : Json) (s : str) : bool :=
  match v with JStr s' => bool_decide (s' = s) | _ => false end.

Definition status_icon (status : Json) : str :=
  if json_is status "good" then "✓"
  else if json_is status "needs_improvement" then "⚠" else "❌".

(** One row of the key-metrics table. *)
Definition stats_row (seo : Dict) (key label : str) : option (list (list Text)) :=
  if has_key seo key then
    let score := get_or seo key (JNum 0) in
    status ← status_of score;
    Some [[[Lit label]; [Val FStr score; Lit "/100"]; [Lit status]]]
  else Some [].

Definition visits_row (traffic : option Dict) : option (list (list Text)) :=
  match traffic with
  | Some ((_ :: _) as t) =>
      match dict_lookup t "metrics" with
      | Some metrics =>
          m ← as_dict metrics;
          visits ← fmt FComma (get_or m "monthly_visits" (JNum 0));
          Some [[[Lit "Est. Monthly Visits"]; [visits]; [Lit "Estimated"]]]
      | None => Some []
      end
  | _ => Some []
  end.

(** The key-metrics overview of the executive summary. *)
Definition quick_stats (request : ReportRequest) : option (list Flowable) :=
  match seo_data request with
  | Some ((_ :: _) as seo) =>
      r1 ← stats_row seo "performance_score" "Performance";
      r2 ← stats_row seo "seo_score" "SEO";
      r3 ← stats_row seo "accessibility_score" "Accessibility";
      r4 ← visits_row (traffic_data request);
      Some [Paragraph [Lit "Key Metrics Overview"] subheading_style;
            Table ([[Lit "Metric"]; [Lit "Score"]; [Lit "Status"]] :: r1 ++ r2 ++ r3 ++ r4);
            Spacer 0.3]
  | _ => Some []
  end.

(** One bullet of a recommendation list. *)
Definition bullet (rec : Json) : Flowable :=
  Paragraph [Lit "• "; Val FStr rec] body_style.

(** The recommendation subsection shared by the four sections:
    [if "recommendations" in d and d["recommendations"]: ...]. *)
Definition recommendations_block (d : Dict) (title : str) : option (list Flowable) :=
  match dict_lookup d "recommendations" with
  | Some recs =>
      if truthy recs then
        items ← first_five recs;
        Some (Paragraph [Lit title] subheading_style :: List.map bullet items ++ [Spacer 0.2])
      else Some []
  | None => Some []
  end.

Definition score_row (seo : Dict) (category key : str) : option (list (list Text)) :=
  match get seo key with
  | JNull => Some []
  | score =>
      rating ← rating_of score;
      Some [[[Lit category]; [Val FStr score; Lit "/100"]; [Lit rating]]]
  end.

Definition cwv_row (cwv : Dict) (metric key target category_key : str) : list (list Text) :=
  match get cwv key with
  | JNull => []
  | value =>
      [[[Lit metric]; [Val FStr value]; [Lit target];
        [Lit (status_icon (get cwv category_key))]]]
  end.

Definition cwv_block (seo : Dict) : option (list Flowable) :=
  match dict_lookup seo "core_web_vitals" with
  | Some v =>
      cwv ← as_dict v;
      Some [Paragraph [Lit "Core Web Vitals"] subheading_style;
            Table ([[Lit "Metric"]; [Lit "Value"]; [Lit "Target"]; [Lit "Status"]]
                   :: cwv_row cwv "LCP (Largest Contentful Paint)" "lcp" "< 2.5s" "lcp_category"
                   ++ cwv_row cwv "FID (First Input Delay)" "fid" "< 100ms" "fid_category"
                   ++ cwv_row cwv "CLS (Cumulative Layout Shift)" "cls" "< 0.1" "cls_category"
                   ++ cwv_row cwv "FCP (First Contentful Paint)" "fcp" "< 1.8s" "fcp_category"
                   ++ cwv_row cwv "TTFB (Time to First Byte)" "ttfb" "< 0.8s" "ttfb_category");
            Spacer 0.3]
  | None => Some []
  end.

(** The SEO health section. *)
Definition seo_section (seo : Dict) : option (list Flowable) :=
  r1 ← score_row seo "Performance" "performance_score";
  r2 ← score_row seo "SEO" "seo_score";
  r3 ← score_row seo "Accessibility" "accessibility_score";
  r4 ← score_row seo "Best Practices" "best_practices_score";
  cwv ← cwv_block seo;
  recs ← recommendations_block seo "SEO Recommendations";
  Some ([Paragraph [Lit "1. SEO Health Analysis"] heading_style;
         Spacer 0.2;
         Paragraph [Lit "Performance Scores"] subheading_style;
         Table ([[Lit "Category"]; [Lit "Score"]; [Lit "Rating"]] :: r1 ++ r2 ++ r3 ++ r4);
         Spacer 0.3]
        ++ cwv ++ recs ++ [PageBreak]).

Definition optional_row (index : Dict) (key label : str) : list (list Text) :=
  if truthy (get index key) then [[[Lit label]; [Val FStr (get index key)]]] else [].

Definition index_block (search : Dict) : option (list Flowable) :=
  match dict_lookup search "index_status" with
  | Some v =>
      if truthy v then
        index ← as_dict v;
        Some [Paragraph [Lit "Index Status"] subheading_style;
              Table ([[Lit "Metric"]; [Lit "Value"]]
                     :: [[Lit "Total Pages"]; [Val FStr (get_or index "total_pages" (JStr "N/A"))]]
                     :: [[Lit "Indexed Pages"];
                         [Val FStr (get_or index "indexed_pages" (JStr "N/A"))]]
                     :: [[Lit "Not Indexed"];
                         [Val FStr (get_or index "not_indexed_pages" (JStr "N/A"))]]
                     :: optional_row index "pending_pages" "Pending"
                     ++ optional_row index "errors" "Errors"
                     ++ optional_row index "warnings" "Warnings");
              Spacer 0.3]
      else Some []
  | None => Some []
  end.

(** One row of the search-query table. *)
Definition query_row (perf : Json) : option (list Text) :=
  p ← as_dict perf;
  ctr ← fmt FPercent2 (get_or p "ctr" (JNum 0));
  position ← fmt FFixed1 (get_or p "position" (JNum 0));
  Some [[Val FRaw (get_or p "query" (JStr ""))];
        [Val FStr (get_or p "clicks" (JNum 0))];
        [Val FStr (get_or p "impressions" (JNum 0))];
        [ctr; Lit "%"];
        [position]].

Definition query_header : list Text :=
  [[Lit "Query"]; [Lit "Clicks"]; [Lit "Impressions"]; [Lit "CTR"]; [Lit "Position"]].

Definition queries_block (search : Dict) : option (list Flowable) :=
  match dict_lookup search "search_performance" with
  | Some v =>
      if truthy v then
        items ← first_five v;
        rows ← mapM query_row items;
        Some [Paragraph [Lit "Top Search Queries"] subheading_style;
              Table (query_header :: rows);
              Spacer 0.3]
      else Some []
  | None => Some []
  end.

(** The search visibility section. *)
Definition search_section (search : Dict) : option (list Flowable) :=
  index ← index_block search;
  queries ← queries_block search;
  recs ← recommendations_block search "Search Visibility Recommendations";
  Some ([Paragraph [Lit "2. Search Visibility Analysis"] heading_style; Spacer 0.2]
        ++ index ++ queries ++ recs ++ [PageBreak]).

Definition sentiment_icon (sent_type : str) : str :=
  if bool_decide (sent_type = "positive") then "😊"
  else if bool_decide (sent_type = "negative") then "😞" else "😐".

(** One step of [for sent_type, count in sentiment.items()]. *)
Definition sentiment_line (entry : str * Json) : option (list Flowable) :=
  count ← number (snd entry);
  if Qlt_bool 0 count then
    Some [Paragraph [Lit (sentiment_icon (fst entry)); Lit " ";
                     Val FCapitalize (JStr (fst entry)); Lit ": "; Val FStr (snd entry)]
                    body_style]
  else Some [].

Definition sentiment_block (summary : Dict) : option (list Flowable) :=
  match dict_lookup summary "sentiment_breakdown" with
  | Some v =>
      sentiment ← as_dict v;
      lines ← mapM sentiment_line sentiment;
      Some (Paragraph [Lit "Sentiment Analysis"] subheading_style
            :: concat lines ++ [Spacer 0.2])
  | None => Some []
  end.

Definition geo_summary_block (geo : Dict) : option (list Flowable) :=
  match dict_lookup geo "summary" with
  | Some v =>
      summary ← as_dict v;
      rate ← fmt FPercent1 (get_or summary "mention_rate" (JNum 0));
      sentiment ← sentiment_block summary;
      Some ([Paragraph [Lit "AI Visibility Summary"] subheading_style;
             Paragraph [Lit "<b>Total Checks:</b> ";
                        Val FStr (get_or summary "total_checks" (JNum 0));
                        Lit "<br/><b>Mentions Found:</b> ";
                        Val FStr (get_or summary "mentions_found" (JNum 0));
                        Lit "<br/><b>Mention Rate:</b> "; rate;
                        Lit "%<br/><b>Average Rank:</b> ";
                        Val FStr (get_or summary "average_rank" (JStr "N/A"));
                        Lit "<br/>"] body_style;
             Spacer 0.2] ++ sentiment)
  | None => Some []
  end.

(** The GEO section. *)
Definition geo_section (geo : Dict) : option (list Flowable) :=
  summary ← geo_summary_block geo;
  recs ← recommendations_block geo "GEO Recommendations";
  Some ([Paragraph [Lit "3. Generative Engine Optimization (GEO)"] heading_style;
         Spacer 0.2]
        ++ summary ++ recs ++ [PageBreak]).

Definition traffic_metrics_block (traffic : Dict) : option (list Flowable) :=
  match dict_lookup traffic "metrics" with
  | Some v =>
      metrics ← as_dict v;
      visits ← fmt FComma (get_or metrics "monthly_visits" (JNum 0));
      vmin ← fmt FComma (get_or metrics "monthly_visits_min" (JNum 0));
      vmax ← fmt FComma (get_or metrics "monthly_visits_max" (JNum 0));
      bounce ← fmt FPercent1 (get_or metrics "bounce_rate" (JNum 0));
      confidence ← fmt FCapitalize (get_or traffic "confidence_level" (JStr "N/A"));
      growth ← fmt FCapitalize (get_or traffic "growth_trend" (JStr "N/A"));
      Some [Paragraph [Lit "Traffic Metrics"] subheading_style;
            Paragraph [Lit "<b>Estimated Monthly Visits:</b> "; visits;
                       Lit " (Range: "; vmin; Lit " - "; vmax;
                       Lit ")<br/><b>Average Visit Duration:</b> ";
                       Val FStr (get_or metrics "avg_visit_duration" (JStr "N/A"));
                       Lit "<br/><b>Pages per Visit:</b> ";
                       Val FStr (get_or metrics "pages_per_visit" (JStr "N/A"));
                       Lit "<br/><b>Bounce Rate:</b> "; bounce;
                       Lit "%<br/><b>Confidence Level:</b> "; confidence;
                       Lit "<br/><b>Growth Trend:</b> "; growth; Lit "<br/>"] body_style;
            Spacer 0.2]
  | None => Some []
  end.

(** One row of the traffic-source table. *)
Definition source_row (src : Json) : option (list Text) :=
  s ← as_dict src;
  visits ← fmt FComma (get_or s "estimated_visits" (JNum 0));
  Some [[Val FRaw (get_or s "source" (JStr ""))];
        [Val FStr (get_or s "percentage" (JNum 0)); Lit "%"];
        [visits]].

Definition source_header : list Text :=
  [[Lit "Source"]; [Lit "Percentage"]; [Lit "Est. Visits"]].

(** The traffic-source table lists every entry: the loop runs over
    [traffic["traffic_sources"]] itself. *)
Definition sources_block (traffic : Dict) : option (list Flowable) :=
  match dict_lookup traffic "traffic_sources" with
  | Some v =>
      if truthy v then
        items ← iterate v;
        rows ← mapM source_row items;
        Some [Paragraph [Lit "Traffic Sources"] subheading_style;
              Table (source_header :: rows);
              Spacer 0.3]
      else Some []
  | None => Some []
  end.

(** One row of the keyword table. *)
Definition keyword_row (kw : Json) : option (list Text) :=
  k ← as_dict kw;
  volume ← (if truthy (get k "volume") then
              v ← fmt FComma (get_or k "volume" (JNum 0)); Some [v]
            else Some [Lit "N/A"]);
  cpc ← (if truthy (get k "cpc") then
           c ← fmt FFixed2 (get_or k "cpc" (JNum 0)); Some [Lit "$"; c]
         else Some [Lit "N/A"]);
  Some [[Val FRaw (get_or k "keyword" (JStr ""))];
        [Val FStr (get_or k "position" (JStr "N/A"))];
        volume;
        cpc].

Definition keyword_header : list Text :=
  [[Lit "Keyword"]; [Lit "Position"]; [Lit "Volume"]; [Lit "CPC"]].

Definition keywords_block (traffic : Dict) : option (list Flowable) :=
  match dict_lookup traffic "top_keywords" with
  | Some v =>
      if truthy v then
        items ← first_five v;
        rows ← mapM keyword_row items;
        Some [Paragraph [Lit "Top Keywords"] subheading_style;
              Table (keyword_header :: rows);
              Spacer 0.3]
      else Some []
  | None => Some []
  end.

(** The traffic section. *)
Definition traffic_section (traffic : Dict) : option (list Flowable) :=
  metrics ← traffic_metrics_block traffic;
  sources ← sources_block traffic;
  keywords ← keywords_block traffic;
  recs ← recommendations_block traffic "Traffic Recommendations";
  Some ([Paragraph [Lit "4. Traffic Estimation"] heading_style; Spacer 0.2]
        ++ metrics ++ sources ++ keywords ++ recs).

(** [if key in request.include_sections and payload: ...] *)
Definition section_if (request : ReportRequest) (key : str) (payload : option Dict)
    (section : Dict -> option (list Flowable)) : option (list Flowable) :=
  if bool_decide (key ∈ include_sections request) then
    match payload with
    | Some ((_ :: _) as d) => section d
    | _ => Some []
    end
  else Some [].

Definition title_page (request : ReportRequest) (now : str) : list Flowable :=
  [Spacer 2;
   Paragraph [Lit "SEO Audit Report"] title_style;
   Spacer 0.3;
   Paragraph [Lit "Website: "; Lit (report_url request)] subtitle_style;
   Spacer 0.2;
   Paragraph [Lit "Generated: "; Lit now] subtitle_style]
  ++ (if truthy_str (company_name request) then
        [Spacer 0.5;
         Paragraph [Lit "Prepared for: "; Lit (default "" (company_name request))]
                   subtitle_style]
      else [])
  ++ [PageBreak].

Definition executive_summary (request : ReportRequest) : list Flowable :=
  [Paragraph [Lit "Executive Summary"] heading_style;
   Spacer 0.2;
   Paragraph [Lit "This comprehensive SEO audit report provides detailed analysis of <b>";
              Lit (report_url request);
              Lit "</b>. The audit covers four key areas: SEO Health, Search Visibility, Generative Engine Optimization (GEO), and Traffic Estimation. Each section includes actionable recommendations to improve your online presence."]
             body_style;
   Spacer 0.3].

Definition footer : list Flowable :=
  [Spacer 0.5;
   Paragraph [Lit "<i>This report was generated automatically by the SEO Audit Tool. Traffic estimates and AI visibility data are approximations and should be used for guidance only. For exact figures, please consult your analytics platforms.</i>"]
             footer_style].

(** [report.create_pdf_report]: the list [elements] handed to the layout
    engine, for the formatted date [now]; [None] when building it raises. *)
Definition create_pdf_report (request : ReportRequest) (now : str)
  : option (list Flowable) :=
  stats ← quick_stats request;
  seo ← section_if request "seo" (seo_data request) seo_section;
  search ← section_if request "search" (search_data request) search_section;
  geo ← section_if request "geo" (geo_data request) geo_section;
  traffic ← section_if request "traffic" (traffic_data request) traffic_section;
  Some (title_page request now ++ executive_summary request ++ stats ++ [PageBreak]
        ++ seo ++ search ++ geo ++ traffic ++ footer).

(** ** Notions used to state the properties *)

(** [sub] occurs in [s] as a substring. *)
Definition occurs (sub s : str) : Prop := exists a b, s = a ++ sub ++ b.




(** [line] opens with a list number [n]: optional white space, a run of
    digits, optional white space, and one of the separators. *)
Definition numbered (line : str) (n : Z) : Prop :=
  exists ws ds ws' c rest,
    line = ws ++ ds ++ ws' ++ c :: rest /\
    Forall (fun x => isspace x = true) ws /\
    ds <> [] /\
    Forall (fun x => isdigit x = true) ds /\
    Forall (fun x => isspace x = true) ws' /\
    is_separator c = true /\
    n = int_of_digits ds.

(** The rank rule read to the letter: the line starts with digits that are
    followed at once by a separator. *)
Definition starts_with_number (line : str) : option Z :=
  match span isdigit line with
  | (_ :: _ as ds, c :: _) => if is_separator c then Some (int_of_digits ds) else None
  | _ => None
  end.

Fixpoint rank_as_stated_from (i : Z) (lines : list str) (brand : str) : option Z :=
  match lines with
  | [] => None
  | line :: lines' =>
      if contains (lower brand) (lower line) then
        match starts_with_number line with
        | Some n => Some n
        | None => Some (i + 1)
        end
      else rank_as_stated_from (i + 1) lines' brand
  end.

Definition rank_as_stated (text brand : str) : option Z :=
  rank_as_stated_from 0 (split_on LF text) brand.

(** The sum of the three counters of a sentiment breakdown. *)
Definition breakdown_total (sb : gmap str Z) : Z :=
  default 0 (sb !! "positive") + default 0 (sb !! "negative") + default 0 (sb !! "neutral").

(** The first character of [s], if any, does not satisfy [p]. *)
Definition stops (p : ascii -> bool) (s : str) : Prop :=
  match s with [] => True | c :: _ => p c = false end.

(** What the probing loop records for one probe of [domain]. *)
Definition probed (domain : str) (m : BrandMention) : Prop :=
  (mentioned m = false /\ context m = None /\ sentiment m = None /\ rank m = None) \/
  (mentioned m = true /\ is_Some (context m) /\
   (sentiment m = Some "positive" \/ sentiment m = Some "negative" \/
    sentiment m = Some "neutral") /\
   (LF ∉ domain -> is_Some (rank m))).

(** The categories of [metric] are decided by the two thresholds. *)
Definition categorized_by (metric : str) (good_max needs_improvement_max : Q) : Prop :=
  forall v : Q,
    (v <= good_max -> categorize_metric v metric = "good")%Q /\
    (good_max < v /\ v <= needs_improvement_max ->
     categorize_metric v metric = "needs_improvement")%Q /\
    (needs_improvement_max < v -> categorize_metric v metric = "poor")%Q.

(** An opportunity with the given score and nothing else of interest. *)
Definition scored (s : option Q) : Opportunity :=
  {| opp_title := ""; opp_description := ""; opp_score := s;
     opp_savings := None; opp_priority := "medium" |}.

(** An audit that only carries a score. *)
Definition audit_scored (s : Q) : Audit :=
  {| audit_title := None; audit_description := None; audit_score := Some s;
     audit_displayValue := None |}.

(** A health score, when present, lies within 0-100. *)
Definition score_in_bounds (score : option Z) : Prop :=
  match score with
  | Some n => 0 <= n <= 100
  | None => True
  end.









(** ** SEO health: the live analysis *)

(** [data.get("numericValue", 0) / 1000 if data else None] for the audit
    [audit_id], with [scale] for the arithmetic that follows the lookup;
    the outer [None] is a raised exception (an audit that is no object, a
    value that is no number), the inner one the [None] of the source. *)
Definition numeric_value (audits : Dict) (audit_id : str) (scale : Q -> Q)
  : option (option Q) :=
  let data := get_or audits audit_id (JDict []) in
  if truthy data then
    d ← as_dict data;
    x ← number (get_or d "numericValue" (JNum 0));
    Some (Some (scale x))
  else Some None.

(** [round(v, 3) if v else None] and [categorize_metric(v, metric) if v
    else None] for a number [v]. *)
Definition rounded_if (v : option Q) : option Q :=
  match v with
  | Some x => if Qeq_bool x 0 then None else Some (py_round x 3%nat)
  | None => None
  end.

Definition category_if (v : option Q) (metric : str) : option str :=
  match v with
  | Some x => if Qeq_bool x 0 then None else Some (categorize_metric x metric)
  | None => None
  end.

(** [cls_data.get("numericValue", 0) if cls_data else None], a value used
    as it is: when it is truthy it must be a number for [round]. *)
Definition layout_shift (audits : Dict) : option (option Q) :=
  let data := get_or audits "cumulative-layout-shift" (JDict []) in
  if truthy data then
    d ← as_dict data;
    let raw := get_or d "numericValue" (JNum 0) in
    if truthy raw then x ← number raw; Some (Some x) else Some None
  else Some None.

(** [seo_health.extract_core_web_vitals]; [None] is a raised exception. *)
Definition extract_core_web_vitals (lighthouse_result : Dict) : option CoreWebVitals :=
  audits ← as_dict (get_or lighthouse_result "audits" (JDict []));
  lcp_v ← numeric_value audits "largest-contentful-paint" (fun x => x / 1000)%Q;
  fid_v ← numeric_value audits "total-blocking-time" (fun x => x / 1000 * 0.1)%Q;
  cls_v ← layout_shift audits;
  fcp_v ← numeric_value audits "first-contentful-paint" (fun x => x / 1000)%Q;
  ttfb_v ← numeric_value audits "server-response-time" (fun x => x / 1000)%Q;
  Some {| lcp := rounded_if lcp_v;
          lcp_category := category_if lcp_v "lcp";
          fid := rounded_if fid_v;
          fid_category := category_if fid_v "fid";
          cls := rounded_if cls_v;
          cls_category := category_if cls_v "cls";
          fcp := rounded_if fcp_v;
          fcp_category := category_if fcp_v "fcp";
          ttfb := rounded_if ttfb_v;
          ttfb_category := category_if ttfb_v "ttfb" |}.

Definition diagnostic_audits : list str :=
  ["mainthread-work-breakdown"; "bootup-time"; "uses-long-cache-ttl";
   "total-byte-weight"; "dom-size"; "network-requests"; "network-rtt";
   "network-server-latency"; "main-thread-tasks"; "diagnostics"; "metrics";
   "screenshot-thumbnails"; "final-screenshot"; "script-treemap-data"].

(** The body of the loop of [extract_diagnostics]: the entries appended for
    one audit; [None] when [audit.get] raises. *)
Definition diagnostic_of (audits : Dict) (audit_id : str) : option (list Dict) :=
  let audit := get audits audit_id in
  if truthy audit then
    a ← as_dict audit;
    Some [[("id", JStr audit_id);
           ("title", get_or a "title" (JStr ""));
           ("description", get_or a "description" (JStr ""));
           ("value", get_or a "displayValue" (JStr ""));
           ("score", get a "score");
           ("details", get_or a "details" (JDict []))]]
  else Some [].

(** [seo_health.extract_diagnostics] *)
Definition extract_diagnostics (lighthouse_result : Dict) : option (list Dict) :=
  audits ← as_dict (get_or lighthouse_result "audits" (JDict []));
  found ← mapM (diagnostic_of audits) diagnostic_audits;
  Some (concat found).

(** The message for one of the top opportunities. *)
Definition opportunity_message (opp : Opportunity) : str :=
  "🔧 High Priority: " ++ opp_title opp ++ " - " ++
  firstn 100%nat (opp_description opp) ++ "...".

(** [seo_health.generate_recommendations] *)
Definition generate_recommendations (response : SEOHealthResponse) : list str :=
  let cwv := core_web_vitals response in
  let recommendations :=
    match performance_score response with
    | Some score =>
        if score <? 50 then
          ["🚨 Critical: Performance score is very low. Prioritize optimizing images, reducing JavaScript, and implementing code splitting."]
        else if score <? 90 then
          ["⚠️ Performance needs improvement. Consider lazy loading images and deferring non-critical JavaScript."]
        else []
    | None => []
    end ++
    match seo_score response with
    | Some score =>
        if score <? 90 then
          ["📋 SEO Score could be improved. Check meta tags, headings structure, and ensure proper canonical URLs."]
        else []
    | None => []
    end ++
    match accessibility_score response with
    | Some score =>
        if score <? 90 then
          ["♿ Accessibility score needs attention. Add alt text to images and ensure proper color contrast."]
        else []
    | None => []
    end ++
    (if decide (lcp_category cwv = Some "poor") then
       ["🐌 LCP is poor. Optimize your largest content element (usually hero image) and improve server response time."]
     else []) ++
    (if decide (cls_category cwv = Some "poor") then
       ["📐 CLS is poor. Reserve space for images and ads to prevent layout shifts."]
     else []) ++
    (if decide (fid_category cwv = Some "poor") then
       ["👆 FID is poor. Reduce JavaScript execution time and break up long tasks."]
     else []) ++
    flat_map (fun opp => if decide (opp_priority opp = "high")
                         then [opportunity_message opp] else [])
             (firstn 3%nat (opportunities response)) in
  match recommendations with
  | [] => ["✅ Great job! Your website is well-optimized. Continue monitoring for any changes."]
  | _ :: _ => recommendations
  end.

(** ** Recommendation messages *)

(** The parts of a formatted message: literal text and numbers, a number
    standing for the digits its format prints. *)
Inductive Part :=
| Txt (s : str)
| Int (n : Z)        (* {n} for an int *)
| Num (x : Q)        (* {x} for a float *)
| Num0 (x : Q)       (* {x:.0f} *)
| Num1 (x : Q).      (* {x:.1f} *)

Abbreviation Message := (list Part).

(** ** Traffic estimation: countries, keywords and the estimate *)

Record CountrySource := {
  country : str;
  country_code : str;
  country_percentage : Q;
  country_visits : Z
}.

Definition countries : list (str * str * Q) :=
  [("United States", "US", 0.35%Q);
   ("United Kingdom", "GB", 0.12%Q);
   ("Canada", "CA", 0.08%Q);
   ("Germany", "DE", 0.07%Q);
   ("France", "FR", 0.06%Q);
   ("India", "IN", 0.05%Q);
   ("Australia", "AU", 0.05%Q);
   ("Brazil", "BR", 0.04%Q);
   ("Japan", "JP", 0.04%Q);
   ("Other", "OT", 0.14%Q)].

(** [traffic_estimation.estimate_top_countries] *)
Definition estimate_top_countries (total_visits : Z) : list CountrySource :=
  List.map (fun '(name, code, pct) =>
              {| country := name;
                 country_code := code;
                 country_percentage := py_round (pct * 100)%Q 1%nat;
                 country_visits := py_int (inject_Z total_visits * pct)%Q |})
           countries.

Record TopKeyword := {
  kw_keyword : str;
  kw_position : option Z;
  kw_volume : option Z;
  kw_cpc : option Q
}.

(** The position, volume and cost per click drawn for each of the rows. *)
Record KeywordDraws := {
  draw_position : nat -> Z;
  draw_volume : nat -> Z;
  draw_cpc : nat -> Q
}.

(** [traffic_estimation.estimate_top_keywords] *)
Definition estimate_top_keywords (domain : str) (d : KeywordDraws) : list TopKeyword :=
  let domain_name := hd [] (split_on "." domain) in
  let keywords :=
    [domain_name;
     domain_name ++ " login";
     domain_name ++ " reviews";
     domain_name ++ " pricing";
     "best " ++ domain_name ++ " alternative";
     domain_name ++ " vs competitor";
     domain_name ++ " tutorial";
     domain_name ++ " api"] in
  imap (fun i kw =>
          {| kw_keyword := kw;
             kw_position := Some (draw_position d i);
             kw_volume := Some (draw_volume d i);
             kw_cpc := Some (py_round (draw_cpc d i) 2%nat) |})
       keywords.

Record TrafficRequest := {
  traffic_url : str;
  include_sources : option bool;
  include_countries : option bool;
  include_keywords : option bool
}.

Record TrafficResponse := {
  traffic_resp_url : str;
  disclaimer : str;
  metrics : TrafficMetrics;
  traffic_sources : list TrafficSource;
  top_countries : list CountrySource;
  top_keywords : list TopKeyword;
  growth_trend : option str;
  confidence_level : str;
  traffic_recommendations : list Message
}.

(** [next((s.percentage for s in sources if s.source == name), 0)]: the
    percentage of the first source of that name, when there is one. *)
Definition source_percentage (name : str) (sources : list TrafficSource) : option Q :=
  percentage <$> List.find (fun s => bool_decide (source s = name)) sources.

(** The value [next] gives, and the way an f-string prints it. *)
Definition pct_value (p : option Q) : Q := default 0%Q p.

Definition pct_part (p : option Q) : Part :=
  match p with Some x => Num x | None => Int 0 end.

(** [traffic_estimation.generate_traffic_recommendations] *)
Definition generate_traffic_recommendations (response : TrafficResponse) : list Message :=
  let monthly_visits := monthly_visits (metrics response) in
  let organic_pct := source_percentage "Organic Search" (traffic_sources response) in
  let direct_pct := source_percentage "Direct" (traffic_sources response) in
  let social_pct := source_percentage "Social Media" (traffic_sources response) in
  (if monthly_visits <? 50000 then
     [[Txt "📈 Low traffic detected. Focus on content marketing and SEO to increase organic visibility."];
      [Txt "🎯 Consider starting a blog with valuable content related to your industry."]]
   else if monthly_visits <? 200000 then
     [[Txt "📊 Moderate traffic level. Optimize conversion rates and expand your keyword targeting."]]
   else
     [[Txt "🌟 Strong traffic volume! Focus on retention and maximizing conversion rates."]]) ++
  (if Qlt_bool (pct_value organic_pct) 40 then
     [[Txt "🔍 Organic search is only "; pct_part organic_pct;
       Txt "% of traffic. Invest in SEO to improve organic visibility."]]
   else []) ++
  (if Qlt_bool (pct_value direct_pct) 20 then
     [[Txt "👋 Direct traffic is "; pct_part direct_pct;
       Txt "%. Build brand awareness to increase direct visits."]]
   else []) ++
  (if Qlt_bool (pct_value social_pct) 5 then
     [[Txt "📱 Low social media traffic. Develop a social media strategy to drive more visits."]]
   else []) ++
  match bounce_rate (metrics response) with
  | Some rate =>
      if negb (Qeq_bool rate 0) && Qlt_bool 0.6 rate then
        [[Txt "⚠️ High bounce rate ("; Num0 (rate * 100);
          Txt "%). Improve page load speed and content relevance."]]
      else []
  | None => []
  end ++
  match pages_per_visit (metrics response) with
  | Some pages =>
      if negb (Qeq_bool pages 0) && Qlt_bool pages 2 then
        [[Txt "📝 Low pages per visit. Improve internal linking and add related content suggestions."]]
      else []
  | None => []
  end ++
  [[Txt "🎯 Focus on high-volume, low-competition keywords for quick wins."];
   [Txt "📧 Implement email marketing to increase returning visitors."];
   [Txt "🔗 Build quality backlinks to improve domain authority and organic traffic."];
   [Txt "📱 Ensure mobile optimization as mobile traffic continues to grow."]].

(** [s.replace(old, "")] for a non-empty [old]: the occurrences of [old]
    are removed from left to right, [skip] counting the characters of an
    occurrence still to be dropped. *)
Fixpoint remove_from (skip : nat) (old s : str) : str :=
  match s with
  | [] => []
  | c :: s' =>
      match skip with
      | S k => remove_from k old s'
      | O => if startswith old s then remove_from (length old - 1) old s'
             else c :: remove_from 0 old s'
      end
  end.

Definition remove_all (old s : str) : str := remove_from 0 old s.

(** [url_str.replace("https://", "").replace("http://", "").split("/")[0]] *)
Definition url_domain (url_str : str) : str :=
  hd [] (split_on "/" (remove_all "http://" (remove_all "https://" url_str))).

(** [traffic_estimation.estimate_traffic], given the string of the
    validated URL, the draws of the estimators and the two labels drawn by
    [get_growth_trend] and [determine_confidence_level]; [None] is the
    HTTP 500 of the [except] clause. *)
Definition estimate_traffic (request : TrafficRequest)
    (md : MetricsDraws) (sd : SourceDraws) (kd : KeywordDraws)
    (trend confidence : str) : option TrafficResponse :=
  let url_str := traffic_url request in
  let domain := url_domain url_str in
  metrics ← estimate_traffic_metrics domain md;
  traffic_sources ←
    (if truthy_bool (include_sources request)
     then estimate_traffic_sources (monthly_visits metrics) sd else Some []);
  let top_countries :=
    if truthy_bool (include_countries request)
    then estimate_top_countries (monthly_visits metrics) else [] in
  let top_keywords :=
    if truthy_bool (include_keywords request)
    then estimate_top_keywords domain kd else [] in
  let response :=
    {| traffic_resp_url := url_str;
       disclaimer := "These figures are estimates based on available data and algorithms. They should not be considered as exact figures. Use official analytics tools for accurate measurements.";
       metrics := metrics;
       traffic_sources := traffic_sources;
       top_countries := top_countries;
       top_keywords := top_keywords;
       growth_trend := Some trend;
       confidence_level := confidence;
       traffic_recommendations := [] |} in
  Some {| traffic_resp_url := traffic_resp_url response;
          disclaimer := disclaimer response;
          metrics := metrics;
          traffic_sources := traffic_sources;
          top_countries := top_countries;
          top_keywords := top_keywords;
          growth_trend := growth_trend response;
          confidence_level := confidence_level response;
          traffic_recommendations := generate_traffic_recommendations response |}.

(** One entry of the comparison: an estimate, or the URL with the error
    that was caught. *)
Inductive Comparison :=
| Estimated (response : TrafficResponse)
| Failed (url : str).

Section CompareTraffic.

(** The validation of a string by the [HttpUrl] type of the request model:
    the string of the validated URL, or [None] when it is refused. *)
Variable validate_url : str -> option str.
(** The draws and the labels used for the estimate of the URL at an index. *)
Variable metrics_draws : nat -> MetricsDraws.
Variable source_draws : nat -> SourceDraws.
Variable keyword_draws : nat -> KeywordDraws.
Variable trends : nat -> str.
Variable confidences : nat -> str.

(** [traffic_estimation.compare_traffic]: the list under [comparison] and
    the number under [total_compared]. *)
Definition compare_traffic (urls : str) : list Comparison * Z :=
  let url_list := List.map strip (split_on "," urls) in
  let results :=
    imap (fun i url =>
            match
              (validated ← validate_url url;
               estimate_traffic {| traffic_url := validated;
                                   include_sources := Some true;
                                   include_countries := Some true;
                                   include_keywords := Some true |}
                                (metrics_draws i) (source_draws i) (keyword_draws i)
                                (trends i) (confidences i))
            with
            | Some response => Estimated response
            | None => Failed url
            end)
         url_list in
  (results, len_list results).

End CompareTraffic.

(** ** GEO recommendations *)

(** [sum(sentiment.values())] *)
Definition sum_values (m : gmap str Z) : Z := map_fold (fun _ v acc => v + acc) 0 m.

(** [sep.join(l)] *)
Fixpoint join (sep : str) (l : list str) : str :=
  match l with
  | [] => []
  | [x] => x
  | x :: l' => x ++ sep ++ join sep l'
  end.

(** [geo_module.generate_geo_recommendations] *)
Definition generate_geo_recommendations (response : GEOResponse) : list Message :=
  let summary := summary response in
  let rate := mention_rate summary in
  let sentiment := sentiment_breakdown summary in
  let total_sentiment := sum_values sentiment in
  [if Qlt_bool rate 0.3 then
     [Txt "🚨 Low AI visibility: Your brand is only mentioned in "; Num0 (rate * 100);
      Txt "% of queries. Increase content marketing and PR efforts to improve brand recognition."]
   else if Qlt_bool rate 0.7 then
     [Txt "⚠️ Moderate AI visibility: "; Num0 (rate * 100);
      Txt "% mention rate. Continue building authority through quality content and backlinks."]
   else
     [Txt "✅ Strong AI visibility: "; Num0 (rate * 100);
      Txt "% mention rate. Maintain your content strategy to preserve this advantage."]] ++
  (if total_sentiment >? 0 then
     let positive_ratio :=
       (inject_Z (default 0%Z (sentiment !! "positive")) / inject_Z total_sentiment)%Q in
     let negative_ratio :=
       (inject_Z (default 0%Z (sentiment !! "negative")) / inject_Z total_sentiment)%Q in
     (if Qlt_bool positive_ratio 0.5 then
        [[Txt "📉 Low positive sentiment detected. Focus on improving customer experience and gathering positive reviews."]]
      else []) ++
     (if Qlt_bool 0.2 negative_ratio then
        [[Txt "⚠️ Negative sentiment detected. Address customer concerns and improve your online reputation."]]
      else [])
   else []) ++
  match average_rank summary with
  | Some r =>
      if negb (Qeq_bool r 0) && Qlt_bool 3 r then
        [[Txt "📊 Average ranking position is "; Num1 r;
          Txt ". Work on becoming a top-3 mentioned brand in your category."]]
      else []
  | None => []
  end ++
  match geo_keywords response with
  | [] => []
  | _ :: _ =>
      [[Txt "🎯 Target keywords analyzed: "; Txt (join ", " (geo_keywords response));
        Txt ". Create comprehensive content around these topics to increase AI mentions."]]
  end ++
  [[Txt "📝 Create authoritative, well-structured content that AI models can easily reference."];
   [Txt "🔗 Build high-quality backlinks from reputable sources to increase training data presence."];
   [Txt "📱 Maintain active presence on platforms likely to be in training data (Wikipedia, Reddit, Quora)."];
   [Txt "⭐ Encourage and manage online reviews to influence sentiment in AI responses."];
   [Txt "🏆 Aim to be featured in 'best of' lists and comparison articles."]].

(** ** Further notions used to state the properties *)

(** A category that [categorize_metric] gives for a known metric, or none. *)
Definition known_category (c : option str) : Prop :=
  c = None \/ c = Some "good" \/ c = Some "needs_improvement" \/ c = Some "poor".

(** What follows the host in a URL: nothing, or a path. *)
Definition url_tail (b : str) : Prop := b = [] \/ exists path, b = "/"%char :: path.

(** A sentiment breakdown with its three counters. *)
Definition counters (positive negative neutral : Z) : gmap str Z :=
  <["neutral" := neutral]> (<["negative" := negative]> (<["positive" := positive]> ∅)).

(** The categories from best to worst. *)
Definition category_rank (category : str) : Z :=
  if decide (category = "good") then 0
  else if decide (category = "needs_improvement") then 1
  else if decide (category = "poor") then 2
  else 3.

(** * Properties *)


(** ** Characters and strings *)

Lemma lower_char_idem c : lower_char (lower_char c) = lower_char c.
Proof. destruct c as [[] [] [] [] [] [] [] []]; reflexivity. Qed.


Lemma lower_app s t : lower (s ++ t) = lower s ++ lower t.
Proof. apply List.map_app. Qed.


(** A string already in lower case. *)
Definition lowered (s : str) : Prop := Forall (fun c => lower_char c = c) s.

Lemma lowered_lower s : lowered (lower s).
Proof.
  induction s as [|c s IH]; constructor; auto using lower_char_idem.
Qed.

Lemma lowered_fix s : lowered s -> lower s = s.
Proof.
  induction 1 as [|c s Hc _ IH]; simpl; [reflexivity|]. now rewrite Hc, IH.
Qed.

Lemma lstrip_with_suffix p s : exists a, s = a ++ lstrip_with p s.
Proof.
  induction s as [|c s [a IH]]; simpl.
  - now exists [].
  - destruct (p c).
    + exists (c :: a). simpl. now f_equal.
    + now exists [].
Qed.

Lemma rstrip_with_prefix p s : exists b, s = rstrip_with p s ++ b.
Proof.
  induction s as [|c s [b IH]]; simpl.
  - now exists [].
  - destruct (rstrip_with p s) as [|x r] eqn:E.
    + destruct (p c).
      * now exists (c :: s).
      * exists s. reflexivity.
    + exists b. simpl in *. now f_equal.
Qed.

Lemma strip_prefix_Some p s r : strip_prefix p s = Some r <-> s = p ++ r.
Proof.
  revert s. induction p as [|a p IH]; intros s; simpl.
  - split; congruence.
  - destruct s as [|b s].
    + split; discriminate.
    + destruct (Ascii.eqb_spec a b) as [->|Hne].
      * rewrite IH. split; congruence.
      * split; [discriminate|]. intros H. congruence.
Qed.

Lemma startswith_true p s : startswith p s = true <-> exists r, s = p ++ r.
Proof.
  unfold startswith. destruct (strip_prefix p s) as [r|] eqn:E.
  - apply strip_prefix_Some in E. split; eauto.
  - split; [discriminate|]. intros [r Hr]. apply strip_prefix_Some in Hr. congruence.
Qed.

Lemma lowered_app s t : lowered (s ++ t) <-> lowered s /\ lowered t.
Proof. apply Forall_app. Qed.

Lemma lstrip_with_fix_or_shorter p s :
  lstrip_with p s = s \/ (length (lstrip_with p s) < length s)%nat.
Proof.
  destruct (lstrip_with_suffix p s) as [[|x a] Ha].
  - left. now rewrite Ha at 2.
  - right. rewrite Ha at 2. rewrite length_app. simpl. lia.
Qed.

Lemma rstrip_with_fix_or_shorter p s :
  rstrip_with p s = s \/ (length (rstrip_with p s) < length s)%nat.
Proof.
  destruct (rstrip_with_prefix p s) as [[|x b] Hb].
  - left. rewrite app_nil_r in Hb. congruence.
  - right. rewrite Hb at 2. rewrite length_app. simpl. lia.
Qed.

Lemma rstrip_with_idem p s : rstrip_with p (rstrip_with p s) = rstrip_with p s.
Proof.
  induction s as [|c s IH]; simpl; [reflexivity|].
  destruct (rstrip_with p s) as [|x r] eqn:E.
  - destruct (p c) eqn:Hc; simpl; [reflexivity|]. now rewrite Hc.
  - change (rstrip_with p (c :: x :: r)) with
      (match rstrip_with p (x :: r) with [] => if p c then [] else [c] | r' => c :: r' end).
    now rewrite IH.
Qed.

Lemma strip_fix_or_shorter s : strip s = s \/ (length (strip s) < length s)%nat.
Proof.
  unfold strip.
  destruct (lstrip_with_fix_or_shorter isspace s) as [El|Hl];
    destruct (rstrip_with_fix_or_shorter isspace (lstrip_with isspace s)) as [Er|Hr].
  - left. congruence.
  - right. rewrite El in *. exact Hr.
  - right. rewrite Er. exact Hl.
  - right. lia.
Qed.

Lemma sub_scheme_fix_or_shorter s :
  (startswith "http://" s = false /\ startswith "https://" s = false /\ sub_scheme s = s)
  \/ (length (sub_scheme s) < length s)%nat.
Proof.
  unfold sub_scheme, startswith.
  destruct (strip_prefix "https://" s) as [r|] eqn:E1.
  - right. apply strip_prefix_Some in E1. subst s. rewrite length_app. simpl. lia.
  - destruct (strip_prefix "http://" s) as [r|] eqn:E2.
    + right. apply strip_prefix_Some in E2. subst s. rewrite length_app. simpl. lia.
    + now left.
Qed.

Lemma sub_www_fix_or_shorter s :
  (startswith "www." s = false /\ sub_www s = s) \/ (length (sub_www s) < length s)%nat.
Proof.
  unfold sub_www, startswith.
  destruct (strip_prefix "www." s) as [r|] eqn:E1.
  - right. apply strip_prefix_Some in E1. subst s. rewrite length_app. simpl. lia.
  - now left.
Qed.

Lemma lowered_lstrip p s : lowered s -> lowered (lstrip_with p s).
Proof.
  intros H. destruct (lstrip_with_suffix p s) as [a Ha]. rewrite Ha in H.
  now apply lowered_app in H.
Qed.

Lemma lowered_rstrip p s : lowered s -> lowered (rstrip_with p s).
Proof.
  intros H. destruct (rstrip_with_prefix p s) as [a Ha]. rewrite Ha in H.
  now apply lowered_app in H.
Qed.

Lemma lowered_sub_scheme s : lowered s -> lowered (sub_scheme s).
Proof.
  intros H. unfold sub_scheme.
  destruct (strip_prefix "https://" s) as [r|] eqn:E1.
  - apply strip_prefix_Some in E1. subst s. now apply lowered_app in H.
  - destruct (strip_prefix "http://" s) as [r|] eqn:E2; [|exact H].
    apply strip_prefix_Some in E2. subst s. now apply lowered_app in H.
Qed.

Lemma lowered_sub_www s : lowered s -> lowered (sub_www s).
Proof.
  intros H. unfold sub_www.
  destruct (strip_prefix "www." s) as [r|] eqn:E1; [|exact H].
  apply strip_prefix_Some in E1. subst s. now apply lowered_app in H.
Qed.

Lemma lowered_clean_domain d : lowered (clean_domain d).
Proof.
  unfold clean_domain, strip.
  apply lowered_rstrip, lowered_sub_www, lowered_sub_scheme, lowered_rstrip,
    lowered_lstrip, lowered_lower.
Qed.

(** ** Domain cleaning *)

(** C2, as stated, fails: cleaning removes one scheme and one [www.], so a
    domain that carries two of them is cleaned differently the second time. *)
Lemma clean_domain_not_idempotent :
  clean_domain "http://http://a.com" = "http://a.com" /\
  clean_domain (clean_domain "http://http://a.com") = "a.com" /\
  clean_domain (clean_domain "http://http://a.com") <> clean_domain "http://http://a.com".
Proof. repeat split. discriminate. Qed.

(** C2, amended: the cleaned domain is in lower case and carries no trailing
    slash, and cleaning it again changes nothing exactly when it has no
    surrounding white space and starts with no further scheme or [www.]. *)
Theorem clean_domain_idempotent_iff (d : str) :
  let c := clean_domain d in
  lower c = c /\
  rstrip_with (is_char "/") c = c /\
  (clean_domain c = c <->
   strip c = c /\ startswith "http://" c = false /\
   startswith "https://" c = false /\ startswith "www." c = false).
Proof.
  intros c.
  assert (Hl : lower c = c) by (apply lowered_fix, lowered_clean_domain).
  assert (Hr : rstrip_with (is_char "/") c = c) by apply rstrip_with_idem.
  split; [exact Hl|]. split; [exact Hr|].
  unfold clean_domain at 1. cbv zeta. rewrite Hl.
  split.
  - intros H.
    pose proof (strip_fix_or_shorter c) as H1.
    pose proof (sub_scheme_fix_or_shorter (strip c)) as H2.
    pose proof (sub_www_fix_or_shorter (sub_scheme (strip c))) as H3.
    pose proof (rstrip_with_fix_or_shorter (is_char "/") (sub_www (sub_scheme (strip c)))) as H4.
    assert (Hlen : length (rstrip_with (is_char "/") (sub_www (sub_scheme (strip c)))) = length c)
      by now rewrite H.
    destruct H1 as [E1|L1].
    + rewrite E1 in *. destruct H2 as [(Ha & Hb & E2)|L2].
      * rewrite E2 in *. destruct H3 as [(Hc & E3)|L3]; [tauto|].
        destruct H4 as [E4|L4]; [rewrite E4 in Hlen|]; lia.
      * destruct H3 as [(_ & E3)|L3]; [rewrite E3 in *|];
          (destruct H4 as [E4|L4]; [rewrite E4 in Hlen|]; lia).
    + destruct H2 as [(_ & _ & E2)|L2]; [rewrite E2 in *|];
        (destruct H3 as [(_ & E3)|L3]; [rewrite E3 in *|];
          (destruct H4 as [E4|L4]; [rewrite E4 in Hlen|]; lia)).
  - intros (E1 & Ha & Hb & Hc). rewrite E1.
    destruct (sub_scheme_fix_or_shorter c) as [(_ & _ & E2)|L2].
    + rewrite E2. destruct (sub_www_fix_or_shorter c) as [(_ & E3)|L3].
      * now rewrite E3.
      * exfalso. unfold sub_www, startswith in *.
        destruct (strip_prefix "www." c); [discriminate|lia].
    + exfalso. unfold sub_scheme, startswith in *.
      destruct (strip_prefix "https://" c); [discriminate|].
      destruct (strip_prefix "http://" c); [discriminate|lia].
Qed.

(** ** Substrings *)

Lemma contains_occurs sub s : contains sub s = true <-> occurs sub s.
Proof.
  unfold occurs. induction s as [|c s IH]; simpl.
  - rewrite orb_false_r, startswith_true. split.
    + intros [r Hr]. exists [], r. exact Hr.
    + intros (a & b & H). destruct a as [|x a]; [|discriminate]. now exists b.
  - rewrite orb_true_iff, startswith_true, IH. split.
    + intros [[r Hr]|(a & b & H)].
      * exists [], r. exact Hr.
      * exists (c :: a), b. simpl. now f_equal.
    + intros (a & b & H). destruct a as [|x a].
      * left. now exists b.
      * right. exists a, b. simpl in H. congruence.
Qed.

#[global] Instance occurs_dec sub s : Decision (occurs sub s).
Proof.
  destruct (contains sub s) eqn:E.
  - left. now apply contains_occurs.
  - right. intros H. apply contains_occurs in H. congruence.
Defined.




(** ** Sentiment *)




(** ** Rank *)

Lemma digit_not_space c : isdigit c = true -> isspace c = false.
Proof. destruct c as [[] [] [] [] [] [] [] []]; vm_compute; congruence. Qed.

Lemma separator_not_space c : is_separator c = true -> isspace c = false.
Proof. destruct c as [[] [] [] [] [] [] [] []]; vm_compute; congruence. Qed.

Lemma separator_not_digit c : is_separator c = true -> isdigit c = false.
Proof. destruct c as [[] [] [] [] [] [] [] []]; vm_compute; congruence. Qed.

Lemma space_not_digit c : isspace c = true -> isdigit c = false.
Proof. destruct c as [[] [] [] [] [] [] [] []]; vm_compute; congruence. Qed.

Lemma lstrip_with_run p ws r :
  Forall (fun x => p x = true) ws -> stops p r -> lstrip_with p (ws ++ r) = r.
Proof.
  intros Hws Hr. induction Hws as [|x ws Hx _ IH]; simpl.
  - destruct r as [|c r]; [reflexivity|]. simpl in *. now rewrite Hr.
  - now rewrite Hx.
Qed.

Lemma lstrip_with_split p s :
  exists ws, s = ws ++ lstrip_with p s /\ Forall (fun x => p x = true) ws /\
             stops p (lstrip_with p s).
Proof.
  induction s as [|c s (ws & Hs & Hws & Hst)]; simpl.
  - exists []. repeat split. constructor.
  - destruct (p c) eqn:Hc.
    + exists (c :: ws). repeat split; [simpl; now f_equal|now constructor|exact Hst].
    + exists []. repeat split; [constructor|exact Hc].
Qed.

Lemma span_run p ds r :
  Forall (fun x => p x = true) ds -> stops p r -> span p (ds ++ r) = (ds, r).
Proof.
  intros Hds Hr. induction Hds as [|x ds Hx _ IH]; simpl.
  - destruct r as [|c r]; [reflexivity|]. simpl in *. now rewrite Hr.
  - now rewrite Hx, IH.
Qed.

Lemma span_split p s :
  s = fst (span p s) ++ snd (span p s) /\
  Forall (fun x => p x = true) (fst (span p s)) /\ stops p (snd (span p s)).
Proof.
  induction s as [|c s (Hs & Hds & Hst)]; simpl.
  - repeat split. constructor.
  - destruct (p c) eqn:Hc.
    + destruct (span p s) as [a b]. simpl in *. repeat split;
        [now f_equal|now constructor|exact Hst].
    + simpl. repeat split; [constructor|exact Hc].
Qed.

Lemma match_rank_numbered line n : match_rank line = Some n <-> numbered line n.
Proof.
  unfold match_rank, numbered. split.
  - destruct (lstrip_with_split isspace line) as (ws & Hl & Hws & _).
    pose proof (span_split isdigit (lstrip_with isspace line)) as (Hs & Hds & _).
    destruct (span isdigit (lstrip_with isspace line)) as [ds rest]. simpl in *.
    destruct ds as [|d ds]; [discriminate|].
    destruct (lstrip_with_split isspace rest) as (ws' & Hr & Hws' & _).
    destruct (lstrip_with isspace rest) as [|c rest'] eqn:E; [discriminate|].
    destruct (is_separator c) eqn:Hc; [|discriminate].
    intros [= <-]. exists ws, (d :: ds), ws', c, rest'.
    repeat split; try assumption; [|discriminate].
    rewrite Hl at 1. rewrite Hs. now rewrite Hr at 1.
  - intros (ws & ds & ws' & c & rest & -> & Hws & Hne & Hds & Hws' & Hc & ->).
    assert (Hst : stops isdigit (ws' ++ c :: rest)).
    { destruct Hws' as [|x ws' Hx _]; simpl;
        [now apply separator_not_digit|now apply space_not_digit]. }
    rewrite lstrip_with_run; [|exact Hws|].
    + rewrite span_run by assumption.
      destruct ds as [|d ds]; [congruence|].
      rewrite lstrip_with_run; [|exact Hws'|simpl; now apply separator_not_space].
      now rewrite Hc.
    + destruct ds as [|d ds]; [congruence|]. simpl.
      apply digit_not_space. now inversion Hds.
Qed.

Lemma extract_rank_from_first i before line after brand :
  Forall (fun l => ~ occurs (lower brand) (lower l)) before ->
  occurs (lower brand) (lower line) ->
  extract_rank_from i (before ++ line :: after) brand =
  Some (match match_rank line with
        | Some n => n
        | None => i + len_list before + 1
        end).
Proof.
  intros Hb Hl. revert i. induction Hb as [|l before Hn _ IH]; intros i; simpl.
  - apply contains_occurs in Hl. rewrite Hl.
    destruct (match_rank line); f_equal. unfold len_list. simpl. lia.
  - destruct (contains (lower brand) (lower l)) eqn:E.
    + apply contains_occurs in E. contradiction.
    + rewrite IH. f_equal. destruct (match_rank line); [reflexivity|].
      unfold len_list. simpl length. lia.
Qed.

Lemma extract_rank_from_None i lines brand :
  extract_rank_from i lines brand = None <->
  Forall (fun l => ~ occurs (lower brand) (lower l)) lines.
Proof.
  revert i. induction lines as [|l lines IH]; intros i; simpl.
  - split; [constructor|reflexivity].
  - destruct (contains (lower brand) (lower l)) eqn:E.
    + apply contains_occurs in E. split.
      * destruct (match_rank l); discriminate.
      * intros H. inversion H; contradiction.
    + rewrite IH. split.
      * intros H. constructor; [|exact H]. intros Ho. apply contains_occurs in Ho. congruence.
      * intros H. now inversion H.
Qed.

(** C5, as stated, fails: a list number that is indented, or separated from
    its separator by white space, is still captured. *)
Lemma extract_rank_skips_white_space :
  rank_as_stated "  3. Widgets" "Widgets" = Some 1 /\
  extract_rank "  3. Widgets" "Widgets" = Some 3 /\
  rank_as_stated "7 ) Widgets" "Widgets" = Some 1 /\
  extract_rank "7 ) Widgets" "Widgets" = Some 7.
Proof. repeat split; vm_compute; reflexivity. Qed.

(** C5, amended: the rank is absent exactly when no line of the text
    contains the brand case-insensitively; otherwise, for the first such
    line, it is the number captured from the line when the line opens with
    optional white space, digits, optional white space and one of the
    separators [.], [-], [)], and the 1-based index of the line when it
    does not.  The two sample texts give ranks 2 and 1. *)
Theorem extract_rank_first_line :
  (forall text brand : str,
      (extract_rank text brand = None <->
       Forall (fun l => ~ occurs (lower brand) (lower l)) (split_on LF text)) /\
      (forall before line after,
          split_on LF text = before ++ line :: after ->
          Forall (fun l => ~ occurs (lower brand) (lower l)) before ->
          occurs (lower brand) (lower line) ->
          (forall n, numbered line n -> extract_rank text brand = Some n) /\
          ((forall n, ~ numbered line n) ->
           extract_rank text brand = Some (len_list before + 1)))) /\
  extract_rank ("1. Acme" ++ [LF] ++ "2. Widgets") "Widgets" = Some 2 /\
  extract_rank "Acme and Widgets are great" "Widgets" = Some 1.
Proof.
  split; [|split; vm_compute; reflexivity].
  intros text brand. split; [apply extract_rank_from_None|].
  intros before line after Hsplit Hb Hl. unfold extract_rank. rewrite Hsplit.
  rewrite (extract_rank_from_first 0 before line after brand Hb Hl). split.
  - intros n Hn. apply match_rank_numbered in Hn. now rewrite Hn.
  - intros Hno. destruct (match_rank line) as [n|] eqn:E.
    + apply match_rank_numbered in E. now destruct (Hno n).
    + f_equal.
Qed.

(** An indented list number on the second line. *)
Lemma extract_rank_first_line_witness :
  extract_rank ("Tools:" ++ [LF] ++ " 2) Widgets" ++ [LF] ++ "3) Acme") "widgets" = Some 2.
Proof.
  destruct extract_rank_first_line as [H _].
  destruct (H ("Tools:" ++ [LF] ++ " 2) Widgets" ++ [LF] ++ "3) Acme") "widgets") as [_ H2].
  destruct (H2 ["Tools:"] " 2) Widgets" ["3) Acme"]) as [H3 _].
  - reflexivity.
  - constructor; [|constructor]. intros H0. apply contains_occurs in H0. discriminate.
  - apply contains_occurs. reflexivity.
  - apply H3. exists " ", "2", "", ")"%char, " Widgets".
    repeat split; try discriminate; repeat constructor.
Defined.

(** ** Lines *)

Lemma lower_char_LF c : Ascii.eqb (lower_char c) LF = Ascii.eqb c LF.
Proof. destruct c as [[] [] [] [] [] [] [] []]; reflexivity. Qed.

Lemma split_on_nonempty sep s : split_on sep s <> [].
Proof.
  destruct s as [|c s]; simpl; [discriminate|].
  destruct (Ascii.eqb c sep); [discriminate|].
  destruct (split_on sep s); discriminate.
Qed.

Lemma split_on_lower s : split_on LF (lower s) = List.map lower (split_on LF s).
Proof.
  induction s as [|c s IH]; simpl; [reflexivity|].
  rewrite lower_char_LF. destruct (Ascii.eqb c LF); simpl; [now rewrite IH|].
  rewrite IH. destruct (split_on LF s); reflexivity.
Qed.

Lemma occurs_cons sub c s : occurs sub s -> occurs sub (c :: s).
Proof. intros (a & b & ->). now exists (c :: a), b. Qed.

(** A string without line feed that heads a text heads its first line. *)
Lemma split_on_head sub b :
  LF ∉ sub -> exists r ls, split_on LF (sub ++ b) = (sub ++ r) :: ls.
Proof.
  intros Hsub. induction sub as [|c sub IH]; simpl.
  - destruct (split_on LF b) as [|l ls] eqn:E; [now apply split_on_nonempty in E|].
    now exists l, ls.
  - destruct (Ascii.eqb_spec c LF) as [->|Hc]; [exfalso; apply Hsub; left|].
    destruct IH as (r & ls & ->); [intros H; apply Hsub; now right|].
    now exists r, ls.
Qed.

Lemma occurs_in_line sub s :
  LF ∉ sub -> occurs sub s -> Exists (occurs sub) (split_on LF s).
Proof.
  intros Hsub (a & b & ->). induction a as [|c a IH]; simpl.
  - destruct (split_on_head sub b Hsub) as (r & ls & ->).
    left. now exists [], r.
  - destruct (Ascii.eqb c LF); [now right|].
    destruct (split_on LF (a ++ sub ++ b)) as [|l ls]; [inversion IH|].
    inversion IH; subst; [left; now apply occurs_cons|now right].
Qed.

Lemma LF_lower s : LF ∉ s -> LF ∉ lower s.
Proof.
  intros H Hin. apply H. unfold lower in Hin.
  apply list_elem_of_In, in_map_iff in Hin as (c & Hc & Hin).
  apply list_elem_of_In.
  assert (c = LF); [|now subst].
  apply Ascii.eqb_eq. rewrite <- lower_char_LF, Hc. apply Ascii.eqb_refl.
Qed.

Lemma extract_rank_present text brand :
  LF ∉ brand -> occurs (lower brand) (lower text) -> is_Some (extract_rank text brand).
Proof.
  intros Hb Ho.
  destruct (extract_rank text brand) as [n|] eqn:E; [now exists n|].
  apply extract_rank_from_None in E.
  apply (occurs_in_line _ _ (LF_lower _ Hb)) in Ho.
  rewrite split_on_lower in Ho. apply Exists_exists in Ho as (l & Hin & Hl).
  apply list_elem_of_In, in_map_iff in Hin as (l0 & <- & Hin).
  rewrite Forall_forall in E. now destruct (E l0 (proj2 (list_elem_of_In _ _) Hin)).
Qed.

(** ** GEO analysis *)

Lemma extract_sentiment_values text brand :
  extract_sentiment text brand = "positive" \/
  extract_sentiment text brand = "negative" \/
  extract_sentiment text brand = "neutral".
Proof.
  unfold extract_sentiment. cbv zeta.
  destruct (_ =? -1); [tauto|].
  destruct (_ >? _); [tauto|]. destruct (_ >? _); tauto.
Qed.


Lemma probe_probed ec check p q domain text :
  probed domain (probe ec check p q domain text).
Proof.
  unfold probed, probe. simpl.
  destruct (contains (lower domain) (lower text)) eqn:E; [right|left; tauto].
  split; [reflexivity|]. split; [now eexists|]. split.
  - destruct (extract_sentiment_values text domain) as [->|[->| ->]]; tauto.
  - intros H. apply extract_rank_present; [exact H|now apply contains_occurs].
Qed.

Lemma probe_all_probed gemini chatgpt ec check domain queries ms :
  probe_all gemini chatgpt ec check domain queries = Some ms ->
  Forall (probed domain) ms.
Proof.
  revert ms. induction queries as [|q queries IH]; intros ms; simpl.
  - intros [= <-]. constructor.
  - destruct (gemini q) as [g|]; simpl; [|discriminate].
    destruct (probe_all gemini chatgpt ec check domain queries) as [rest|]; simpl;
      [|discriminate].
    intros [= <-]. constructor; [apply probe_probed|].
    constructor; [apply probe_probed|]. now apply IH.
Qed.

Lemma breakdown_total_count domain acc m :
  probed domain m ->
  breakdown_total (count_sentiment acc m) =
  breakdown_total acc + (if mentioned m then 1 else 0).
Proof.
  unfold count_sentiment, breakdown_total.
  intros [(-> & _ & -> & _)|(-> & _ & Hs & _)]; simpl; [lia|].
  destruct Hs as [->|[->| ->]]; simpl;
    rewrite !lookup_insert; repeat case_decide; try congruence; simpl; lia.
Qed.

Lemma breakdown_total_fold domain ms acc :
  Forall (probed domain) ms ->
  breakdown_total (fold_left count_sentiment ms acc) =
  breakdown_total acc + len_list (List.filter mentioned ms).
Proof.
  intros H. revert acc. induction H as [|m ms Hm _ IH]; intros acc; simpl.
  - unfold len_list. simpl. lia.
  - rewrite IH, (breakdown_total_count domain acc m Hm).
    unfold len_list. destruct (mentioned m); simpl length; lia.
Qed.

(** C10, as stated, fails: a domain that contains a line feed can occur in
    a reply without occurring in any single line of it, and the probe is
    then mentioned without a rank. *)
Lemma analyze_geo_mentioned_without_rank :
  exists resp m,
    analyze_geo (fun _ => Some ("see a" ++ [LF] ++ "b")) (fun _ => "") (fun _ _ => [])
      {| req_domain := "a" ++ [LF] ++ "b"; req_keywords := [];
         req_check_competitors := Some true |} = Some resp /\
    m ∈ mentions resp /\ mentioned m = true /\ rank m = None.
Proof.
  eexists. eexists. split; [reflexivity|]. split; [left|]. split; reflexivity.
Qed.

(** C10, amended: in every result of the GEO analysis, a probe with
    [mentioned = true] has its context and its sentiment present, and its
    rank present provided the cleaned domain contains no line feed; the
    positive, negative and neutral counts of the sentiment breakdown sum to
    [mentions_found]. *)
Theorem analyze_geo_mentions_complete
    (gemini : str -> option str) (chatgpt : str -> str)
    (ec : str -> str -> list str) (request : GEORequest) (resp : GEOResponse) :
  analyze_geo gemini chatgpt ec request = Some resp ->
  (forall m, m ∈ mentions resp -> mentioned m = true ->
             is_Some (context m) /\ is_Some (sentiment m) /\
             (LF ∉ geo_domain resp -> is_Some (rank m))) /\
  breakdown_total (sentiment_breakdown (summary resp)) = mentions_found (summary resp).
Proof.
  unfold analyze_geo.
  destruct (probe_all _ _ _ _ _ _) as [ms|] eqn:E; simpl; [|discriminate].
  intros [= <-]. simpl. apply probe_all_probed in E. split.
  - intros m Hin Hm. rewrite Forall_forall in E.
    destruct (E m Hin) as [(Hf & _)|(_ & Hc & Hs & Hr)]; [congruence|].
    repeat split; [exact Hc| |exact Hr].
    destruct Hs as [->|[->| ->]]; now eexists.
  - rewrite (breakdown_total_fold _ _ _ E). reflexivity.
Qed.

(** An analysis of one keyword where only the first backend mentions the
    domain. *)
Lemma analyze_geo_mentions_complete_witness :
  exists resp,
    analyze_geo (fun _ => Some "1. acme.com is the best") (fun _ => "no idea")
      (fun _ _ => []) {| req_domain := "https://www.Acme.com/"; req_keywords := ["seo"];
                         req_check_competitors := None |} = Some resp /\
    (forall m, m ∈ mentions resp -> mentioned m = true ->
               is_Some (context m) /\ is_Some (sentiment m) /\
               (LF ∉ geo_domain resp -> is_Some (rank m))) /\
    breakdown_total (sentiment_breakdown (summary resp)) = mentions_found (summary resp).
Proof.
  eexists. split; [reflexivity|].
  apply (analyze_geo_mentions_complete
           (fun _ => Some "1. acme.com is the best") (fun _ => "no idea") (fun _ _ => [])
           {| req_domain := "https://www.Acme.com/"; req_keywords := ["seo"];
              req_check_competitors := None |}).
  reflexivity.
Defined.

(** ** Core Web Vitals *)

Lemma categorized_by_lookup metric g n :
  thresholds !! metric = Some {| good := g; needs_improvement := n |} ->
  (g <= n)%Q ->
  categorized_by metric g n.
Proof.
  intros H Hgn v. unfold categorize_metric. rewrite H. simpl.
  destruct (Qle_bool v g) eqn:Eg; destruct (Qle_bool v n) eqn:En;
    try apply Qle_bool_iff in Eg; try apply Qle_bool_iff in En;
    repeat split; intros; try reflexivity; exfalso.
  all: try (assert (Hg : ~ (v <= g)%Q)
              by (intros C; apply Qle_bool_iff in C; congruence)).
  all: try (assert (Hn : ~ (v <= n)%Q)
              by (intros C; apply Qle_bool_iff in C; congruence)).
  all: repeat match goal with H : _ /\ _ |- _ => destruct H end; lra.
Qed.

(** C4: for each of the five vitals the category is [good] up to the first
    threshold, [needs_improvement] above it and up to the second, and [poor]
    above the second, with thresholds LCP 2.5/4.0, FID 100/300, CLS
    0.1/0.25, FCP 1.8/3.0 and TTFB 0.8/1.8; LCP 2.4 and 2.5 are [good], 3.0
    and 4.0 [needs_improvement], 5.0 [poor]. *)
Theorem categorize_metric_thresholds :
  categorized_by "lcp" 2.5 4.0 /\
  categorized_by "fid" 100 300 /\
  categorized_by "cls" 0.1 0.25 /\
  categorized_by "fcp" 1.8 3.0 /\
  categorized_by "ttfb" 0.8 1.8 /\
  categorize_metric 2.4 "lcp" = "good" /\
  categorize_metric 2.5 "lcp" = "good" /\
  categorize_metric 3.0 "lcp" = "needs_improvement" /\
  categorize_metric 4.0 "lcp" = "needs_improvement" /\
  categorize_metric 5.0 "lcp" = "poor".
Proof.
  do 5 (split; [apply categorized_by_lookup; [vm_compute; reflexivity|discriminate]|]).
  repeat split; vm_compute; reflexivity.
Qed.

(** ** Opportunities *)

Lemma Qlt_bool_iff x y : Qlt_bool x y = true <-> (x < y)%Q.
Proof.
  unfold Qlt_bool. rewrite negb_true_iff. split.
  - intros H. apply Qnot_le_lt. intros C. apply Qle_bool_iff in C. congruence.
  - intros H. destruct (Qle_bool y x) eqn:E; [|reflexivity].
    apply Qle_bool_iff in E. lra.
Qed.

Lemma insert_by_perm {A} (key : A -> Q) x l : Permutation (insert_by key x l) (x :: l).
Proof.
  induction l as [|y l IH]; simpl; [reflexivity|].
  destruct (Qle_bool (key x) (key y)); [reflexivity|].
  rewrite IH. apply perm_swap.
Qed.

Lemma sort_by_perm {A} (key : A -> Q) l : Permutation (sort_by key l) l.
Proof.
  induction l as [|x l IH]; simpl; [reflexivity|].
  rewrite insert_by_perm. now constructor.
Qed.

Lemma insert_by_sorted {A} (key : A -> Q) x l :
  StronglySorted (fun a b => (key a <= key b)%Q) l ->
  StronglySorted (fun a b => (key a <= key b)%Q) (insert_by key x l).
Proof.
  induction 1 as [|y l Hs IH Hy]; simpl.
  - repeat constructor.
  - destruct (Qle_bool (key x) (key y)) eqn:E.
    + apply Qle_bool_iff in E. constructor; [now constructor|].
      constructor; [exact E|].
      rewrite List.Forall_forall in *. intros z Hz. specialize (Hy z Hz). lra.
    + assert (Hyx : (key y <= key x)%Q).
      { destruct (Qle_bool (key y) (key x)) eqn:E'; [now apply Qle_bool_iff|].
        apply Qlt_le_weak, Qnot_le_lt. intros C. apply Qle_bool_iff in C. congruence. }
      constructor; [exact IH|].
      rewrite List.Forall_forall in *. intros z Hz.
      apply (Permutation_in _ (insert_by_perm key x l)) in Hz.
      destruct Hz as [<-|Hz]; [exact Hyx|now apply Hy].
Qed.

(** The result of the sort is ascending in the sort key. *)
Lemma sort_by_sorted {A} (key : A -> Q) l :
  StronglySorted (fun a b => (key a <= key b)%Q) (sort_by key l).
Proof.
  induction l as [|x l IH]; simpl; [constructor|]. now apply insert_by_sorted.
Qed.

(** The sort of the opportunity list: the sample scores, an absent score
    being placed last. *)
Example sort_by_sample_scores :
  List.map opp_score
    (sort_by score_or_1 [scored (Some 0.8%Q); scored (Some 0.3%Q); scored None;
                         scored (Some 0.5%Q)])
  = [Some 0.3%Q; Some 0.5%Q; Some 0.8%Q; None].
Proof. reflexivity. Qed.


(** The opportunities come out ascending in [score or 1]. *)
Lemma extract_opportunities_sorted (audits : gmap str Audit) :
  StronglySorted (fun a b => (score_or_1 a <= score_or_1 b)%Q)
                 (extract_opportunities audits).
Proof. apply sort_by_sorted. Qed.

(** C3, the sort at a score of 0: [x.score or 1] takes the score 0 for
    absent, so the worst check is placed after a check that scores 0.5,
    and the list is not ascending by score. *)
Theorem extract_opportunities_zero_score_last :
  List.map (fun o => (opp_title o, opp_score o))
    (extract_opportunities
       (<["render-blocking-resources" := audit_scored 0]>
          (<["unused-css-rules" := audit_scored 0.5]> ∅)))
  = [("unused-css-rules", Some 0.5%Q); ("render-blocking-resources", Some 0%Q)].
Proof. vm_compute. reflexivity. Qed.

(** ** SEO analysis without a credential *)

(** With a strategy in the request, the demo result is returned: its four
    scores lie within 0-100 and it carries three recommendations. *)
Lemma analyze_seo_health_demo
    (pagespeed : SEOHealthRequest -> option SEOHealthResponse)
    (request : SEOHealthRequest) (d : DemoDraws) (strategy : str) :
  seo_strategy request = Some strategy ->
  demo_draws_ok d ->
  exists resp,
    analyze_seo_health "" pagespeed request d = Some resp /\
    resp_strategy resp = strategy /\
    score_in_bounds (performance_score resp) /\
    score_in_bounds (seo_score resp) /\
    score_in_bounds (accessibility_score resp) /\
    score_in_bounds (best_practices_score resp) /\
    length (recommendations resp) = 3%nat.
Proof.
  intros Hs (Hp & Hseo & Ha & Hb & _).
  unfold analyze_seo_health, validate_response. simpl. rewrite Hs.
  eexists. split; [reflexivity|]. simpl. repeat split; lia.
Qed.

(** A request for the mobile strategy with draws from the ranges. *)
Lemma analyze_seo_health_demo_witness :
  let request := {| seo_url := "https://example.com/"; seo_strategy := Some "mobile" |} in
  let d := {| draw_performance := 80; draw_seo := 90; draw_accessibility := 70;
              draw_best_practices := 75; draw_lcp := 2.5; draw_lcp_category := "good";
              draw_fid := 100; draw_fid_category := "good"; draw_cls := 0.1;
              draw_cls_category := "poor"; draw_fcp := 1.5; draw_ttfb := 0.5 |} in
  demo_draws_ok d /\
  exists resp,
    analyze_seo_health "" (fun _ => None) request d = Some resp /\
    resp_strategy resp = "mobile" /\
    score_in_bounds (performance_score resp) /\
    score_in_bounds (seo_score resp) /\
    score_in_bounds (accessibility_score resp) /\
    score_in_bounds (best_practices_score resp) /\
    length (recommendations resp) = 3%nat.
Proof.
  intros request d.
  assert (H : demo_draws_ok d).
  { unfold demo_draws_ok, d. simpl. repeat split; try lia; try discriminate; tauto. }
  split; [exact H|].
  exact (analyze_seo_health_demo (fun _ => None) request d "mobile" eq_refl H).
Defined.

(** C7, the request without a strategy: [strategy] is optional in the
    request and required in the response, so with no credential configured
    a request whose strategy is null makes the operation raise, whatever
    the draws. *)
Theorem analyze_seo_health_null_strategy_raises
    (pagespeed : SEOHealthRequest -> option SEOHealthResponse)
    (url : str) (d : DemoDraws) :
  analyze_seo_health "" pagespeed {| seo_url := url; seo_strategy := None |} d = None.
Proof. reflexivity. Qed.

(** ** Traffic metrics *)

Lemma int_field_integer x n : (x == inject_Z n)%Q -> int_field x = Some n.
Proof.
  intros H. unfold int_field. rewrite (Qred_complete _ _ H).
  assert (E : Qred (inject_Z n) = inject_Z n).
  { unfold Qred, inject_Z. simpl.
    pose proof (Z.ggcd_gcd n 1) as Hg. pose proof (Z.ggcd_correct_divisors n 1) as Hd.
    destruct (Z.ggcd n 1) as [g [a b]]. simpl in *.
    rewrite Z.gcd_1_r in Hg. destruct Hd as [Hd1 Hd2].
    replace a with n by lia. replace b with 1 by lia. reflexivity. }
  rewrite E. reflexivity.
Qed.








(** ** Traffic sources *)

Lemma round_half_even_close y :
  (inject_Z (round_half_even y) - (1 # 2) <= y /\
   y <= inject_Z (round_half_even y) + (1 # 2))%Q.
Proof.
  unfold round_half_even.
  pose proof (Qfloor_le y) as Hlo. pose proof (Qlt_floor y) as Hhi.
  rewrite inject_Z_plus in Hhi. change (inject_Z 1) with 1%Q in Hhi.
  destruct (Qcompare_spec (y - inject_Z (Qfloor y)) (1 # 2)) as [E|L|G].
  - destruct (Z.even (Qfloor y)); [|rewrite inject_Z_plus; change (inject_Z 1) with 1%Q];
      split; lra.
  - split; lra.
  - rewrite inject_Z_plus. change (inject_Z 1) with 1%Q. split; lra.
Qed.

(** Rounding to one decimal moves a number by at most 0.05. *)
Lemma py_round_1_close x :
  (py_round x 1 - 0.05 <= x /\ x <= py_round x 1 + 0.05)%Q.
Proof.
  unfold py_round. change (inject_Z (10 ^ Z.of_nat 1)) with 10%Q.
  destruct (round_half_even_close (x * 10)) as [H1 H2].
  set (k := inject_Z (round_half_even (x * 10))) in *.
  assert (E : (k / 10 == k * (1 # 10))%Q) by (unfold Qdiv; reflexivity).
  rewrite E. split; lra.
Qed.

Lemma sum_of_six_rounded (x1 x2 x3 x4 x5 x6 : Q) :
  (x1 + x2 + x3 + x4 + x5 + x6 == 100)%Q ->
  (99.7 <= sum_Q [py_round x1 1; py_round x2 1; py_round x3 1;
                  py_round x4 1; py_round x5 1; py_round x6 1] <= 100.3)%Q.
Proof.
  intros Hsum. unfold sum_Q. simpl.
  pose proof (py_round_1_close x1) as R1. pose proof (py_round_1_close x2) as R2.
  pose proof (py_round_1_close x3) as R3. pose proof (py_round_1_close x4) as R4.
  pose proof (py_round_1_close x5) as R5. pose proof (py_round_1_close x6) as R6.
  split; lra.
Qed.

(** C9, as stated, fails: six roundings to one decimal can add up to more
    than 0.1; these weights, each within its range, give the percentages
    45.0, 25.0, 12.0, 8.0, 5.0 and 4.8, which sum to 99.8. *)
Lemma estimate_traffic_sources_sum_998 :
  let d := {| draw_organic := 0.4504; draw_direct := 0.2504; draw_referral := 0.1204;
              draw_social := 0.0804; draw_paid := 0.0504; draw_email := 0.048 |} in
  source_draws_ok d /\
  exists srcs,
    estimate_traffic_sources 100000 d = Some srcs /\
    List.map Qred (List.map percentage srcs) = [45; 25; 12; 8; 5; 24 # 5]%Q /\
    (sum_Q (List.map percentage srcs) == 99.8)%Q /\
    ~ (99.9 <= sum_Q (List.map percentage srcs) <= 100.1)%Q.
Proof.
  intros d. split.
  - unfold source_draws_ok, d. simpl. repeat split; discriminate.
  - eexists. split; [vm_compute; reflexivity|].
    split; [vm_compute; reflexivity|]. split; [vm_compute; reflexivity|].
    intros [H _]. vm_compute in H. apply H. reflexivity.
Qed.

(** C9, amended: the six weights are drawn independently and divided by
    their total, and the reported percentages, each rounded to one decimal,
    sum to 100.0 within 0.3. *)
Theorem estimate_traffic_sources_sum (total_visits : Z) (d : SourceDraws) :
  source_draws_ok d ->
  exists srcs,
    estimate_traffic_sources total_visits d = Some srcs /\
    List.map source srcs =
      ["Organic Search"; "Direct"; "Referral"; "Social Media"; "Paid Search"; "Email"] /\
    (99.7 <= sum_Q (List.map percentage srcs) <= 100.3)%Q.
Proof.
  intros (H1 & H2 & H3 & H4 & H5 & H6).
  unfold estimate_traffic_sources. cbv zeta. simpl List.map at 1. unfold sum_Q at 1.
  simpl fold_right.
  set (total := (draw_organic d + (draw_direct d + (draw_referral d +
                 (draw_social d + (draw_paid d + (draw_email d + 0))))))%Q).
  assert (Ht : (0 < total)%Q) by (subst total; lra).
  destruct (Qeq_bool total 0) eqn:E; [apply Qeq_bool_iff in E; lra|].
  eexists. split; [reflexivity|]. split; [reflexivity|].
  apply sum_of_six_rounded.
  assert (Hne : ~ (total == 0)%Q) by lra.
  assert (Htot : (total == draw_organic d + draw_direct d + draw_referral d +
                           draw_social d + draw_paid d + draw_email d)%Q)
    by (unfold total; ring).
  change (sum_Q (List.map snd _)) with total. clearbody total.
  transitivity ((draw_organic d + draw_direct d + draw_referral d +
                 draw_social d + draw_paid d + draw_email d) / total * 100)%Q;
    [field; exact Hne|].
  rewrite <- Htot. field. exact Hne.
Qed.

(** Weights that already sum to 1. *)
Lemma estimate_traffic_sources_sum_witness :
  let d := {| draw_organic := 0.5; draw_direct := 0.25; draw_referral := 0.1;
              draw_social := 0.05; draw_paid := 0.05; draw_email := 0.05 |} in
  source_draws_ok d /\
  exists srcs,
    estimate_traffic_sources 20000 d = Some srcs /\
    List.map source srcs =
      ["Organic Search"; "Direct"; "Referral"; "Social Media"; "Paid Search"; "Email"] /\
    (99.7 <= sum_Q (List.map percentage srcs) <= 100.3)%Q.
Proof.
  intros d.
  assert (H : source_draws_ok d).
  { unfold source_draws_ok, d. simpl. repeat split; discriminate. }
  split; [exact H|]. exact (estimate_traffic_sources_sum 20000 d H).
Defined.

(** ** Report builder *)










































(** * Further properties of the GEO module *)

(** ** The probes of an analysis *)

Lemma probe_all_labels gemini chatgpt ec check domain queries ms :
  probe_all gemini chatgpt ec check domain queries = Some ms ->
  List.map (fun m => (platform m, query m)) ms =
  flat_map (fun q => [("gemini", q); ("chatgpt", q)]) queries.
Proof.
  revert ms. induction queries as [|q queries IH]; intros ms; simpl.
  - now intros [= <-].
  - destruct (gemini q) as [g|]; simpl; [|discriminate].
    destruct (probe_all gemini chatgpt ec check domain queries) as [rest|]; simpl;
      [|discriminate].
    intros [= <-]. simpl. now rewrite (IH rest eq_refl).
Qed.

Lemma probe_all_length gemini chatgpt ec check domain queries ms :
  probe_all gemini chatgpt ec check domain queries = Some ms ->
  len_list ms = 2 * len_list queries.
Proof.
  intros H. apply probe_all_labels in H.
  apply (f_equal (@length _)) in H. rewrite List.length_map in H.
  unfold len_list. rewrite H. clear H.
  induction queries as [|q queries IH]; simpl length; lia.
Qed.

Lemma geo_queries_length domain keywords :
  len_list (geo_queries domain keywords) = 2 + 2 * Z.min 3 (len_list keywords).
Proof.
  unfold geo_queries, len_list. rewrite length_app. simpl length at 1.
  assert (H : forall (f : list ascii -> list (list ascii)) l,
             (forall x, length (f x) = 2%nat) ->
             length (flat_map f l) = (2 * length l)%nat).
  { intros f l Hf. induction l as [|x l IH]; [reflexivity|].
    change (flat_map f (x :: l)) with (f x ++ flat_map f l).
    rewrite length_app, Hf, IH. simpl length. lia. }
  rewrite H by reflexivity. rewrite length_firstn. lia.
Qed.

(** The probes of a result come in the order of the queries, two per query,
    the Gemini probe before the ChatGPT probe; with the two fixed queries
    and two per keyword for the first three keywords, a result holds between
    4 and 16 probes. *)
Theorem analyze_geo_probe_order
    (gemini : str -> option str) (chatgpt : str -> str)
    (ec : str -> str -> list str) (request : GEORequest) (resp : GEOResponse) :
  analyze_geo gemini chatgpt ec request = Some resp ->
  geo_domain resp = clean_domain (req_domain request) /\
  List.map (fun m => (platform m, query m)) (mentions resp) =
    flat_map (fun q => [("gemini", q); ("chatgpt", q)])
             (geo_queries (geo_domain resp) (req_keywords request)) /\
  total_checks (summary resp) = 4 + 4 * Z.min 3 (len_list (req_keywords request)) /\
  4 <= total_checks (summary resp) <= 16.
Proof.
  unfold analyze_geo.
  destruct (probe_all _ _ _ _ _ _) as [ms|] eqn:E; simpl; [|discriminate].
  intros [= <-]. simpl. split; [reflexivity|].
  split; [apply (probe_all_labels _ _ _ _ _ _ _ E)|].
  rewrite (probe_all_length _ _ _ _ _ _ _ E), geo_queries_length.
  unfold len_list. lia.
Qed.

(** An analysis of two keywords: eight probes. *)
Lemma analyze_geo_probe_order_witness :
  let request := {| req_domain := "Acme.com"; req_keywords := ["seo"; "audit"];
                    req_check_competitors := Some true |} in
  exists resp,
    analyze_geo (fun _ => Some "acme.com is great") (fun _ => "") (fun _ _ => [])
                request = Some resp /\
    geo_domain resp = clean_domain (req_domain request) /\
    List.map (fun m => (platform m, query m)) (mentions resp) =
      flat_map (fun q => [("gemini", q); ("chatgpt", q)])
               (geo_queries (geo_domain resp) (req_keywords request)) /\
    total_checks (summary resp) = 4 + 4 * Z.min 3 (len_list (req_keywords request)) /\
    4 <= total_checks (summary resp) <= 16.
Proof.
  intros request. eexists. split; [reflexivity|].
  apply (analyze_geo_probe_order (fun _ => Some "acme.com is great") (fun _ => "")
           (fun _ _ => []) request).
  reflexivity.
Defined.

Lemma probe_all_unmentioned gemini chatgpt ec check domain queries ms :
  probe_all gemini chatgpt ec check domain queries = Some ms ->
  Forall (fun m =>
            (mentioned m = false ->
             context m = None /\ sentiment m = None /\ rank m = None) /\
            (forall c, context m = Some c -> (length c <= 500)%nat) /\
            (is_Some (competitors_mentioned m) <-> check = Some true)) ms.
Proof.
  assert (P : forall p q text,
             let m := probe ec check p q domain text in
             (mentioned m = false ->
              context m = None /\ sentiment m = None /\ rank m = None) /\
             (forall c, context m = Some c -> (length c <= 500)%nat) /\
             (is_Some (competitors_mentioned m) <-> check = Some true)).
  { intros p q text. simpl. split; [|split].
    - intros ->. tauto.
    - intros c. destruct (contains _ _); [|discriminate].
      intros [= <-]. rewrite length_firstn. lia.
    - destruct check as [[]|]; simpl; split; intros H; try reflexivity;
        try discriminate; try (now eexists); destruct H; discriminate. }
  revert ms. induction queries as [|q queries IH]; intros ms; simpl.
  - intros [= <-]. constructor.
  - destruct (gemini q) as [g|]; simpl; [|discriminate].
    destruct (probe_all gemini chatgpt ec check domain queries) as [rest|]; simpl;
      [|discriminate].
    intros [= <-]. constructor; [apply P|]. constructor; [apply P|]. now apply IH.
Qed.

(** A probe that does not mention the domain has no context, no sentiment
    and no rank; a context holds at most 500 characters; the competitor list
    of a probe is present exactly when the request asks for competitors,
    mentioned or not. *)
Theorem analyze_geo_probe_fields
    (gemini : str -> option str) (chatgpt : str -> str)
    (ec : str -> str -> list str) (request : GEORequest) (resp : GEOResponse) :
  analyze_geo gemini chatgpt ec request = Some resp ->
  forall m, m ∈ mentions resp ->
    (mentioned m = false -> context m = None /\ sentiment m = None /\ rank m = None) /\
    (forall c, context m = Some c -> (length c <= 500)%nat) /\
    (is_Some (competitors_mentioned m) <-> req_check_competitors request = Some true).
Proof.
  unfold analyze_geo.
  destruct (probe_all _ _ _ _ _ _) as [ms|] eqn:E; simpl; [|discriminate].
  intros [= <-]. simpl. intros m Hin.
  apply probe_all_unmentioned in E. rewrite Forall_forall in E. now apply E.
Qed.

(** An analysis where no backend mentions the domain. *)
Lemma analyze_geo_probe_fields_witness :
  let request := {| req_domain := "acme.com"; req_keywords := [];
                    req_check_competitors := None |} in
  exists resp,
    analyze_geo (fun _ => Some "nothing") (fun _ => "") (fun _ _ => []) request
      = Some resp /\
    forall m, m ∈ mentions resp ->
      (mentioned m = false -> context m = None /\ sentiment m = None /\ rank m = None) /\
      (forall c, context m = Some c -> (length c <= 500)%nat) /\
      (is_Some (competitors_mentioned m) <-> req_check_competitors request = Some true).
Proof.
  intros request. eexists. split; [reflexivity|].
  apply (analyze_geo_probe_fields (fun _ => Some "nothing") (fun _ => "")
           (fun _ _ => []) request).
  reflexivity.
Defined.

(** ** Bounds of the summary *)

Lemma round_half_even_ge n y : (inject_Z n <= y)%Q -> n <= round_half_even y.
Proof.
  intros H. unfold round_half_even.
  assert (Hf : n <= Qfloor y) by now apply Qfloor_resp_le in H; rewrite Qfloor_Z in H.
  destruct (Qcompare _ _); [destruct (Z.even _)| |]; lia.
Qed.

Lemma round_half_even_le n y : (y <= inject_Z n)%Q -> round_half_even y <= n.
Proof.
  intros H. unfold round_half_even.
  pose proof (Qfloor_le y) as Hlo.
  assert (Hf : Qfloor y <= n) by now apply Qfloor_resp_le in H; rewrite Qfloor_Z in H.
  destruct (Z.eq_dec (Qfloor y) n) as [E|E].
  - assert (Hy : (y == inject_Z (Qfloor y))%Q).
    { apply Qle_antisym; [now rewrite E|exact Hlo]. }
    assert (Hd : (y - inject_Z (Qfloor y) == 0)%Q) by (rewrite Hy at 1; ring).
    assert (Hc : Qcompare (y - inject_Z (Qfloor y)) (1 # 2) = Lt).
    { apply Qlt_alt. rewrite Hd. reflexivity. }
    rewrite Hc. lia.
  - destruct (Qcompare _ _); [destruct (Z.even _)| |]; lia.
Qed.

Lemma inject_Z_pos z : 0 < z -> (0 < inject_Z z)%Q.
Proof. intros H. unfold Qlt. simpl. lia. Qed.

Lemma py_round_between (lo hi : Z) (x : Q) (d : nat) :
  (inject_Z lo <= x <= inject_Z hi)%Q ->
  (inject_Z lo <= py_round x d <= inject_Z hi)%Q.
Proof.
  intros [Hlo Hhi]. unfold py_round.
  set (s := 10 ^ Z.of_nat d).
  assert (Hs : 0 < s) by (apply Z.pow_pos_nonneg; lia).
  assert (Hq : (0 < inject_Z s)%Q) by now apply inject_Z_pos.
  split.
  - apply Qle_shift_div_l; [exact Hq|].
    rewrite <- inject_Z_mult, <- Zle_Qle.
    apply round_half_even_ge. rewrite inject_Z_mult.
    apply Qmult_le_compat_r; [exact Hlo|now apply Qlt_le_weak].
  - apply Qle_shift_div_r; [exact Hq|].
    rewrite <- inject_Z_mult, <- Zle_Qle.
    apply round_half_even_le. rewrite inject_Z_mult.
    apply Qmult_le_compat_r; [exact Hhi|now apply Qlt_le_weak].
Qed.

Lemma digit_value_nonneg c : isdigit c = true -> 0 <= digit_value c.
Proof.
  unfold isdigit, in_range, digit_value. rewrite andb_true_iff, !N.leb_le. lia.
Qed.

Lemma int_of_digits_nonneg ds :
  Forall (fun x => isdigit x = true) ds -> 0 <= int_of_digits ds.
Proof.
  intros H. unfold int_of_digits.
  assert (G : forall acc, 0 <= acc ->
                0 <= fold_left (fun acc c => 10 * acc + digit_value c) ds acc).
  { induction H as [|c ds Hc _ IH]; intros acc Hacc; simpl; [exact Hacc|].
    apply IH. apply digit_value_nonneg in Hc. lia. }
  apply G. lia.
Qed.

Lemma match_rank_nonneg line n : match_rank line = Some n -> 0 <= n.
Proof.
  intros H. apply match_rank_numbered in H.
  destruct H as (ws & ds & ws' & c & rest & _ & _ & _ & Hds & _ & _ & ->).
  now apply int_of_digits_nonneg.
Qed.

Lemma extract_rank_from_nonneg i lines brand r :
  0 <= i -> extract_rank_from i lines brand = Some r -> 0 <= r.
Proof.
  revert i. induction lines as [|l lines IH]; intros i Hi; simpl; [discriminate|].
  destruct (contains (lower brand) (lower l)).
  - destruct (match_rank l) as [n|] eqn:E; intros [= <-]; [|lia].
    now apply match_rank_nonneg in E.
  - apply IH. lia.
Qed.

(** A rank read from a reply is never negative: the pattern admits digits
    only, and a line index counts from one. *)
Lemma extract_rank_nonneg text brand r : extract_rank text brand = Some r -> 0 <= r.
Proof. apply extract_rank_from_nonneg. lia. Qed.

Lemma probe_all_ranks gemini chatgpt ec check domain queries ms :
  probe_all gemini chatgpt ec check domain queries = Some ms ->
  Forall (fun m => forall r, rank m = Some r -> 0 <= r) ms.
Proof.
  assert (P : forall p q text r,
             rank (probe ec check p q domain text) = Some r -> 0 <= r).
  { intros p q text r. simpl.
    destruct (contains (lower domain) (lower text)); [|discriminate].
    apply extract_rank_nonneg. }
  revert ms. induction queries as [|q queries IH]; intros ms; simpl.
  - intros [= <-]. constructor.
  - destruct (gemini q) as [g|]; simpl; [|discriminate].
    destruct (probe_all gemini chatgpt ec check domain queries) as [rest|]; simpl;
      [|discriminate].
    intros [= <-]. constructor; [apply P|]. constructor; [apply P|]. now apply IH.
Qed.

Lemma collect_ranks_positive ms :
  Forall (fun m => forall r, rank m = Some r -> 0 <= r) ms ->
  Forall (fun r => 1 <= r) (collect_ranks ms).
Proof.
  unfold collect_ranks. induction 1 as [|m ms Hm _ IH]; simpl; [constructor|].
  destruct (rank m) as [r|] eqn:E; simpl; [|exact IH].
  destruct (Z.eqb_spec r 0) as [->|Hr]; simpl; [exact IH|].
  constructor; [|exact IH]. specialize (Hm r eq_refl). lia.
Qed.

Lemma collect_ranks_nil ms :
  collect_ranks ms = [] <-> Forall (fun m => rank m = None \/ rank m = Some 0) ms.
Proof.
  unfold collect_ranks. induction ms as [|m ms IH]; simpl.
  - split; [constructor|reflexivity].
  - rewrite Forall_cons_iff, <- IH. clear IH.
    destruct (rank m) as [r|]; simpl.
    + destruct (Z.eqb_spec r 0) as [->|Hr]; simpl.
      * intuition.
      * split; [discriminate|]. intros [[H|H] _]; congruence.
    + intuition.
Qed.

Lemma sum_Z_at_least l : Forall (fun r => 1 <= r) l -> len_list l <= sum_Z l.
Proof.
  unfold len_list, sum_Z. induction 1 as [|r l Hr _ IH]; simpl length; simpl fold_right; lia.
Qed.

Lemma length_filter_le {A} (p : A -> bool) l :
  (length (List.filter p l) <= length l)%nat.
Proof.
  induction l as [|x l IH]; simpl; [lia|]. destruct (p x); simpl; lia.
Qed.

(** The summary of a result is consistent: at most as many mentions as
    probes, a mention rate between 0 and 1, and an average rank, when there
    is one, of 1 or more; there is none exactly when every probe has no
    rank or rank 0, which the average leaves out. *)
Theorem analyze_geo_summary_bounds
    (gemini : str -> option str) (chatgpt : str -> str)
    (ec : str -> str -> list str) (request : GEORequest) (resp : GEOResponse) :
  analyze_geo gemini chatgpt ec request = Some resp ->
  let s := summary resp in
  0 <= mentions_found s <= total_checks s /\
  (0 <= mention_rate s <= 1)%Q /\
  (forall r, average_rank s = Some r -> (1 <= r)%Q) /\
  (average_rank s = None <->
   Forall (fun m => rank m = None \/ rank m = Some 0) (mentions resp)).
Proof.
  unfold analyze_geo.
  destruct (probe_all _ _ _ _ _ _) as [ms|] eqn:E; simpl; [|discriminate].
  intros [= <-]. simpl.
  pose proof (length_filter_le mentioned ms) as Hf.
  split; [unfold len_list; lia|]. split; [|split].
  - apply (py_round_between 0 1).
    destruct (Z.gtb_spec (len_list ms) 0) as [Hpos|_]; [|split; discriminate].
    assert (Hq : (0 < inject_Z (len_list ms))%Q) by (apply inject_Z_pos; lia).
    split.
    + apply Qle_shift_div_l; [exact Hq|]. rewrite <- inject_Z_mult, <- Zle_Qle.
      unfold len_list. lia.
    + apply Qle_shift_div_r; [exact Hq|]. rewrite <- inject_Z_mult, <- Zle_Qle.
      unfold len_list. lia.
  - intros r. pose proof (collect_ranks_positive ms (probe_all_ranks _ _ _ _ _ _ _ E)) as Hr.
    destruct (collect_ranks ms) as [|x ranks] eqn:Ec; [discriminate|].
    intros [= <-]. apply (py_round_between 1 (sum_Z (x :: ranks))).
    pose proof (sum_Z_at_least _ Hr) as Hs.
    change (x + sum_Z ranks) with (sum_Z (x :: ranks)).
    assert (Hl : 1 <= len_list (x :: ranks)) by (unfold len_list; simpl length; lia).
    assert (Hq : (0 < inject_Z (len_list (x :: ranks)))%Q) by (apply inject_Z_pos; lia).
    split.
    + apply Qle_shift_div_l; [exact Hq|]. rewrite <- inject_Z_mult, <- Zle_Qle. lia.
    + apply Qle_shift_div_r; [exact Hq|]. rewrite <- inject_Z_mult, <- Zle_Qle. nia.
  - rewrite <- collect_ranks_nil.
    destruct (collect_ranks ms); split; intros; congruence.
Qed.

(** An analysis where Gemini lists the domain second. *)
Lemma analyze_geo_summary_bounds_witness :
  let request := {| req_domain := "acme.com"; req_keywords := [];
                    req_check_competitors := None |} in
  exists resp,
    analyze_geo (fun _ => Some "2. acme.com") (fun _ => "") (fun _ _ => []) request
      = Some resp /\
    let s := summary resp in
    0 <= mentions_found s <= total_checks s /\
    (0 <= mention_rate s <= 1)%Q /\
    (forall r, average_rank s = Some r -> (1 <= r)%Q) /\
    (average_rank s = None <->
     Forall (fun m => rank m = None \/ rank m = Some 0) (mentions resp)).
Proof.
  intros request. eexists. split; [reflexivity|].
  apply (analyze_geo_summary_bounds (fun _ => Some "2. acme.com") (fun _ => "")
           (fun _ _ => []) request).
  reflexivity.
Defined.

(** ** Letter case *)










(** ** Spellings of a domain *)

Lemma rstrip_with_app p a b :
  rstrip_with p (a ++ b) =
  match rstrip_with p b with
  | [] => rstrip_with p a
  | r => a ++ r
  end.
Proof.
  induction a as [|c a IH]; simpl.
  - now destruct (rstrip_with p b).
  - rewrite IH. destruct (rstrip_with p b) as [|x r]; [reflexivity|].
    now destruct a.
Qed.

Lemma rstrip_with_fixed_app p a b :
  rstrip_with p a = a -> rstrip_with p b = b -> rstrip_with p (a ++ b) = a ++ b.
Proof.
  intros Ha Hb. rewrite rstrip_with_app, Hb.
  destruct b; [now rewrite app_nil_r|reflexivity].
Qed.

Lemma rstrip_with_all p s : Forall (fun c => p c = true) s -> rstrip_with p s = [].
Proof.
  induction 1 as [|c s Hc _ IH]; simpl; [reflexivity|]. now rewrite IH, Hc.
Qed.

Lemma rstrip_with_none p s : Forall (fun c => p c = false) s -> rstrip_with p s = s.
Proof.
  induction 1 as [|c s Hc _ IH]; simpl; [reflexivity|]. rewrite IH, Hc.
  now destruct s.
Qed.

(** What a cleaned domain that cleaning leaves alone looks like. *)
Lemma clean_domain_fixed h :
  clean_domain h = h ->
  lower h = h /\ lstrip_with isspace h = h /\ rstrip_with isspace h = h /\
  strip_prefix "www." h = None /\ rstrip_with (is_char "/") h = h.
Proof.
  intros H.
  assert (Hl : lower h = h) by (rewrite <- H; apply lowered_fix, lowered_clean_domain).
  assert (Hr : rstrip_with (is_char "/") h = h) by (rewrite <- H; apply rstrip_with_idem).
  unfold clean_domain in H. cbv zeta in H. rewrite Hl in H.
  pose proof (lstrip_with_fix_or_shorter isspace h) as H0.
  pose proof (rstrip_with_fix_or_shorter isspace (lstrip_with isspace h)) as H1.
  pose proof (sub_scheme_fix_or_shorter (strip h)) as H2.
  pose proof (sub_www_fix_or_shorter (sub_scheme (strip h))) as H3.
  pose proof (rstrip_with_fix_or_shorter (is_char "/") (sub_www (sub_scheme (strip h)))) as H4.
  assert (Hlen : length (rstrip_with (is_char "/") (sub_www (sub_scheme (strip h))))
                 = length h) by now rewrite H.
  unfold strip in *.
  destruct H0 as [E0|L0]; [|exfalso; destruct H1 as [E1|L1]; [rewrite E1 in *|];
    (destruct H2 as [(_ & _ & E2)|L2]; [rewrite E2 in *|];
     (destruct H3 as [(_ & E3)|L3]; [rewrite E3 in *|];
      (destruct H4 as [E4|L4]; [rewrite E4 in *|]; lia)))].
  rewrite E0 in *.
  destruct H1 as [E1|L1]; [|exfalso;
    (destruct H2 as [(_ & _ & E2)|L2]; [rewrite E2 in *|];
     (destruct H3 as [(_ & E3)|L3]; [rewrite E3 in *|];
      (destruct H4 as [E4|L4]; [rewrite E4 in *|]; lia)))].
  rewrite E1 in *.
  destruct H2 as [(_ & _ & E2)|L2]; [|exfalso;
     (destruct H3 as [(_ & E3)|L3]; [rewrite E3 in *|];
      (destruct H4 as [E4|L4]; [rewrite E4 in *|]; lia))].
  rewrite E2 in *.
  destruct H3 as [(Hw & E3)|L3]; [|exfalso;
      (destruct H4 as [E4|L4]; [rewrite E4 in *|]; lia)].
  repeat split; try assumption.
  unfold startswith in Hw. now destruct (strip_prefix "www." h).
Qed.

Lemma strip_prefix_app_None p h t :
  strip_prefix p h = None -> Forall (fun c => ~ In c p) t ->
  strip_prefix p (h ++ t) = None.
Proof.
  revert h. induction p as [|a p IH]; intros h; simpl; [discriminate|].
  destruct h as [|b h]; simpl.
  - intros _ Ht. destruct t as [|c t]; [reflexivity|].
    inversion Ht as [|? ? Hc _]; subst.
    destruct (Ascii.eqb_spec a c) as [->|_]; [|reflexivity].
    exfalso. apply Hc. now left.
  - destruct (Ascii.eqb a b); [|reflexivity].
    intros Hh Ht. apply IH; [exact Hh|].
    eapply Forall_impl; [exact Ht|]. intros c Hc Hin. apply Hc. now right.
Qed.

Lemma strip_prefix_www_slashes h slashes :
  strip_prefix "www." h = None ->
  Forall (fun c => is_char "/" c = true) slashes ->
  strip_prefix "www." (h ++ slashes) = None.
Proof.
  intros Hh Hs. apply strip_prefix_app_None; [exact Hh|].
  eapply Forall_impl; [exact Hs|]. intros c Hc.
  apply Ascii.eqb_eq in Hc. subst c. simpl. intuition discriminate.
Qed.

(** Written with a scheme, with [www.], with both, and with any number of
    trailing slashes, a domain is cleaned to the same string: for every
    [h] that cleaning leaves alone, each such spelling of [h] is cleaned to
    [h]. *)
Theorem clean_domain_spellings (h pre slashes : str) :
  clean_domain h = h ->
  In pre ["https://www."; "http://www."; "https://"; "http://"; "www."] ->
  Forall (fun c => is_char "/" c = true) slashes ->
  clean_domain (pre ++ h ++ slashes) = h.
Proof.
  intros Hh Hpre Hs.
  destruct (clean_domain_fixed h Hh) as (Hl & Hls & Hrs & Hw & Hr).
  assert (Hsl : lower slashes = slashes).
  { apply lowered_fix. eapply Forall_impl; [exact Hs|].
    intros c Hc. apply Ascii.eqb_eq in Hc. now subst c. }
  assert (Hss : rstrip_with isspace slashes = slashes).
  { apply rstrip_with_none. eapply Forall_impl; [exact Hs|].
    intros c Hc. apply Ascii.eqb_eq in Hc. now subst c. }
  assert (Hrest : rstrip_with isspace (h ++ slashes) = h ++ slashes)
    by now apply rstrip_with_fixed_app.
  assert (Hend : rstrip_with (is_char "/") (h ++ slashes) = h)
    by now rewrite rstrip_with_app, (rstrip_with_all _ _ Hs).
  assert (Hnw : sub_www (h ++ slashes) = h ++ slashes)
    by (unfold sub_www; now rewrite strip_prefix_www_slashes).
  assert (Hpl : lower pre = pre).
  { simpl in Hpre. destruct Hpre as [<-|[<-|[<-|[<-|[<-|[]]]]]]; reflexivity. }
  unfold clean_domain. cbv zeta. rewrite !lower_app, Hl, Hsl, Hpl. clear Hpl.
  assert (Hstrip : forall p : str,
             lstrip_with isspace p = p -> rstrip_with isspace p = p -> p <> [] ->
             strip (p ++ h ++ slashes) = p ++ h ++ slashes).
  { intros p Hp1 Hp2 Hne. unfold strip.
    assert (E : lstrip_with isspace (p ++ h ++ slashes) = p ++ h ++ slashes).
    { destruct p as [|c p]; [congruence|]. simpl in Hp1 |- *.
      destruct (isspace c); [|reflexivity].
      exfalso. pose proof (lstrip_with_suffix isspace p) as [a Ha].
      rewrite Hp1 in Ha. apply (f_equal (@length _)) in Ha.
      rewrite length_app in Ha. simpl in Ha. lia. }
    rewrite E. now apply rstrip_with_fixed_app. }
  simpl in Hpre.
  destruct Hpre as [<-|[<-|[<-|[<-|[<-|[]]]]]];
    (rewrite Hstrip by (reflexivity || discriminate));
    cbn [app sub_scheme strip_prefix Ascii.eqb Bool.eqb sub_www];
    rewrite ?Hnw; exact Hend.
Qed.

(** The spellings of a plain host name. *)
Lemma clean_domain_spellings_witness :
  clean_domain "example.com" = "example.com" /\
  clean_domain ("https://www." ++ "example.com" ++ "//") = "example.com".
Proof.
  split; [reflexivity|].
  apply (clean_domain_spellings "example.com" "https://www." "//").
  - reflexivity.
  - simpl. tauto.
  - repeat constructor.
Defined.

(** * Further properties of the traffic estimation *)

Lemma int_field_value x n : int_field x = Some n -> (x == inject_Z n)%Q.
Proof.
  unfold int_field. destruct (Pos.eqb_spec (Qden (Qred x)) 1) as [E|_]; [|discriminate].
  intros [= <-]. rewrite <- (Qred_correct x) at 1.
  destruct (Qred x) as [a b]. simpl in *. subst b. reflexivity.
Qed.

Lemma int_field_None x : int_field x = None <-> ~ exists n, (x == inject_Z n)%Q.
Proof.
  split.
  - intros H [n Hn]. rewrite (int_field_integer _ _ Hn) in H. discriminate.
  - intros H. destruct (int_field x) as [n|] eqn:E; [|reflexivity].
    exfalso. apply H. exists n. now apply int_field_value.
Qed.

(** The figure handed to [monthly_visits] is a whole number unless the
    domain is short, carries no [.gov] or [.edu], and the base is odd. *)
Lemma monthly_visits_refused (domain : str) (b : Z) :
  int_field (if len domain <? 10
             then (if has_gov_or_edu domain then inject_Z b * 2 else inject_Z b) * 1.5
             else (if has_gov_or_edu domain then inject_Z b * 2 else inject_Z b))%Q = None <->
  len domain < 10 /\ has_gov_or_edu domain = false /\ Z.odd b = true.
Proof.
  rewrite int_field_None.
  destruct (Z.ltb_spec (len domain) 10) as [Hs|Hs];
    destruct (has_gov_or_edu domain).
  - split; [|intros (_ & ? & _); discriminate].
    intros H. exfalso. apply H. exists (3 * b).
    unfold Qeq, Qmult, inject_Z. simpl. lia.
  - split.
    + intros H. repeat split; [exact Hs|].
      rewrite <- Z.negb_even. destruct (Z.even b) eqn:E; [|reflexivity].
      exfalso. apply H. apply Z.even_spec in E as [k Hk]. exists (3 * k).
      unfold Qeq, Qmult, inject_Z. simpl. lia.
    + intros (_ & _ & Ho) [n Hn]. apply Z.odd_spec in Ho as [k Hk].
      unfold Qeq, Qmult, inject_Z in Hn. simpl in Hn. lia.
  - split; [|lia]. intros H. exfalso. apply H. exists (2 * b).
    unfold Qeq, Qmult, inject_Z. simpl. lia.
  - split; [|lia]. intros H. exfalso. apply H. exists b. reflexivity.
Qed.

(** The estimator fails exactly on a domain shorter than 10 characters
    without [.gov] or [.edu] when the base figure drawn is odd: one and a
    half times an odd number is no whole number of visits.  With [.gov] or
    [.edu] the figure is doubled first, so that it never fails. *)
Theorem estimate_traffic_metrics_refused (domain : str) (d : MetricsDraws) :
  estimate_traffic_metrics domain d = None <->
  len domain < 10 /\ has_gov_or_edu domain = false /\ Z.odd (draw_base d) = true.
Proof.
  rewrite <- monthly_visits_refused.
  unfold estimate_traffic_metrics. cbv zeta.
  match goal with
  | |- context [int_field ?x] => destruct (int_field x)
  end; simpl; split; congruence.
Qed.





(** * Further properties of the SEO health analysis *)

(** ** Core Web Vitals *)

Lemma category_if_paired v metric :
  is_Some (thresholds !! metric) ->
  (rounded_if v = None <-> category_if v metric = None) /\
  known_category (category_if v metric).
Proof.
  intros [t Ht]. unfold rounded_if, category_if, known_category, categorize_metric.
  rewrite Ht. destruct v as [x|]; [|intuition].
  destruct (Qeq_bool x 0); [intuition|].
  split; [split; discriminate|].
  destruct (Qle_bool x (good t)); [tauto|].
  destruct (Qle_bool x (needs_improvement t)); tauto.
Qed.

(** In the vitals read from a Lighthouse result, each value is present
    exactly when its category is, and a category is [good],
    [needs_improvement] or [poor]. *)
Theorem extract_core_web_vitals_paired (lighthouse_result : Dict) (v : CoreWebVitals) :
  extract_core_web_vitals lighthouse_result = Some v ->
  ((lcp v = None <-> lcp_category v = None) /\ known_category (lcp_category v)) /\
  ((fid v = None <-> fid_category v = None) /\ known_category (fid_category v)) /\
  ((cls v = None <-> cls_category v = None) /\ known_category (cls_category v)) /\
  ((fcp v = None <-> fcp_category v = None) /\ known_category (fcp_category v)) /\
  ((ttfb v = None <-> ttfb_category v = None) /\ known_category (ttfb_category v)).
Proof.
  unfold extract_core_web_vitals.
  destruct (as_dict _) as [audits|]; simpl; [|discriminate].
  destruct (numeric_value audits "largest-contentful-paint" _) as [v1|]; simpl; [|discriminate].
  destruct (numeric_value audits "total-blocking-time" _) as [v2|]; simpl; [|discriminate].
  destruct (layout_shift audits) as [v3|]; simpl; [|discriminate].
  destruct (numeric_value audits "first-contentful-paint" _) as [v4|]; simpl; [|discriminate].
  destruct (numeric_value audits "server-response-time" _) as [v5|]; simpl; [|discriminate].
  intros [= <-]. cbn [lcp lcp_category fid fid_category cls cls_category fcp fcp_category
                      ttfb ttfb_category].
  repeat split; try apply category_if_paired; try (now eexists);
    apply (category_if_paired _ _ ltac:(now eexists)).
Qed.

(** A result with a largest contentful paint of 3.2 s and nothing else. *)
Lemma extract_core_web_vitals_paired_witness :
  let lighthouse_result :=
    [("audits", JDict [("largest-contentful-paint",
                        JDict [("numericValue", JNum 3200)])])] in
  exists v,
    extract_core_web_vitals lighthouse_result = Some v /\
    ((lcp v = None <-> lcp_category v = None) /\ known_category (lcp_category v)) /\
    ((fid v = None <-> fid_category v = None) /\ known_category (fid_category v)) /\
    ((cls v = None <-> cls_category v = None) /\ known_category (cls_category v)) /\
    ((fcp v = None <-> fcp_category v = None) /\ known_category (fcp_category v)) /\
    ((ttfb v = None <-> ttfb_category v = None) /\ known_category (ttfb_category v)).
Proof.
  intros lighthouse_result. eexists. split; [reflexivity|].
  apply (extract_core_web_vitals_paired lighthouse_result). reflexivity.
Defined.



(** ** Diagnostics *)

Lemma diagnostic_of_entries audits ids found :
  mapM (diagnostic_of audits) ids = Some found ->
  List.map (fun d => dict_lookup d "id") (concat found) =
    List.map (fun audit_id => Some (JStr audit_id))
             (List.filter (fun audit_id => truthy (get audits audit_id)) ids) /\
  Forall (fun d => List.map fst d =
                   ["id"; "title"; "description"; "value"; "score"; "details"])
         (concat found).
Proof.
  revert found. induction ids as [|audit_id ids IH]; intros found; simpl.
  - intros [= <-]. split; [reflexivity|constructor].
  - destruct (diagnostic_of audits audit_id) as [y|] eqn:Ed; simpl; [|discriminate].
    destruct (mapM (diagnostic_of audits) ids) as [rest|]; simpl; [|discriminate].
    intros [= <-]. destruct (IH rest eq_refl) as [H1 H2]. clear IH.
    unfold diagnostic_of in Ed.
    destruct (truthy (get audits audit_id)) eqn:Et.
    + destruct (as_dict (get audits audit_id)) as [a|]; simpl in Ed; [|discriminate].
      injection Ed as <-. simpl. split; [now rewrite H1|].
      constructor; [reflexivity|exact H2].
    + injection Ed as <-. simpl. split; [exact H1|exact H2].
Qed.

(** The diagnostics list one entry, with the six keys [id], [title],
    [description], [value], [score] and [details], for each of the fourteen
    diagnostic audits that is present and not empty, in the order of that
    list, whatever the order of the Lighthouse result. *)
Theorem extract_diagnostics_entries (lighthouse_result : Dict) (ds : list Dict) :
  extract_diagnostics lighthouse_result = Some ds ->
  exists audits,
    get_or lighthouse_result "audits" (JDict []) = JDict audits /\
    List.map (fun d => dict_lookup d "id") ds =
      List.map (fun audit_id => Some (JStr audit_id))
               (List.filter (fun audit_id => truthy (get audits audit_id))
                            diagnostic_audits) /\
    Forall (fun d => List.map fst d =
                     ["id"; "title"; "description"; "value"; "score"; "details"]) ds /\
    (length ds <= 14)%nat.
Proof.
  unfold extract_diagnostics.
  destruct (get_or lighthouse_result "audits" (JDict [])) as [| | | | |audits];
    try discriminate.
  cbn [as_dict mbind option_bind].
  destruct (mapM (diagnostic_of audits) diagnostic_audits) as [found|] eqn:E;
    cbn [mbind option_bind]; [|discriminate].
  intros [= <-]. exists audits. split; [reflexivity|].
  destruct (diagnostic_of_entries _ _ _ E) as [H1 H2].
  split; [exact H1|]. split; [exact H2|].
  apply (f_equal (@length _)) in H1. rewrite !List.length_map in H1. rewrite H1.
  etransitivity; [apply length_filter_le|]. reflexivity.
Qed.

(** A result that carries two of the diagnostic audits, in reverse order. *)
Lemma extract_diagnostics_entries_witness :
  let lighthouse_result :=
    [("audits", JDict [("dom-size", JDict [("title", JStr "DOM size")]);
                       ("bootup-time", JDict [("score", JNum 1)])])] in
  exists ds,
    extract_diagnostics lighthouse_result = Some ds /\
    exists audits,
      get_or lighthouse_result "audits" (JDict []) = JDict audits /\
      List.map (fun d => dict_lookup d "id") ds =
        List.map (fun audit_id => Some (JStr audit_id))
                 (List.filter (fun audit_id => truthy (get audits audit_id))
                              diagnostic_audits) /\
      Forall (fun d => List.map fst d =
                       ["id"; "title"; "description"; "value"; "score"; "details"]) ds /\
      (length ds <= 14)%nat.
Proof.
  intros lighthouse_result. eexists. split; [vm_compute; reflexivity|].
  apply (extract_diagnostics_entries lighthouse_result). vm_compute. reflexivity.
Defined.

(** ** Recommendations *)

Lemma length_flat_map_le {A B} (f : A -> list B) (n : nat) (l : list A) :
  (forall x, length (f x) <= n)%nat ->
  (length (flat_map f l) <= n * length l)%nat.
Proof.
  intros Hf. induction l as [|x l IH]; simpl; [lia|].
  rewrite length_app. specialize (Hf x). lia.
Qed.

Lemma flat_map_nil {A B} (f : A -> list B) (l : list A) :
  flat_map f l = [] <-> Forall (fun x => f x = []) l.
Proof.
  induction l as [|x l IH]; simpl.
  - split; [constructor|reflexivity].
  - rewrite Forall_cons_iff, <- IH. split.
    + intros H. now apply app_eq_nil in H.
    + intros [-> ->]. reflexivity.
Qed.

(** The recommendations are never empty and hold at most nine messages;
    they consist of the single [well-optimized] message exactly when no
    rule fires: each of the performance, SEO and accessibility scores is
    absent or at least 90, none of the LCP, CLS and FID categories is
    [poor], and none of the first three opportunities has priority [high].
    The best practices score, the FCP and TTFB categories and the
    opportunities after the third play no part. *)
Theorem generate_recommendations_well_optimized (response : SEOHealthResponse) :
  let recs := generate_recommendations response in
  let cwv := core_web_vitals response in
  (1 <= length recs <= 9)%nat /\
  (recs = ["✅ Great job! Your website is well-optimized. Continue monitoring for any changes."]
   <->
   (forall s, performance_score response = Some s -> 90 <= s) /\
   (forall s, seo_score response = Some s -> 90 <= s) /\
   (forall s, accessibility_score response = Some s -> 90 <= s) /\
   lcp_category cwv <> Some "poor" /\
   cls_category cwv <> Some "poor" /\
   fid_category cwv <> Some "poor" /\
   Forall (fun opp => opp_priority opp <> "high")
          (firstn 3%nat (opportunities response))).
Proof.
  cbv zeta. unfold generate_recommendations. cbv zeta.
  set (top := firstn 3%nat (opportunities response)).
  assert (Htop : (length top <= 3)%nat) by (unfold top; rewrite length_firstn; lia).
  set (f := fun opp => if decide (opp_priority opp = "high")
                       then [opportunity_message opp] else []).
  pose proof (length_flat_map_le f 1 top) as Hlen.
  assert (Hf : forall x, (length (f x) <= 1)%nat)
    by (intros x; unfold f; destruct (decide _); simpl; lia).
  specialize (Hlen Hf).
  assert (Hnil : flat_map f top = [] <-> Forall (fun opp => opp_priority opp <> "high") top).
  { rewrite flat_map_nil. apply Forall_iff. intros opp. unfold f.
    destruct (decide (opp_priority opp = "high")); split; congruence. }
  assert (Hclear : forall o,
             In "✅ Great job! Your website is well-optimized. Continue monitoring for any changes."
                (flat_map f o) -> False).
  { intros o Hin. apply in_flat_map in Hin as (opp & _ & Hin). unfold f in Hin.
    destruct (decide _); [|destruct Hin].
    destruct Hin as [Hin|[]]. unfold opportunity_message in Hin. discriminate. }
  clearbody top. fold f.
  destruct (performance_score response) as [p|];
    destruct (seo_score response) as [s|];
    destruct (accessibility_score response) as [a|];
    repeat match goal with
           | |- context [?x <? ?y] => destruct (Z.ltb_spec x y)
           | |- context [decide ?P] => destruct (decide P)
           end;
    cbn [app];
    (split;
     [ first [ destruct (flat_map f top) eqn:Ef; simpl in *; lia | simpl in *; lia ]
     | split;
       [ intros Heq;
         first [ discriminate Heq
               | exfalso; injection Heq as Heq _; discriminate Heq
               | destruct (flat_map f top) as [|m ms] eqn:Ef;
                 [ repeat split; try congruence; try (intros ? [= <-]; lia);
                   now apply Hnil
                 | exfalso; apply (Hclear top); rewrite Ef, Heq; now left ] ]
       | intros (Hp & Hs & Ha & Hl & Hc & Hfi & Ho);
         try (specialize (Hp _ eq_refl)); try (specialize (Hs _ eq_refl));
         try (specialize (Ha _ eq_refl)); try lia; try congruence;
         apply Hnil in Ho; rewrite Ho; reflexivity ] ]).
Qed.

Lemma sort_by_head_least {A} (key : A -> Q) (l : list A) (x : A) :
  In x l ->
  exists h rest, sort_by key l = h :: rest /\ In h l /\ (key h <= key x)%Q.
Proof.
  intros Hx.
  pose proof (sort_by_sorted key l) as Hs. pose proof (sort_by_perm key l) as Hp.
  destruct (sort_by key l) as [|h rest].
  - apply Permutation_nil in Hp. subst l. destruct Hx.
  - exists h, rest. split; [reflexivity|]. split.
    + apply (Permutation_in _ Hp). now left.
    + apply (Permutation_in _ (Permutation_sym Hp)) in Hx.
      destruct Hx as [<-|Hx]; [apply Qle_refl|].
      inversion Hs as [|? ? _ Hall]; subst.
      rewrite List.Forall_forall in Hall. now apply Hall.
Qed.

Lemma In_or_default {A} (x c : A) (l : list A) :
  In x l -> In x (match l with [] => [c] | _ :: _ => l end).
Proof. destruct l; [intros []|trivial]. Qed.

(** When a check of the allow-list scores above 0 and below 0.5, the
    opportunity listed first has a score other than 0 that is no higher and
    priority [high], and the recommendations carry its message. *)
Theorem generate_recommendations_first_opportunity
    (response : SEOHealthResponse) (audits : gmap str Audit)
    (audit_id : str) (audit : Audit) (s : Q) :
  opportunities response = extract_opportunities audits ->
  In audit_id opportunity_audits ->
  audits !! audit_id = Some audit ->
  audit_score audit = Some s ->
  (0 < s < 0.5)%Q ->
  exists opp rest s',
    opportunities response = opp :: rest /\
    opp_score opp = Some s' /\ ((s' <= s)%Q /\ ~ (s' == 0)%Q) /\
    opp_priority opp = "high" /\
    In (opportunity_message opp) (generate_recommendations response).
Proof.
  intros Ho Hid Ha Hs [Hpos Hlow].
  set (o := {| opp_title := default audit_id (audit_title audit);
               opp_description := default "" (audit_description audit);
               opp_score := Some s;
               opp_savings := Some (default "" (audit_displayValue audit));
               opp_priority := if Qlt_bool s 0.5 then "high" else "medium" |}).
  assert (Hin : In o (flat_map (opportunity_of audits) opportunity_audits)).
  { apply in_flat_map. exists audit_id. split; [exact Hid|].
    unfold opportunity_of. rewrite Ha, Hs.
    assert (Hl : Qlt_bool s 1 = true) by (apply Qlt_bool_iff; lra).
    rewrite Hl. now left. }
  destruct (sort_by_head_least score_or_1 _ o Hin) as (h & rest & Hsort & Hh & Hkey).
  assert (Hko : (score_or_1 o == s)%Q).
  { unfold score_or_1, o. cbn [opp_score].
    destruct (Qeq_bool s 0) eqn:E; [apply Qeq_bool_iff in E; lra|reflexivity]. }
  apply in_flat_map in Hh as (id' & _ & Hh). unfold opportunity_of in Hh.
  destruct (audits !! id') as [a'|]; [|destruct Hh].
  destruct (audit_score a') as [s'|]; [|destruct Hh].
  destruct (Qlt_bool s' 1); [|destruct Hh].
  destruct Hh as [Hh|[]].
  assert (Hs' : ((s' <= s)%Q /\ ~ (s' == 0)%Q) /\ Qlt_bool s' 0.5 = true).
  { rewrite Hko in Hkey. rewrite <- Hh in Hkey.
    unfold score_or_1 in Hkey. cbn [opp_score] in Hkey.
    destruct (Qeq_bool s' 0) eqn:E; [lra|].
    assert (Hne : ~ (s' == 0)%Q) by (intros C; apply Qeq_bool_iff in C; congruence).
    rewrite Qlt_bool_iff. repeat split; [lra|exact Hne|lra]. }
  destruct Hs' as [Hs' Hhigh].
  exists h, rest, s'. rewrite Ho. unfold extract_opportunities.
  split; [exact Hsort|].
  split; [now rewrite <- Hh|]. split; [exact Hs'|].
  assert (Hp : opp_priority h = "high") by (rewrite <- Hh; cbn [opp_priority]; now rewrite Hhigh).
  split; [exact Hp|].
  unfold generate_recommendations. cbv zeta. apply In_or_default.
  rewrite Ho. unfold extract_opportunities. rewrite Hsort.
  do 6 (apply in_or_app; right).
  cbn [firstn flat_map]. rewrite Hp.
  destruct (decide ("high" = "high")) as [_|C]; [|now destruct C].
  now left.
Qed.

(** A result whose only failing check scores 0.42. *)
Lemma generate_recommendations_first_opportunity_witness :
  let audits : gmap str Audit :=
    <["unused-javascript" := {| audit_title := Some "Reduce unused JavaScript";
                                audit_description := Some "Remove dead code.";
                                audit_score := Some 0.42%Q;
                                audit_displayValue := None |}]> ∅ in
  let response :=
    {| resp_url := "https://example.com/"; resp_strategy := "mobile";
       performance_score := Some 95; seo_score := None;
       accessibility_score := None; best_practices_score := None;
       core_web_vitals := {| lcp := None; lcp_category := None; fid := None;
                             fid_category := None; cls := None; cls_category := None;
                             fcp := None; fcp_category := None; ttfb := None;
                             ttfb_category := None |};
       opportunities := extract_opportunities audits;
       diagnostics := []; metadata := []; recommendations := [] |} in
  exists opp rest s',
    opportunities response = opp :: rest /\
    opp_score opp = Some s' /\ ((s' <= 0.42)%Q /\ ~ (s' == 0)%Q) /\
    opp_priority opp = "high" /\
    In (opportunity_message opp) (generate_recommendations response).
Proof.
  intros audits response.
  apply (generate_recommendations_first_opportunity response audits
           "unused-javascript"
           {| audit_title := Some "Reduce unused JavaScript";
              audit_description := Some "Remove dead code.";
              audit_score := Some 0.42%Q;
              audit_displayValue := None |} 0.42%Q).
  - reflexivity.
  - simpl. tauto.
  - reflexivity.
  - reflexivity.
  - split; reflexivity.
Defined.

(** ** Countries *)



(** ** The domain of a URL *)

Lemma remove_from_skip old pre rest :
  remove_from (length pre) old (pre ++ rest) = remove_from 0 old rest.
Proof. induction pre as [|c pre IH]; simpl; [reflexivity|exact IH]. Qed.

Lemma remove_from_keep old a b :
  (forall a1 a2, a = a1 ++ a2 -> a2 <> [] -> startswith old (a2 ++ b) = false) ->
  remove_from 0 old (a ++ b) = a ++ remove_from 0 old b.
Proof.
  induction a as [|c a IH]; intros H; [reflexivity|].
  change (remove_from 0 old ((c :: a) ++ b)) with
    (if startswith old ((c :: a) ++ b)
     then remove_from (length old - 1) old (a ++ b)
     else c :: remove_from 0 old (a ++ b)).
  rewrite (H [] (c :: a) eq_refl) by discriminate.
  rewrite IH; [reflexivity|].
  intros a1 a2 -> Hne. apply (H (c :: a1) a2); [reflexivity|exact Hne].
Qed.

Lemma first_separator_unique (sep : ascii) a t o1 o2 :
  a ++ sep :: t = o1 ++ sep :: o2 -> sep ∉ a -> sep ∉ o1 -> a = o1.
Proof.
  revert o1. induction a as [|c a IH]; intros [|d o1] H Ha Ho; simpl in H.
  - reflexivity.
  - injection H as <- _. exfalso. apply Ho. left.
  - injection H as -> _. exfalso. apply Ha. left.
  - injection H as -> H. f_equal. apply (IH o1 H).
    + intros C. apply Ha. now right.
    + intros C. apply Ho. now right.
Qed.

Lemma remove_scheme_keeps_host old o1 o2 host b :
  old = o1 ++ "/"%char :: o2 -> "/"%char ∉ o1 -> last o1 = Some ":"%char ->
  "/"%char ∉ host -> last host <> Some ":"%char -> url_tail b ->
  exists b', url_tail b' /\ remove_from 0 old (host ++ b) = host ++ b'.
Proof.
  intros Hold Ho1 Hlast Hhost Hcolon Hb.
  assert (Hkeep : remove_from 0 old (host ++ b) = host ++ remove_from 0 old b).
  { apply remove_from_keep. intros a1 a2 -> Hne.
    destruct (startswith old (a2 ++ b)) eqn:E; [|reflexivity]. exfalso.
    apply startswith_true in E as [r Hr]. rewrite Hold, <- app_assoc in Hr. simpl in Hr.
    assert (Ha2 : "/"%char ∉ a2) by (intros C; apply Hhost, elem_of_app; now right).
    destruct Hb as [->|[path ->]].
    - rewrite app_nil_r in Hr. apply Ha2. rewrite Hr.
      apply elem_of_app. right. left.
    - apply first_separator_unique in Hr; [|exact Ha2|exact Ho1]. subst a2.
      apply Hcolon. now rewrite last_app, Hlast. }
  rewrite Hkeep. destruct Hb as [->|[path ->]].
  - exists []. split; [now left|reflexivity].
  - exists ("/"%char :: remove_from 0 old path). split; [right; now eexists|].
    f_equal. simpl.
    assert (E : startswith old ("/"%char :: path) = false).
    { destruct (startswith old ("/"%char :: path)) eqn:E; [|reflexivity]. exfalso.
      apply startswith_true in E as [r Hr]. rewrite Hold in Hr.
      destruct o1 as [|c o1]; [discriminate|]. simpl in Hr. injection Hr as <- _.
      apply Ho1. left. }
    now rewrite E.
Qed.

Lemma split_on_first (sep : ascii) a b :
  sep ∉ a -> b = [] \/ (exists t, b = sep :: t) ->
  hd [] (split_on sep (a ++ b)) = a.
Proof.
  intros Ha Hb. induction a as [|c a IH]; simpl.
  - destruct Hb as [->|[t ->]]; simpl; [reflexivity|]. now rewrite Ascii.eqb_refl.
  - destruct (Ascii.eqb_spec c sep) as [->|_]; [exfalso; apply Ha; left|].
    assert (IH' : hd [] (split_on sep (a ++ b)) = a)
      by (apply IH; intros C; apply Ha; now right).
    destruct (split_on sep (a ++ b)) as [|l ls] eqn:E;
      [now apply split_on_nonempty in E|].
    simpl in *. now subst.
Qed.

(** The domain taken from a URL is its host, port included, whatever path
    or query follows; a leading [www.] stays. *)
Theorem url_domain_host (scheme host rest : str) :
  In scheme ["https://"; "http://"] ->
  "/"%char ∉ host -> last host <> Some ":"%char ->
  rest = [] \/ (exists path, rest = "/"%char :: path) ->
  url_domain (scheme ++ host ++ rest) = host.
Proof.
  intros Hs Hhost Hcolon Hrest. unfold url_domain, remove_all.
  assert (Hsl : forall p : str, "/"%char ∉ p <-> ~ In "/"%char p)
    by (intros p; now rewrite list_elem_of_In).
  destruct (remove_scheme_keeps_host "https://" "https:" "/" host rest)
    as (b1 & Hb1 & E1); try assumption; try reflexivity.
  { apply Hsl. simpl. intuition discriminate. }
  destruct (remove_scheme_keeps_host "http://" "http:" "/" host b1)
    as (b2 & Hb2 & E2); try assumption; try reflexivity.
  { apply Hsl. simpl. intuition discriminate. }
  simpl in Hs. destruct Hs as [<-|[<-|[]]].
  - change (remove_from 0 "https://" ("https://" ++ host ++ rest))
      with (remove_from 0 "https://" (host ++ rest)).
    rewrite E1, E2. now apply split_on_first.
  - change (remove_from 0 "https://" ("http://" ++ host ++ rest))
      with ("http://" ++ remove_from 0 "https://" (host ++ rest)).
    rewrite E1.
    change (remove_from 0 "http://" ("http://" ++ host ++ b1))
      with (remove_from 0 "http://" (host ++ b1)).
    rewrite E2. now apply split_on_first.
Qed.

(** The domain of a URL with a port, a path and a query. *)
Lemma url_domain_host_witness :
  url_domain ("https://" ++ "www.example.com:8443" ++ "/a/b?next=http://x.org/") =
  "www.example.com:8443".
Proof.
  apply (url_domain_host "https://" "www.example.com:8443" "/a/b?next=http://x.org/").
  - simpl. tauto.
  - rewrite list_elem_of_In. simpl. intuition discriminate.
  - discriminate.
  - right. now eexists.
Defined.

(** ** Keywords *)

(** The keywords are built from the first label of the domain, the text
    before its first dot: the label itself, then the label with [login],
    [reviews], [pricing], [alternative], [vs competitor], [tutorial] and
    [api].  For a domain that starts with [www.] the label is [www]. *)
Theorem estimate_top_keywords_label (label rest : str) (d : KeywordDraws) :
  "."%char ∉ label ->
  rest = [] \/ (exists t, rest = "."%char :: t) ->
  List.map kw_keyword (estimate_top_keywords (label ++ rest) d) =
  [label; label ++ " login"; label ++ " reviews"; label ++ " pricing";
   "best " ++ label ++ " alternative"; label ++ " vs competitor";
   label ++ " tutorial"; label ++ " api"].
Proof.
  intros Hl Hr. unfold estimate_top_keywords. cbv zeta.
  rewrite (split_on_first _ _ _ Hl Hr). reflexivity.
Qed.

(** The keywords of a [www] host. *)
Lemma estimate_top_keywords_label_witness :
  let d := {| draw_position := fun _ => 1; draw_volume := fun _ => 5000;
              draw_cpc := fun _ => 1.5%Q |} in
  List.map kw_keyword (estimate_top_keywords ("www" ++ ".example.com") d) =
  ["www"; "www" ++ " login"; "www" ++ " reviews"; "www" ++ " pricing";
   "best " ++ "www" ++ " alternative"; "www" ++ " vs competitor";
   "www" ++ " tutorial"; "www" ++ " api"].
Proof.
  intros d. apply (estimate_top_keywords_label "www" ".example.com" d).
  - rewrite list_elem_of_In. simpl. intuition discriminate.
  - right. now eexists.
Defined.

(** ** Traffic recommendations *)

Lemma length_if_le {A} (c : bool) (x : A) :
  (length (if c then [x] else []) <= 1)%nat.
Proof. destruct c; simpl; lia. Qed.

(** The traffic recommendations hold between 5 and 11 messages: one or two
    on the volume of visits, two exactly when it is below 50,000, up to
    five on sources, bounce rate and pages per visit, and the four general
    messages at the end. *)
Theorem generate_traffic_recommendations_shape (response : TrafficResponse) :
  exists volume specific,
    generate_traffic_recommendations response =
      volume ++ specific ++
      [[Txt "🎯 Focus on high-volume, low-competition keywords for quick wins."];
       [Txt "📧 Implement email marketing to increase returning visitors."];
       [Txt "🔗 Build quality backlinks to improve domain authority and organic traffic."];
       [Txt "📱 Ensure mobile optimization as mobile traffic continues to grow."]] /\
    length volume = (if monthly_visits (metrics response) <? 50000 then 2%nat else 1%nat) /\
    (length specific <= 5)%nat /\
    (5 <= length (generate_traffic_recommendations response) <= 11)%nat.
Proof.
  unfold generate_traffic_recommendations. cbv zeta.
  match goal with
  | |- exists volume specific, ?v ++ ?a ++ ?b ++ ?c ++ ?d ++ ?e ++ ?g = _ /\ _ =>
      exists v, (a ++ b ++ c ++ d ++ e);
      assert (Ha : (length a <= 1)%nat) by apply length_if_le;
      assert (Hb : (length b <= 1)%nat) by apply length_if_le;
      assert (Hc : (length c <= 1)%nat) by apply length_if_le;
      assert (Hd : (length d <= 1)%nat)
        by (destruct (bounce_rate (metrics response)); [apply length_if_le|simpl; lia]);
      assert (He : (length e <= 1)%nat)
        by (destruct (pages_per_visit (metrics response)); [apply length_if_le|simpl; lia]);
      assert (Hv : length v = (if monthly_visits (metrics response) <? 50000
                               then 2%nat else 1%nat))
        by (destruct (monthly_visits (metrics response) <? 50000); [reflexivity|];
            destruct (monthly_visits (metrics response) <? 200000); reflexivity);
      set (va := v) in *; set (aa := a) in *; set (bb := b) in *;
      set (cc := c) in *; set (dd := d) in *; set (ee := e) in *
  end.
  clearbody va aa bb cc dd ee.
  split; [now rewrite <- !app_assoc|]. split; [exact Hv|].
  rewrite !length_app. simpl length.
  destruct (monthly_visits (metrics response) <? 50000); lia.
Qed.

(** ** The traffic estimate *)

Lemma estimate_traffic_sources_six total_visits sd :
  source_draws_ok sd ->
  exists srcs, estimate_traffic_sources total_visits sd = Some srcs /\ length srcs = 6%nat.
Proof.
  intros (H1 & H2 & H3 & H4 & H5 & H6).
  unfold estimate_traffic_sources. cbv zeta. simpl List.map at 1. unfold sum_Q at 1.
  simpl fold_right.
  set (total := (draw_organic sd + (draw_direct sd + (draw_referral sd +
                 (draw_social sd + (draw_paid sd + (draw_email sd + 0))))))%Q).
  assert (Ht : (0 < total)%Q) by (subst total; lra).
  destruct (Qeq_bool total 0) eqn:E; [apply Qeq_bool_iff in E; lra|].
  eexists. split; reflexivity.
Qed.

(** With source weights in their ranges, the estimate fails exactly when
    the visit figure is refused: the domain of the URL is shorter than 10
    characters and carries no [.gov] or [.edu], and the base figure drawn
    is odd.  Sources, countries and keywords never make it fail. *)
Theorem estimate_traffic_refused
    (request : TrafficRequest) (md : MetricsDraws) (sd : SourceDraws)
    (kd : KeywordDraws) (trend confidence : str) :
  source_draws_ok sd ->
  estimate_traffic request md sd kd trend confidence = None <->
  len (url_domain (traffic_url request)) < 10 /\
  has_gov_or_edu (url_domain (traffic_url request)) = false /\
  Z.odd (draw_base md) = true.
Proof.
  intros Hsd. rewrite <- monthly_visits_refused.
  unfold estimate_traffic. cbv zeta.
  set (domain := url_domain (traffic_url request)).
  unfold estimate_traffic_metrics. cbv zeta.
  match goal with
  | |- context [int_field ?x] => destruct (int_field x) as [visits|]
  end; cbn [mbind option_bind monthly_visits]; [|split; reflexivity].
  destruct (truthy_bool (include_sources request)).
  - destruct (estimate_traffic_sources_six visits sd Hsd) as (srcs & -> & _).
    cbn [mbind option_bind]. split; discriminate.
  - cbn [mbind option_bind]. split; discriminate.
Qed.

(** A short domain and an odd base figure. *)
Lemma estimate_traffic_refused_witness :
  let request := {| traffic_url := "https://a.io/"; include_sources := Some true;
                    include_countries := Some true; include_keywords := Some true |} in
  let md := {| draw_base := 10001; draw_minutes := 2; draw_seconds := 0;
               draw_pages := 2; draw_bounce := 0.5 |} in
  let sd := {| draw_organic := 0.5; draw_direct := 0.25; draw_referral := 0.1;
               draw_social := 0.05; draw_paid := 0.05; draw_email := 0.05 |} in
  let kd := {| draw_position := fun _ => 1; draw_volume := fun _ => 5000;
               draw_cpc := fun _ => 1.5%Q |} in
  source_draws_ok sd /\
  (estimate_traffic request md sd kd "stable" "medium" = None <->
   len (url_domain (traffic_url request)) < 10 /\
   has_gov_or_edu (url_domain (traffic_url request)) = false /\
   Z.odd (draw_base md) = true).
Proof.
  intros request md sd kd.
  assert (H : source_draws_ok sd).
  { unfold source_draws_ok, sd. simpl. repeat split; discriminate. }
  split; [exact H|].
  exact (estimate_traffic_refused request md sd kd "stable" "medium" H).
Defined.

(** An estimate carries 6 sources, 10 countries and 8 keywords, each list
    empty instead when the request leaves it out; and when the sources are
    left out the recommendations still judge them, reporting organic and
    direct traffic of 0% and low social traffic. *)
Theorem estimate_traffic_sections
    (request : TrafficRequest) (md : MetricsDraws) (sd : SourceDraws)
    (kd : KeywordDraws) (trend confidence : str) (resp : TrafficResponse) :
  source_draws_ok sd ->
  estimate_traffic request md sd kd trend confidence = Some resp ->
  traffic_resp_url resp = traffic_url request /\
  length (traffic_sources resp) =
    (if truthy_bool (include_sources request) then 6%nat else 0%nat) /\
  length (top_countries resp) =
    (if truthy_bool (include_countries request) then 10%nat else 0%nat) /\
  length (top_keywords resp) =
    (if truthy_bool (include_keywords request) then 8%nat else 0%nat) /\
  (truthy_bool (include_sources request) = false ->
   In [Txt "🔍 Organic search is only "; Int 0;
       Txt "% of traffic. Invest in SEO to improve organic visibility."]
      (traffic_recommendations resp) /\
   In [Txt "👋 Direct traffic is "; Int 0;
       Txt "%. Build brand awareness to increase direct visits."]
      (traffic_recommendations resp) /\
   In [Txt "📱 Low social media traffic. Develop a social media strategy to drive more visits."]
      (traffic_recommendations resp)).
Proof.
  intros Hsd. unfold estimate_traffic. cbv zeta.
  set (domain := url_domain (traffic_url request)).
  destruct (estimate_traffic_metrics domain md) as [m|];
    cbn [mbind option_bind]; [|discriminate].
  destruct (truthy_bool (include_sources request)) eqn:Es.
  - destruct (estimate_traffic_sources_six (monthly_visits m) sd Hsd) as (srcs & -> & Hlen).
    cbn [mbind option_bind]. intros [= <-].
    cbn [traffic_resp_url traffic_sources top_countries top_keywords].
    split; [reflexivity|]. split; [exact Hlen|].
    split; [destruct (truthy_bool (include_countries request)); reflexivity|].
    split; [destruct (truthy_bool (include_keywords request)); reflexivity|].
    discriminate.
  - cbn [mbind option_bind]. intros [= <-].
    cbn [traffic_resp_url traffic_sources top_countries top_keywords traffic_recommendations].
    split; [reflexivity|]. split; [reflexivity|].
    split; [destruct (truthy_bool (include_countries request)); reflexivity|].
    split; [destruct (truthy_bool (include_keywords request)); reflexivity|].
    intros _. unfold generate_traffic_recommendations.
    cbn [traffic_sources source_percentage List.find fmap option_fmap option_map
         pct_value pct_part from_option id].
    change (Qlt_bool 0 40) with true. change (Qlt_bool 0 20) with true.
    change (Qlt_bool 0 5) with true. cbv iota.
    repeat split.
    + apply in_or_app. right. apply in_or_app. left. now left.
    + do 2 (apply in_or_app; right). apply in_or_app. left. now left.
    + do 3 (apply in_or_app; right). apply in_or_app. left. now left.
Qed.

(** An estimate without its sources. *)
Lemma estimate_traffic_sections_witness :
  let request := {| traffic_url := "https://example.com/"; include_sources := Some false;
                    include_countries := Some true; include_keywords := None |} in
  let md := {| draw_base := 10001; draw_minutes := 2; draw_seconds := 0;
               draw_pages := 2; draw_bounce := 0.5 |} in
  let sd := {| draw_organic := 0.5; draw_direct := 0.25; draw_referral := 0.1;
               draw_social := 0.05; draw_paid := 0.05; draw_email := 0.05 |} in
  let kd := {| draw_position := fun _ => 1; draw_volume := fun _ => 5000;
               draw_cpc := fun _ => 1.5%Q |} in
  exists resp,
    estimate_traffic request md sd kd "stable" "medium" = Some resp /\
    length (traffic_sources resp) = 0%nat /\
    length (top_countries resp) = 10%nat /\
    length (top_keywords resp) = 0%nat /\
    In [Txt "👋 Direct traffic is "; Int 0;
        Txt "%. Build brand awareness to increase direct visits."]
       (traffic_recommendations resp).
Proof.
  intros request md sd kd.
  assert (H : source_draws_ok sd).
  { unfold source_draws_ok, sd. simpl. repeat split; discriminate. }
  destruct (estimate_traffic request md sd kd "stable" "medium") as [resp|] eqn:E;
    [|vm_compute in E; discriminate E].
  exists resp. split; [reflexivity|].
  destruct (estimate_traffic_sections request md sd kd "stable" "medium" resp H E)
    as (_ & H1 & H2 & H3 & H4).
  split; [exact H1|]. split; [exact H2|]. split; [exact H3|].
  apply H4. reflexivity.
Defined.

(** * GEO recommendations *)

Lemma counters_lookup a b c :
  counters a b c !! "positive" = Some a /\
  counters a b c !! "negative" = Some b /\
  counters a b c !! "neutral" = Some c.
Proof. unfold counters. repeat split; reflexivity. Qed.

Lemma sum_values_counters a b c : sum_values (counters a b c) = a + b + c.
Proof.
  unfold sum_values, counters.
  rewrite !map_fold_insert_L, map_fold_empty; try reflexivity; intros; lia.
Qed.

Lemma count_sentiment_counters domain a b c m :
  probed domain m ->
  exists a' b' c',
    count_sentiment (counters a b c) m = counters a' b' c' /\
    a <= a' /\ b <= b' /\ c <= c'.
Proof.
  unfold count_sentiment.
  destruct (counters_lookup a b c) as (Ha & Hb & Hc).
  intros [(_ & _ & -> & _)|(_ & _ & Hs & _)].
  - exists a, b, c. repeat split; lia.
  - destruct Hs as [->|[->| ->]]; cbn [truthy_str].
    + exists (a + 1), b, c. split; [|lia]. rewrite Ha. unfold counters.
      apply map_eq. intros k. rewrite !lookup_insert.
      repeat case_decide; try congruence; reflexivity.
    + exists a, (b + 1), c. split; [|lia]. rewrite Hb. unfold counters.
      apply map_eq. intros k. rewrite !lookup_insert.
      repeat case_decide; try congruence; reflexivity.
    + exists a, b, (c + 1). split; [|lia]. rewrite Hc. unfold counters.
      apply map_eq. intros k. rewrite !lookup_insert.
      repeat case_decide; try congruence; reflexivity.
Qed.

Lemma fold_count_sentiment_counters domain ms a b c :
  Forall (probed domain) ms ->
  exists a' b' c',
    fold_left count_sentiment ms (counters a b c) = counters a' b' c' /\
    a <= a' /\ b <= b' /\ c <= c'.
Proof.
  intros H. revert a b c. induction H as [|m ms Hm _ IH]; intros a b c; simpl.
  - exists a, b, c. repeat split; lia.
  - destruct (count_sentiment_counters domain a b c m Hm) as (a1 & b1 & c1 & -> & ?).
    destruct (IH a1 b1 c1) as (a2 & b2 & c2 & -> & ?).
    exists a2, b2, c2. split; [reflexivity|lia].
Qed.

(** The breakdown of an analysis: three counters, none negative, that add
    up to the number of probes that mention the domain. *)
Lemma summarize_counters domain ms :
  Forall (probed domain) ms ->
  exists a b c,
    sentiment_breakdown (summarize ms) = counters a b c /\
    0 <= a /\ 0 <= b /\ 0 <= c /\
    a + b + c = mentions_found (summarize ms).
Proof.
  intros H. cbn [summarize sentiment_breakdown mentions_found].
  destruct (fold_count_sentiment_counters domain ms 0 0 0 H) as (a & b & c & E & ?).
  pose proof (breakdown_total_fold domain ms initial_breakdown H) as Ht.
  change initial_breakdown with (counters 0 0 0) in *. rewrite E in *.
  exists a, b, c. split; [reflexivity|].
  unfold breakdown_total in Ht. destruct (counters_lookup a b c) as (-> & -> & ->) in Ht.
  destruct (counters_lookup 0 0 0) as (-> & -> & ->) in Ht. simpl in Ht. lia.
Qed.

Lemma ratio_below (n total k d : Z) :
  0 < total -> 0 < d ->
  Qlt_bool (inject_Z n / inject_Z total) (k # Z.to_pos d) = true <-> d * n < k * total.
Proof.
  intros Ht Hd. rewrite Qlt_bool_iff.
  destruct total as [|t|t]; try lia. destruct d as [|d|d]; try lia.
  unfold Qlt, Qdiv, Qmult, Qinv, inject_Z. simpl. lia.
Qed.

Lemma ratio_above (n total k d : Z) :
  0 < total -> 0 < d ->
  Qlt_bool (k # Z.to_pos d) (inject_Z n / inject_Z total) = true <-> k * total < d * n.
Proof.
  intros Ht Hd. rewrite Qlt_bool_iff.
  destruct total as [|t|t]; try lia. destruct d as [|d|d]; try lia.
  unfold Qlt, Qdiv, Qmult, Qinv, inject_Z. simpl. lia.
Qed.

(** In the result of an analysis, the advice on sentiment follows the
    probes that mention the domain: low positive sentiment is reported
    exactly when some probe mentions the domain and fewer than half of the
    mentioning probes are positive (a neutral mention counts against it),
    negative sentiment exactly when more than a fifth of them are negative;
    the recommendations number between 6 and 10. *)
Theorem analyze_geo_sentiment_advice
    (gemini : str -> option str) (chatgpt : str -> str)
    (ec : str -> str -> list str) (request : GEORequest) (resp : GEOResponse) :
  analyze_geo gemini chatgpt ec request = Some resp ->
  let s := summary resp in
  let recs := generate_geo_recommendations resp in
  let positive := default 0 (sentiment_breakdown s !! "positive") in
  let negative := default 0 (sentiment_breakdown s !! "negative") in
  (In [Txt "📉 Low positive sentiment detected. Focus on improving customer experience and gathering positive reviews."]
      recs <->
   0 < mentions_found s /\ 2 * positive < mentions_found s) /\
  (In [Txt "⚠️ Negative sentiment detected. Address customer concerns and improve your online reputation."]
      recs <->
   mentions_found s < 5 * negative) /\
  (6 <= length recs <= 10)%nat.
Proof.
  intros H. cbv zeta.
  assert (Hs : exists domain ms, Forall (probed domain) ms /\ summary resp = summarize ms).
  { unfold analyze_geo in H.
    destruct (probe_all _ _ _ _ _ _) as [ms|] eqn:E; simpl in H; [|discriminate].
    injection H as <-. eexists. exists ms. split; [|reflexivity].
    exact (probe_all_probed _ _ _ _ _ _ _ E). }
  destruct Hs as (domain & ms & Hp & Hsum).
  destruct (summarize_counters domain ms Hp) as (a & b & c & Eb & Ha & Hb & Hc & Htot).
  unfold generate_geo_recommendations. cbv zeta. rewrite Hsum, Eb, sum_values_counters.
  destruct (counters_lookup a b c) as (-> & -> & _). cbn [from_option id].
  set (found := mentions_found (summarize ms)) in *. clearbody found.
  rewrite Htot.
  match goal with
  | |- context [[?v] ++ ?sen ++ ?r ++ ?k ++ ?g] =>
      set (V := v); set (S := sen); set (R := r); set (K := k); set (G := g)
  end.
  assert (HlenS : (length S <= 2)%nat /\
                  forall x, In x S <->
                    0 < found /\
                    ((x = [Txt "📉 Low positive sentiment detected. Focus on improving customer experience and gathering positive reviews."]
                      /\ 2 * a < found) \/
                     (x = [Txt "⚠️ Negative sentiment detected. Address customer concerns and improve your online reputation."]
                      /\ found < 5 * b))).
  { subst S. destruct (Z.gtb_spec found 0) as [Hpos|Hzero].
    - pose proof (ratio_below a found 5 10 Hpos ltac:(lia)) as H1.
      pose proof (ratio_above b found 2 10 Hpos ltac:(lia)) as H2.
      change (5 # Z.to_pos 10) with 0.5%Q in H1. change (2 # Z.to_pos 10) with 0.2%Q in H2.
      assert (P1 : if Qlt_bool (inject_Z a / inject_Z found) 0.5
                   then 2 * a < found else ~ 2 * a < found).
      { destruct (Qlt_bool (inject_Z a / inject_Z found) 0.5).
        - apply proj1 in H1. specialize (H1 eq_refl). lia.
        - intros C. apply proj2 in H1. assert (false = true) by (apply H1; lia).
          discriminate. }
      assert (P2 : if Qlt_bool 0.2 (inject_Z b / inject_Z found)
                   then found < 5 * b else ~ found < 5 * b).
      { destruct (Qlt_bool 0.2 (inject_Z b / inject_Z found)).
        - apply proj1 in H2. specialize (H2 eq_refl). lia.
        - intros C. apply proj2 in H2. assert (false = true) by (apply H2; lia).
          discriminate. }
      clear H1 H2.
      destruct (Qlt_bool (inject_Z a / inject_Z found) 0.5);
        destruct (Qlt_bool 0.2 (inject_Z b / inject_Z found));
        (split; [simpl; lia|]); intros x; simpl;
        (split;
         [ intros Hx; split; [lia|];
           repeat (destruct Hx as [<-|Hx];
                   [first [left; split; [reflexivity|lia]
                          |right; split; [reflexivity|lia]]|]);
           destruct Hx
         | intros [_ [[-> Hx]|[-> Hx]]];
           first [exfalso; lia | left; reflexivity | right; left; reflexivity] ]).
    - split; [simpl; lia|]. intros x. simpl. intuition lia. }
  destruct HlenS as [HlenS HinS].
  assert (HV : forall x, length x = 1%nat -> x <> V).
  { intros x Hx ->. subst V. revert Hx.
    destruct (Qlt_bool _ 0.3); [discriminate|]. destruct (Qlt_bool _ 0.7); discriminate. }
  assert (HR : forall x, length x = 1%nat -> ~ In x R).
  { intros x Hx. subst R. destruct (average_rank (summarize ms)) as [r|]; [|now intros []].
    destruct (_ && _); [|now intros []]. intros [<-|[]]. discriminate Hx. }
  assert (HK : forall x, length x = 1%nat -> ~ In x K).
  { intros x Hx. subst K. destruct (geo_keywords resp); [now intros []|].
    intros [<-|[]]. discriminate Hx. }
  assert (HlenR : (length R <= 1)%nat).
  { subst R. destruct (average_rank (summarize ms)); [apply length_if_le|simpl; lia]. }
  assert (HlenK : (length K <= 1)%nat).
  { subst K. destruct (geo_keywords resp); simpl; lia. }
  assert (HlenG : length G = 5%nat) by reflexivity.
  assert (HG : ~ In [Txt "📉 Low positive sentiment detected. Focus on improving customer experience and gathering positive reviews."] G /\
               ~ In [Txt "⚠️ Negative sentiment detected. Address customer concerns and improve your online reputation."] G).
  { subst G. simpl. split; intuition discriminate. }
  destruct HG as [HG1 HG2].
  clearbody V S R K G.
  split; [|split].
  - rewrite !in_app_iff, HinS. simpl.
    match goal with
    | |- ((?v = ?x \/ False) \/ _) <-> _ =>
        pose proof (HV x eq_refl) as HV1; pose proof (HR x eq_refl) as HR1;
        pose proof (HK x eq_refl) as HK1
    end.
    split.
    + intros [[Hx|[]]|[Hx|[Hx|[Hx|Hx]]]]; try tauto; try congruence.
      destruct Hx as (Hpos & [[_ Hx]|[Hx _]]); [tauto|discriminate Hx].
    + intros [Hpos Hx]. right. left. split; [exact Hpos|]. left. now split.
  - rewrite !in_app_iff, HinS. simpl.
    match goal with
    | |- ((?v = ?x \/ False) \/ _) <-> _ =>
        pose proof (HV x eq_refl) as HV1; pose proof (HR x eq_refl) as HR1;
        pose proof (HK x eq_refl) as HK1
    end.
    split.
    + intros [[Hx|[]]|[Hx|[Hx|[Hx|Hx]]]]; try tauto; try congruence.
      destruct Hx as (Hpos & [[Hx _]|[_ Hx]]); [discriminate Hx|exact Hx].
    + intros Hx. right. left. split; [lia|]. right. now split.
  - rewrite !length_app. simpl length. lia.
Qed.

(** An analysis where every probe mentions the domain without a judgement. *)
Lemma analyze_geo_sentiment_advice_witness :
  let request := {| req_domain := "acme.com"; req_keywords := [];
                    req_check_competitors := None |} in
  exists resp,
    analyze_geo (fun _ => Some "acme.com exists") (fun _ => "acme.com") (fun _ _ => [])
      request = Some resp /\
    In [Txt "📉 Low positive sentiment detected. Focus on improving customer experience and gathering positive reviews."]
       (generate_geo_recommendations resp).
Proof.
  intros request. eexists. split; [reflexivity|].
  apply (analyze_geo_sentiment_advice (fun _ => Some "acme.com exists")
           (fun _ => "acme.com") (fun _ _ => []) request _ eq_refl).
  split; vm_compute; reflexivity.
Defined.

Lemma not_mentioned_no_ranks domain ms :
  Forall (probed domain) ms ->
  len_list (List.filter mentioned ms) = 0 ->
  collect_ranks ms = [].
Proof.
  unfold collect_ranks, len_list.
  induction 1 as [|m ms Hm _ IH]; simpl; [reflexivity|].
  destruct Hm as [(-> & _ & _ & ->)|(-> & _)]; simpl.
  - exact IH.
  - intros C. lia.
Qed.

(** When no probe mentions the domain, the recommendations are the low
    visibility message with a rate of 0, the keyword message if keywords
    were given, and the five general messages: nothing on sentiment or
    rank. *)
Theorem analyze_geo_unmentioned_advice
    (gemini : str -> option str) (chatgpt : str -> str)
    (ec : str -> str -> list str) (request : GEORequest) (resp : GEOResponse) :
  analyze_geo gemini chatgpt ec request = Some resp ->
  mentions_found (summary resp) = 0 ->
  (mention_rate (summary resp) == 0)%Q /\
  generate_geo_recommendations resp =
    [[Txt "🚨 Low AI visibility: Your brand is only mentioned in ";
      Num0 (mention_rate (summary resp) * 100);
      Txt "% of queries. Increase content marketing and PR efforts to improve brand recognition."]] ++
    match req_keywords request with
    | [] => []
    | _ :: _ =>
        [[Txt "🎯 Target keywords analyzed: "; Txt (join ", " (req_keywords request));
          Txt ". Create comprehensive content around these topics to increase AI mentions."]]
    end ++
    [[Txt "📝 Create authoritative, well-structured content that AI models can easily reference."];
     [Txt "🔗 Build high-quality backlinks from reputable sources to increase training data presence."];
     [Txt "📱 Maintain active presence on platforms likely to be in training data (Wikipedia, Reddit, Quora)."];
     [Txt "⭐ Encourage and manage online reviews to influence sentiment in AI responses."];
     [Txt "🏆 Aim to be featured in 'best of' lists and comparison articles."]].
Proof.
  intros H.
  assert (Hs : exists domain ms, Forall (probed domain) ms /\ summary resp = summarize ms /\
                                 geo_keywords resp = req_keywords request).
  { unfold analyze_geo in H.
    destruct (probe_all _ _ _ _ _ _) as [ms|] eqn:E; simpl in H; [|discriminate].
    injection H as <-. eexists. exists ms. split; [|split; reflexivity].
    exact (probe_all_probed _ _ _ _ _ _ _ E). }
  destruct Hs as (domain & ms & Hp & Hsum & Hkw).
  destruct (summarize_counters domain ms Hp) as (a & b & c & Eb & Ha & Hb & Hc & Htot).
  rewrite Hsum. intros Hfound. rewrite Hfound in Htot.
  assert (Hrate : (mention_rate (summarize ms) == 0)%Q).
  { cbn [summarize mention_rate]. cbn [summarize mentions_found] in Hfound. rewrite Hfound.
    apply Qle_antisym; apply (py_round_between 0 0);
      destruct (len_list ms >? 0); split;
      try (unfold Qdiv; rewrite Qmult_0_l); apply Qle_refl. }
  split; [exact Hrate|].
  unfold generate_geo_recommendations. cbv zeta. rewrite Hsum, Eb, sum_values_counters, Hkw.
  assert (Hlow : Qlt_bool (mention_rate (summarize ms)) 0.3 = true)
    by (apply Qlt_bool_iff; rewrite Hrate; reflexivity).
  rewrite Hlow.
  replace (a + b + c) with 0 by lia. cbn [Z.gtb Z.compare].
  assert (Hr : average_rank (summarize ms) = None).
  { cbn [summarize average_rank].
    now rewrite (not_mentioned_no_ranks domain ms Hp Hfound). }
  rewrite Hr. reflexivity.
Qed.

(** An analysis of one keyword where no backend mentions the domain. *)
Lemma analyze_geo_unmentioned_advice_witness :
  let request := {| req_domain := "acme.com"; req_keywords := ["seo"];
                    req_check_competitors := None |} in
  exists resp,
    analyze_geo (fun _ => Some "nothing") (fun _ => "") (fun _ _ => []) request
      = Some resp /\
    (mention_rate (summary resp) == 0)%Q /\
    length (generate_geo_recommendations resp) = 7%nat.
Proof.
  intros request. eexists. split; [reflexivity|].
  destruct (analyze_geo_unmentioned_advice (fun _ => Some "nothing") (fun _ => "")
              (fun _ _ => []) request _ eq_refl eq_refl) as [Hrate Hrecs].
  split; [exact Hrate|]. rewrite Hrecs. reflexivity.
Defined.

(** * Further properties of the report builder *)

Lemma stats_row_refused seo key label v :
  dict_lookup seo key = Some v -> number v = None -> stats_row seo key label = None.
Proof.
  intros Hk Hn. unfold stats_row, has_key, get_or, status_of. rewrite Hk. simpl.
  now rewrite Hn.
Qed.

(** A SEO payload in which one of [performance_score], [seo_score] and
    [accessibility_score] is present without being a number, null included,
    makes the report fail, whatever the inclusion set: the key-metrics
    overview compares the score before any section is built. *)
Theorem create_pdf_report_null_score
    (request : ReportRequest) (now : str) (seo : Dict) (key : str) (v : Json) :
  seo_data request = Some seo ->
  In key ["performance_score"; "seo_score"; "accessibility_score"] ->
  dict_lookup seo key = Some v ->
  number v = None ->
  create_pdf_report request now = None.
Proof.
  intros Hseo Hkey Hk Hn. unfold create_pdf_report.
  assert (Hq : quick_stats request = None).
  { unfold quick_stats. rewrite Hseo.
    destruct seo as [|e seo']; [discriminate|].
    simpl in Hkey. destruct Hkey as [<-|[<-|[<-|[]]]].
    - now rewrite (stats_row_refused _ _ _ _ Hk Hn).
    - rewrite (stats_row_refused _ "seo_score" _ _ Hk Hn).
      now destruct (stats_row _ "performance_score" _).
    - rewrite (stats_row_refused _ "accessibility_score" _ _ Hk Hn).
      destruct (stats_row _ "performance_score" _); [|reflexivity].
      now destruct (stats_row _ "seo_score" _). }
  now rewrite Hq.
Qed.

(** A SEO payload whose SEO score is null, for a report of the GEO section
    only. *)
Lemma create_pdf_report_null_score_witness :
  create_pdf_report
    {| report_url := "https://example.com/";
       seo_data := Some [("performance_score", JNum 80); ("seo_score", JNull)];
       search_data := None; geo_data := None; traffic_data := None;
       include_sections := ["geo"]; company_name := None |}
    "January 15, 2024 at 10:30" = None.
Proof.
  apply (create_pdf_report_null_score _ _
           [("performance_score", JNum 80); ("seo_score", JNull)] "seo_score" JNull).
  - reflexivity.
  - simpl. tauto.
  - reflexivity.
  - reflexivity.
Defined.

(** Whenever a SEO payload is present and not empty, the document carries
    the key-metrics overview right after the executive summary, with at
    most four rows under its header, whether or not the SEO section is in
    the inclusion set. *)
Theorem create_pdf_report_overview
    (request : ReportRequest) (now : str) (elements : list Flowable) (seo : Dict) :
  create_pdf_report request now = Some elements ->
  seo_data request = Some seo -> seo <> [] ->
  exists rows rest,
    elements =
      title_page request now ++ executive_summary request ++
      [Paragraph [Lit "Key Metrics Overview"] subheading_style;
       Table ([[Lit "Metric"]; [Lit "Score"]; [Lit "Status"]] :: rows);
       Spacer 0.3; PageBreak] ++ rest /\
    (length rows <= 4)%nat.
Proof.
  unfold create_pdf_report. intros H Hseo Hne.
  destruct (quick_stats request) as [stats|] eqn:Eq; [|discriminate].
  cbn [mbind option_bind] in H.
  destruct (section_if request "seo" _ _) as [s1|]; [|discriminate].
  destruct (section_if request "search" _ _) as [s2|]; [|discriminate].
  destruct (section_if request "geo" _ _) as [s3|]; [|discriminate].
  destruct (section_if request "traffic" _ _) as [s4|]; [|discriminate].
  cbn [mbind option_bind] in H. injection H as <-.
  unfold quick_stats in Eq. rewrite Hseo in Eq.
  destruct seo as [|e seo']; [congruence|].
  destruct (stats_row _ "performance_score" _) as [r1|] eqn:E1; [|discriminate].
  destruct (stats_row _ "seo_score" _) as [r2|] eqn:E2; [|discriminate].
  destruct (stats_row _ "accessibility_score" _) as [r3|] eqn:E3; [|discriminate].
  cbn [mbind option_bind] in Eq.
  destruct (visits_row (traffic_data request)) as [r4|] eqn:E4; [|discriminate].
  cbn [mbind option_bind] in Eq. injection Eq as <-.
  exists (r1 ++ r2 ++ r3 ++ r4), (s1 ++ s2 ++ s3 ++ s4 ++ footer).
  split; [reflexivity|].
  assert (L : forall key label r, stats_row (e :: seo') key label = Some r ->
                                  (length r <= 1)%nat).
  { intros key label r. unfold stats_row.
    destruct (has_key _ _); [|intros [= <-]; simpl; lia].
    destruct (status_of _); simpl; [|discriminate]. intros [= <-]. simpl. lia. }
  assert (L4 : (length r4 <= 1)%nat).
  { unfold visits_row in E4. destruct (traffic_data request) as [[|? ?]|];
      try (injection E4 as <-; simpl; lia).
    destruct (dict_lookup _ "metrics"); [|injection E4 as <-; simpl; lia].
    destruct (as_dict _); simpl in E4; [|discriminate].
    destruct (fmt _ _); simpl in E4; [|discriminate].
    injection E4 as <-. simpl. lia. }
  apply L in E1, E2, E3. rewrite !length_app. lia.
Qed.

(** A SEO payload with a report of no section at all. *)
Lemma create_pdf_report_overview_witness :
  let request :=
    {| report_url := "https://example.com/";
       seo_data := Some [("performance_score", JNum 80)];
       search_data := None; geo_data := None; traffic_data := None;
       include_sections := []; company_name := None |} in
  exists elements rows rest,
    create_pdf_report request "January 15, 2024 at 10:30" = Some elements /\
    elements =
      title_page request "January 15, 2024 at 10:30" ++ executive_summary request ++
      [Paragraph [Lit "Key Metrics Overview"] subheading_style;
       Table ([[Lit "Metric"]; [Lit "Score"]; [Lit "Status"]] :: rows);
       Spacer 0.3; PageBreak] ++ rest /\
    (length rows <= 4)%nat.
Proof.
  intros request. eexists.
  destruct (create_pdf_report_overview request "January 15, 2024 at 10:30" _
              [("performance_score", JNum 80)] eq_refl eq_refl ltac:(discriminate))
    as (rows & rest & E & Hlen).
  exists rows, rest. split; [reflexivity|]. split; [exact E|exact Hlen].
Defined.



(** * Categories of a metric *)

(** A larger value never gets a better category, and the category is
    [unknown] exactly for a metric other than the five vitals. *)
Theorem categorize_metric_monotone (v w : Q) (metric : str) :
  (v <= w)%Q ->
  category_rank (categorize_metric v metric) <= category_rank (categorize_metric w metric) /\
  (categorize_metric v metric = "unknown" <->
   ~ In metric ["lcp"; "fid"; "cls"; "fcp"; "ttfb"]).
Proof.
  intros Hvw. unfold categorize_metric.
  destruct (thresholds !! metric) as [t|] eqn:Et.
  - split.
    + destruct (Qle_bool v (good t)) eqn:E1.
      * destruct (Qle_bool w (good t)); [reflexivity|].
        destruct (Qle_bool w (needs_improvement t)); vm_compute; discriminate.
      * assert (E1' : Qle_bool w (good t) = false).
        { destruct (Qle_bool w (good t)) eqn:E; [|reflexivity].
          apply Qle_bool_iff in E.
          assert (C : Qle_bool v (good t) = true) by (apply Qle_bool_iff; lra).
          congruence. }
        rewrite E1'. destruct (Qle_bool v (needs_improvement t)) eqn:E2.
        -- destruct (Qle_bool w (needs_improvement t)); vm_compute; discriminate.
        -- assert (E2' : Qle_bool w (needs_improvement t) = false).
           { destruct (Qle_bool w (needs_improvement t)) eqn:E; [|reflexivity].
             apply Qle_bool_iff in E.
             assert (C : Qle_bool v (needs_improvement t) = true)
               by (apply Qle_bool_iff; lra).
             congruence. }
           rewrite E2'. reflexivity.
    + split.
      * destruct (Qle_bool v (good t)); [discriminate|].
        destruct (Qle_bool v (needs_improvement t)); discriminate.
      * intros Hn. exfalso. apply Hn.
        unfold thresholds in Et. apply elem_of_list_to_map_2 in Et.
        apply list_elem_of_In in Et. simpl in Et.
        destruct Et as [E|[E|[E|[E|[E|[]]]]]]; injection E as <- _; simpl; tauto.
  - split; [reflexivity|]. split; [|reflexivity].
    intros _ Hin. simpl in Hin.
    destruct Hin as [<-|[<-|[<-|[<-|[<-|[]]]]]]; vm_compute in Et; discriminate.
Qed.

(** Two values of the largest contentful paint. *)
Lemma categorize_metric_monotone_witness :
  category_rank (categorize_metric 2.4 "lcp") <= category_rank (categorize_metric 4.2 "lcp") /\
  (categorize_metric 2.4 "lcp" = "unknown" <->
   ~ In "lcp" ["lcp"; "fid"; "cls"; "fcp"; "ttfb"]).
Proof. apply (categorize_metric_monotone 2.4 4.2 "lcp"). discriminate. Defined.

(** * Comparing traffic estimates *)

Lemma length_split_on sep s :
  length (split_on sep s) = S (count_occ ascii_dec s sep).
Proof.
  induction s as [|c s IH]; simpl; [reflexivity|].
  destruct (Ascii.eqb_spec c sep) as [->|Hne].
  - destruct (ascii_dec sep sep) as [_|C]; [|now destruct C]. simpl. now rewrite IH.
  - destruct (ascii_dec c sep) as [C|_]; [now destruct Hne|].
    destruct (split_on sep s) as [|l ls]; simpl in *; [discriminate|exact IH].
Qed.

Lemma Forall2_imap_map {A B C} (P : A -> C -> Prop) (f : nat -> B -> C)
    (h : A -> B) (l : list A) :
  (forall i x, P x (f i (h x))) -> Forall2 P l (imap f (List.map h l)).
Proof.
  revert f. induction l as [|x l IH]; intros f Hf; simpl; constructor.
  - apply Hf.
  - apply IH. intros i y. apply Hf.
Qed.

(** A comparison never fails: every part of the comma-separated list gives
    one entry, in order, an estimate for the validated URL or else the
    stripped part with its error; the number compared is the number of
    commas plus one, so that an empty list counts one failed entry. *)
Theorem compare_traffic_total
    (validate_url : str -> option str)
    (metrics_draws : nat -> MetricsDraws) (source_draws : nat -> SourceDraws)
    (keyword_draws : nat -> KeywordDraws) (trends confidences : nat -> str)
    (urls : str) :
  let result := compare_traffic validate_url metrics_draws source_draws keyword_draws
                                trends confidences urls in
  snd result = len_list (fst result) /\
  snd result = 1 + Z.of_nat (count_occ ascii_dec urls ","%char) /\
  Forall2 (fun part entry =>
             match entry with
             | Estimated response =>
                 validate_url (strip part) = Some (traffic_resp_url response)
             | Failed url => url = strip part
             end)
          (split_on "," urls) (fst result).
Proof.
  cbv zeta. unfold compare_traffic. cbn [fst snd].
  split; [reflexivity|]. split.
  - unfold len_list. rewrite length_imap, List.length_map, length_split_on. lia.
  - apply Forall2_imap_map. intros i part.
    destruct (validate_url (strip part)) as [u|] eqn:Ev; cbn [mbind option_bind];
      [|reflexivity].
    destruct (estimate_traffic _ _ _ _ _ _) as [r|] eqn:Er; [|reflexivity].
    unfold estimate_traffic in Er. cbv zeta in Er.
    destruct (estimate_traffic_metrics _ _); cbn [mbind option_bind] in Er; [|discriminate].
    destruct (estimate_traffic_sources _ _); cbn [mbind option_bind] in Er; [|discriminate].
    injection Er as <-. reflexivity.
Qed.
